(** * dev-helper: the command-safety gate and its callers

    A shallow embedding of the parts of dev-helper that decide whether an
    external command may run: the allow and deny tables and [isCommandSafe]
    of [utils/safety.js], the guarded runner of [utils/runner.js], and the
    detector and explain code that issue commands through it.

    JavaScript strings are sequences of UTF-16 code units; a code unit is a
    number of type [N].  Regular expressions are given the semantics of
    ECMA-262 (matchers in continuation-passing style) restricted to the
    constructs the source uses. *)

From Stdlib Require Import ZArith NArith List Bool Ascii String Lia.
From stdpp Require Import gmap strings.
Import ListNotations.

Set Default Proof Using "Type".
Local Open Scope bool_scope.

(** ** JavaScript strings *)

Module JsString.

Definition jsstring := list N.

(** The code units of an ASCII literal of the source. *)
Definition js (s : string) : jsstring :=
  map N_of_ascii (list_ascii_of_string s).

(** [WhiteSpace] and [LineTerminator] of ECMA-262: what [\s] matches and
    what [String.prototype.trim] strips. *)
Definition is_space (c : N) : bool :=
  ((9 <=? c) && (c <=? 13) || (c =? 32) || (c =? 160) || (c =? 5760)
   || (8192 <=? c) && (c <=? 8202) || (c =? 8232) || (c =? 8233)
   || (c =? 8239) || (c =? 8287) || (c =? 12288) || (c =? 65279))%N.

Definition is_digit (c : N) : bool := ((48 <=? c) && (c <=? 57))%N.

Definition is_upper (c : N) : bool := ((65 <=? c) && (c <=? 90))%N.

Definition is_lower (c : N) : bool := ((97 <=? c) && (c <=? 122))%N.

(** [\w] outside unicode mode: ASCII letters, digits and the underscore. *)
Definition is_word (c : N) : bool :=
  is_upper c || is_lower c || is_digit c || (c =? 95)%N.

Fixpoint drop_space (s : jsstring) : jsstring :=
  match s with
  | c :: t => if is_space c then drop_space t else s
  | [] => []
  end.

(** [s.trim()]. *)
Definition trim (s : jsstring) : jsstring :=
  rev (drop_space (rev (drop_space s))).

Fixpoint starts_with (p s : jsstring) : bool :=
  match p, s with
  | [], _ => true
  | a :: p', b :: s' => (a =? b)%N && starts_with p' s'
  | _ :: _, [] => false
  end.

(** [s.includes(p)]. *)
Fixpoint includes (s p : jsstring) : bool :=
  starts_with p s ||
  match s with
  | [] => false
  | _ :: t => includes t p
  end.

(** Truthiness of a string: only the empty string is falsy. *)
Definition truthy (s : jsstring) : bool :=
  match s with [] => false | _ :: _ => true end.

(** [a || b] on strings. *)
Definition or_else (a b : jsstring) : jsstring :=
  if truthy a then a else b.

(** A text between double quotes; 34 is the double quote. *)
Definition dq (s : string) : jsstring := [34%N] ++ js s ++ [34%N].

End JsString.
Export JsString.

(** ** Regular expressions *)

Module RegExp.

Inductive cls_item :=
| IChar (c : N)    (* a character listed in the class *)
| IWord            (* \w *)
| IDigit           (* \d *)
| ISpace.          (* \s *)

Inductive regex :=
| REmpty
| RChar (c : N)
| RClass (negated : bool) (items : list cls_item)
| RSeq (a b : regex)
| RAlt (a b : regex)
| RStar (a : regex)
| RPlus (a : regex)
| ROpt (a : regex)
| RBol                          (* ^ *)
| REol                          (* $ *)
| RWordB                        (* \b *)
| RNotAhead (a : regex)         (* (?!a) *)
| RNotBehind (c : N).           (* (?<!c), one character *)

Record pattern := RegExp { source : regex; ignoreCase : bool }.

(** [Canonicalize] without the unicode flag: with [ignoreCase] a code unit
    is upper-cased, and a unit of 128 or more never becomes an ASCII one.
    The patterns of the source are ASCII, so only ASCII letters fold. *)
Definition canonicalize (ic : bool) (c : N) : N :=
  if ic && is_lower c then (c - 32)%N else c.

Definition item_mem (ic : bool) (i : cls_item) (c : N) : bool :=
  match i with
  | IChar a => (canonicalize ic a =? canonicalize ic c)%N
  | IWord => is_word c
  | IDigit => is_digit c
  | ISpace => is_space c
  end.

Definition class_mem (ic negated : bool) (items : list cls_item) (c : N) : bool :=
  xorb negated (existsb (fun i => item_mem ic i c) items).

(** A match state: the code unit before the current position (none at the
    start of the input) and the input that remains. *)
Definition state := (option N * jsstring)%type.

Definition remaining (x : state) : nat := List.length (snd x).

Definition at_end (x : state) : bool :=
  match snd x with [] => true | _ :: _ => false end.

Definition word_before (x : state) : bool :=
  match fst x with Some c => is_word c | None => false end.

Definition word_after (x : state) : bool :=
  match snd x with c :: _ => is_word c | [] => false end.

Definition step_char (ok : N -> bool) (k : state -> bool) (x : state) : bool :=
  match snd x with
  | c :: t => ok c && k (Some c, t)
  | [] => false
  end.

(** [RepeatMatcher] with no upper bound: an iteration that consumes
    nothing is rejected, so [fuel] only has to cover the remaining input. *)
Fixpoint repeat_matcher (m : (state -> bool) -> state -> bool) (fuel : nat)
    (k : state -> bool) (x : state) : bool :=
  match fuel with
  | O => k x
  | S f =>
      m (fun y => (remaining y <? remaining x)%nat && repeat_matcher m f k y) x
      || k x
  end.

Fixpoint matcher (ic : bool) (r : regex) (k : state -> bool) (x : state) : bool :=
  match r with
  | REmpty => k x
  | RChar c => step_char (fun d => (canonicalize ic c =? canonicalize ic d)%N) k x
  | RClass negated items => step_char (class_mem ic negated items) k x
  | RSeq a b => matcher ic a (matcher ic b k) x
  | RAlt a b => matcher ic a k x || matcher ic b k x
  | RStar a => repeat_matcher (matcher ic a) (remaining x) k x
  | RPlus a =>
      matcher ic a (fun y => repeat_matcher (matcher ic a) (remaining y) k y) x
  | ROpt a => matcher ic a k x || k x
  | RBol => match fst x with None => k x | Some _ => false end
  | REol => match snd x with [] => k x | _ :: _ => false end
  | RWordB => xorb (word_before x) (word_after x) && k x
  | RNotAhead a => negb (matcher ic a (fun _ => true) x) && k x
  | RNotBehind c =>
      match fst x with
      | Some d => negb (canonicalize ic c =? canonicalize ic d)%N && k x
      | None => k x
      end
  end.

(** Try every start position, left to right. *)
Fixpoint search (m : state -> bool) (prev : option N) (s : jsstring) : bool :=
  m (prev, s) ||
  match s with
  | [] => false
  | c :: t => search m (Some c) t
  end.

(** [pattern.test(s)] for a pattern without the global or sticky flag. *)
Definition test (p : pattern) (s : jsstring) : bool :=
  search (matcher (ignoreCase p) (source p) (fun _ => true)) None s.

(** Whether the pattern starts with [^]. *)
Definition is_anchored (p : pattern) : bool :=
  match source p with
  | RSeq RBol _ => true
  | _ => false
  end.

(** The match of a pattern at the start of the input. *)
Definition match_at_start (p : pattern) (s : jsstring) : bool :=
  matcher (ignoreCase p) (source p) (fun _ => true) (None, s).

(** Properties of matchers that make the repetition well behaved: the
    answer depends on the continuation only through its values, and there
    is no match when the continuation never accepts. *)
Definition extensional (m : (state -> bool) -> state -> bool) : Prop :=
  forall k1 k2 : state -> bool,
    (forall y, k1 y = k2 y) -> forall x, m k1 x = m k2 x.

Definition strict (m : (state -> bool) -> state -> bool) : Prop :=
  forall x, m (fun _ => false) x = false.

(** The code unit before the position that follows [pre]. *)
Definition before (prev : option N) (pre : jsstring) : option N :=
  match rev pre with
  | c :: _ => Some c
  | [] => prev
  end.

(** Whether the input starts with the code unit [c]. *)
Definition next_is (c : N) (s : jsstring) : bool :=
  match s with d :: _ => (c =? d)%N | [] => false end.

(** *** Pattern syntax *)

Definition lit (s : string) : regex :=
  fold_right (fun c r => RSeq (RChar c) r) REmpty (js s).

Definition cat (l : list regex) : regex := fold_right RSeq REmpty l.

Fixpoint alt (l : list string) : regex :=
  match l with
  | [] => RClass false []
  | [s] => lit s
  | s :: t => RAlt (lit s) (alt t)
  end.

Definition chr (s : string) : N :=
  match js s with c :: _ => c | [] => 0%N end.

Definition ws : regex := RPlus (RClass false [ISpace]).     (* \s+ *)
Definition sp : regex := RClass false [ISpace].             (* \s *)
Definition word1 : regex := RPlus (RClass false [IWord]).   (* \w+ *)

End RegExp.
Export RegExp.

(** ** utils/safety.js *)

Module Safety.

Definition merge_stderr : regex := ROpt (RSeq ws (lit "2>&1")).   (* (\s+2>&1)? *)

(** A double-quoted argument without an inner quote; 34 is the double
    quote. *)
Definition quoted : regex :=
  cat [RChar 34; RStar (RClass true [IChar 34]); RChar 34].

Fixpoint words (l : list string) : regex :=
  match l with
  | [] => REmpty
  | [s] => lit s
  | s :: t => RSeq (lit s) (RSeq ws (words t))
  end.

(** [/^w1\s+w2 ... $/i] *)
Definition exact_i (l : list string) : pattern :=
  RegExp (cat [RBol; words l; REol]) true.

(** [/^w1\s+w2 ... (\s+2>&1)?$/i] *)
Definition exact_merge_i (l : list string) : pattern :=
  RegExp (cat [RBol; words l; merge_stderr; REol]) true.

(** [/\b ... /i] *)
Definition bounded_i (l : list regex) : pattern :=
  RegExp (cat (RWordB :: l)) true.

Definition SAFE_COMMAND_PATTERNS : list pattern :=
  [ (* version checks *)
    exact_i ["git"; "--version"];
    exact_i ["node"; "--version"];
    exact_i ["node"; "-v"];
    exact_i ["npm"; "--version"];
    exact_i ["npm"; "-v"];
    exact_i ["python"; "--version"];
    exact_i ["python"; "-V"];
    exact_i ["python3"; "--version"];
    exact_i ["python3"; "-V"];
    exact_i ["java"; "--version"];
    exact_i ["java"; "-version"];
    exact_i ["java"; "-version"; "2>&1"];
    exact_i ["javac"; "--version"];
    exact_i ["javac"; "-version"];
    exact_i ["go"; "version"];
    exact_i ["rustc"; "--version"];
    exact_i ["cargo"; "--version"];
    exact_i ["dotnet"; "--version"];
    exact_i ["php"; "--version"];
    exact_i ["php"; "-v"];
    exact_i ["composer"; "--version"];
    exact_i ["flutter"; "--version"];
    exact_i ["dart"; "--version"];
    exact_i ["docker"; "--version"];
    exact_i ["docker"; "-v"];
    exact_i ["docker"; "version"];
    exact_i ["mvn"; "--version"];
    exact_i ["mvn"; "-v"];
    exact_i ["gradle"; "--version"];
    exact_i ["gradle"; "-v"];
    exact_i ["cmake"; "--version"];
    exact_i ["make"; "--version"];
    exact_i ["gcc"; "--version"];
    exact_i ["g++"; "--version"];
    exact_i ["clang"; "--version"];
    exact_i ["pip"; "--version"];
    exact_i ["pip3"; "--version"];
    exact_i ["poetry"; "--version"];
    exact_i ["pipenv"; "--version"];
    exact_i ["yarn"; "--version"];
    exact_i ["pnpm"; "--version"];
    exact_i ["bun"; "--version"];
    (* tool existence checks *)
    RegExp (cat [RBol; lit "where"; ws; word1; REol]) true;
    RegExp (cat [RBol; lit "which"; ws; word1; REol]) true;
    RegExp (cat [RBol; words ["command"; "-v"]; ws; word1; REol]) true;
    (* git read-only operations *)
    exact_i ["git"; "config"; "--global"; "user.name"];
    exact_i ["git"; "config"; "--global"; "user.email"];
    exact_i ["git"; "config"; "--global"; "init.defaultBranch"];
    RegExp (cat [RBol; words ["git"; "config"; "--get"]; ws;
                 RPlus (RClass false [IWord; IChar (chr ".")]); REol]) true;
    exact_i ["git"; "status"];
    exact_merge_i ["git"; "status"; "--porcelain"];
    exact_i ["git"; "rev-parse"; "--git-dir"];
    exact_merge_i ["git"; "rev-parse"; "--is-inside-work-tree"];
    exact_merge_i ["git"; "branch"; "--show-current"];
    exact_merge_i ["git"; "symbolic-ref"; "HEAD"];
    exact_merge_i ["git"; "diff"; "--cached"; "--quiet"];
    exact_merge_i ["git"; "ls-files"; "--others"; "--exclude-standard"];
    exact_merge_i ["git"; "ls-files"; "-u"];
    exact_merge_i ["git"; "remote"];
    RegExp (cat [RBol; words ["git"; "log"; "-1"]; ws; lit "--format=";
                 quoted; merge_stderr; REol]) true;
    exact_merge_i ["git"; "rev-list"; "--left-right"; "--count";
                   "HEAD...@{upstream}"];
    exact_merge_i ["git"; "diff"; "--name-only"; "--diff-filter=U"];
    exact_merge_i ["git"; "stash"; "list"];
    RegExp (cat [RBol; words ["git"; "reflog"]; ws; lit "-";
                 RPlus (RClass false [IDigit]); ws; lit "--format=";
                 quoted; merge_stderr; REol]) true;
    (* docker read-only *)
    exact_i ["docker"; "info"];
    exact_i ["docker"; "ps"] ].

Definition DANGEROUS_COMMAND_PATTERNS : list pattern :=
  [ (* Node.js execution *)
    bounded_i [lit "node"; ws; RNotAhead (alt ["-v"; "--version"])];
    bounded_i [lit "npm"; ws; alt ["start"; "run"; "exec"; "test"]];
    bounded_i [lit "npm"; ws; lit "install"];
    bounded_i [lit "npx"; RWordB];
    bounded_i [lit "yarn"; ws; alt ["start"; "run"; "dev"; "build"]];
    bounded_i [lit "yarn"; ws; lit "install"];
    bounded_i [lit "pnpm"; ws; alt ["start"; "run"; "dev"; "build"]];
    bounded_i [lit "bun"; ws; alt ["run"; "start"; "dev"]];
    (* Python execution *)
    bounded_i [lit "python"; ROpt (RClass false [IChar (chr "3")]); ws;
               RNotAhead (alt ["-V"; "--version"])];
    bounded_i [lit "pip"; ROpt (RClass false [IChar (chr "3")]); ws;
               lit "install"];
    bounded_i [lit "poetry"; ws; alt ["install"; "run"]];
    bounded_i [lit "pipenv"; ws; alt ["install"; "run"]];
    bounded_i [lit "conda"; ws; alt ["install"; "run"; "activate"]];
    (* Java execution *)
    bounded_i [lit "java"; ws; RNotAhead (alt ["-version"; "--version"])];
    bounded_i [lit "mvn"; ws;
               alt ["compile"; "install"; "exec"; "spring-boot:run";
                    "package"; "test"]];
    bounded_i [lit "gradle"; ws; alt ["run"; "bootRun"; "build"; "assemble"]];
    bounded_i [lit "./gradlew"; sp];
    (* other language execution *)
    bounded_i [lit "go"; ws; alt ["run"; "build"; "test"]];
    bounded_i [lit "cargo"; ws; alt ["run"; "build"; "test"]];
    bounded_i [lit "dotnet"; ws; alt ["run"; "build"; "test"]];
    bounded_i [lit "php"; ws; RNotAhead (alt ["-v"; "--version"])];
    bounded_i [lit "flutter"; ws; alt ["run"; "build"]];
    bounded_i [lit "dart"; ws; lit "run"];
    (* Docker execution *)
    bounded_i [lit "docker"; ws;
               alt ["run"; "start"; "compose"; "build"; "exec"]];
    bounded_i [lit "docker-compose"; RWordB];
    (* shell commands with side effects *)
    bounded_i [lit "rm"; sp];
    bounded_i [lit "mkdir"; sp];
    bounded_i [lit "touch"; sp];
    bounded_i [lit "cp"; sp];
    bounded_i [lit "mv"; sp];
    bounded_i [lit "curl"; sp];
    bounded_i [lit "wget"; sp];
    bounded_i [lit "sudo"; RWordB];
    bounded_i [lit "sh"; ws; lit "-c"];
    bounded_i [lit "bash"; ws; lit "-c"];
    bounded_i [lit "powershell"];
    bounded_i [lit "cmd"; ws; lit "/c"];
    (* [;&|](?!1) *)
    RegExp (cat [RClass false [IChar (chr ";"); IChar (chr "&"); IChar (chr "|")];
                 RNotAhead (lit "1")]) false;
    (* \$\( *)
    RegExp (lit "$(") false;
    (* a backtick *)
    RegExp (lit "`") false;
    (* (?<!2)>(?!&) *)
    RegExp (cat [RNotBehind (chr "2"); lit ">"; RNotAhead (lit "&")]) false;
    (* <(?!&) *)
    RegExp (cat [lit "<"; RNotAhead (lit "&")]) false ].

Record verdict := Verdict { safe : bool; reason : jsstring }.

Definition matches_any (l : list pattern) (s : jsstring) : bool :=
  existsb (fun p => test p s) l.

(** The argument is a string here, so of the guard
    [!command || typeof command !== 'string'] only the test for the empty
    string remains. *)
Definition isCommandSafe (command : jsstring) : verdict :=
  if negb (truthy command) then
    Verdict false (js "Invalid command: empty or not a string")
  else
    let normalizedCmd := trim command in
    if matches_any DANGEROUS_COMMAND_PATTERNS normalizedCmd then
      Verdict false (js "BLOCKED: Command matches dangerous pattern. dev-helper is read-only and cannot execute project code.")
    else if matches_any SAFE_COMMAND_PATTERNS normalizedCmd then
      Verdict true (js "Command is on the safe allowlist")
    else
      Verdict false (js "BLOCKED: Command not on allowlist. dev-helper only executes read-only version and config checks.").

End Safety.
Export Safety.

(** ** The process environment and the command runner *)

Module World.

Inductive stdio := Pipe | Inherit | Ignore.

(** One call of [child_process.execSync]: the command and the options the
    caller passes. *)
Record spawn := Spawn {
  sp_command : jsstring;
  sp_stdio : stdio;
  sp_timeout : option Z;
  sp_cwd : option jsstring }.

(** The error [execSync] throws when the command fails, times out or cannot
    be started. *)
Record exec_error := ExecError {
  err_stdout : option jsstring;
  err_stderr : option jsstring;
  err_message : jsstring;
  err_status : option Z }.

(** [execSync] returns the captured output (nothing unless stdout is piped)
    or throws. *)
Inductive exec_outcome :=
| Returned (out : option jsstring)
| Thrown (e : exec_error).

(** What the process sees of its surroundings.  [os_exec] is the operating
    system's answer to a call, which may depend on the calls made before. *)
Record environment := Environment {
  win32 : bool;                 (* process.platform === 'win32' *)
  debug : bool;                 (* process.env.DEV_HELPER_DEBUG === 'true' *)
  process_cwd : jsstring;       (* process.cwd() *)
  getuid : option Z;            (* process.getuid(), absent on Windows *)
  os_exec : spawn -> list spawn -> exec_outcome }.

(** The effects of a run: the processes spawned and the lines written with
    [console.error], oldest first. *)
Record world := World {
  spawned : list spawn;
  console_error : list jsstring }.

Definition M (A : Type) : Type := world -> A * world.

#[export] Instance M_ret : MRet M := fun A (a : A) w => (a, w).

#[export] Instance M_bind : MBind M := fun A B (f : A -> M B) (m : M A) w =>
  let (a, w') := m w in f a w'.

Definition execSync (env : environment) (req : spawn) : M exec_outcome :=
  fun w => (os_exec env req (spawned w),
            World (spawned w ++ [req]) (console_error w)).

Definition console_error_line (line : jsstring) : M unit :=
  fun w => (tt, World (spawned w) (console_error w ++ [line])).

Definition commands (w : world) : list jsstring := map sp_command (spawned w).

End World.
Export World.

(** ** utils/runner.js, the guarded runner *)

Module Runner.

Record result := Result {
  success : bool;
  stdout : jsstring;
  stderr : jsstring;
  code : Z;
  blocked : bool      (* a result without the property reads as falsy *) }.

Record options := Options {
  cwd : option jsstring;
  timeout : option Z;
  silent : option bool }.

Definition no_options : options := Options None None None.

(** The result built in the [catch] branch. *)
Definition failure_of (e : exec_error) : result :=
  {| success := false;
     stdout := match err_stdout e with
               | Some s => if truthy s then trim s else []
               | None => []
               end;
     stderr := match err_stderr e with
               | Some s => if truthy s then trim s else err_message e
               | None => err_message e
               end;
     code := match err_status e with
             | Some n => if (n =? 0)%Z then 1%Z else n
             | None => 1%Z
             end;
     blocked := false |}.

(** [stdout.trim()] on the [null] that [execSync] returns without a pipe
    throws inside the [try]; the [catch] branch sees this error. *)
Definition trim_of_null : exec_error :=
  ExecError None None
    (js "Cannot read properties of null (reading 'trim')") None.

(** The characters of [[\w-]]; 45 is the hyphen. *)
Definition name_char (c : N) : bool := is_word c || (c =? 45)%N.

(** [/^[\w-]+$/] *)
Definition tool_name : pattern :=
  RegExp (cat [RBol; RPlus (RClass false [IWord; IChar (chr "-")]); REol]) false.

(** [/^[-\w]+$/] *)
Definition flag_name : pattern :=
  RegExp (cat [RBol; RPlus (RClass false [IChar (chr "-"); IWord]); REol]) false.

Definition jseqb (a b : jsstring) : bool := bool_decide (a = b).

Section Runner.

Variable env : environment.

Definition logBlockedCommand (command reason : jsstring) : M unit :=
  if debug env then
    _ ← console_error_line (js "[SAFETY] Blocked command: " ++ [34%N] ++ command ++ [34%N]);
    console_error_line (js "[SAFETY] Reason: " ++ reason)
  else mret tt.

Definition _executeCommand (command : jsstring) (o : options) : M result :=
  let cwd := default (process_cwd env) (cwd o) in
  let timeout := default 10000%Z (timeout o) in
  let silent := default true (silent o) in
  out ← execSync env {| sp_command := command;
                        sp_stdio := if silent then Pipe else Inherit;
                        sp_timeout := Some timeout;
                        sp_cwd := Some cwd |};
  mret match out with
       | Returned (Some stdout) =>
           {| success := true; stdout := trim stdout; stderr := [];
              code := 0; blocked := false |}
       | Returned None => failure_of trim_of_null
       | Thrown e => failure_of e
       end.

Definition safeRunCommand (command : jsstring) (o : options) : M result :=
  let safetyCheck := isCommandSafe command in
  if negb (safe safetyCheck) then
    _ ← logBlockedCommand command (reason safetyCheck);
    mret {| success := false;
            stdout := [];
            stderr := js "[SAFETY] Command blocked: " ++ reason safetyCheck;
            code := -1;
            blocked := true |}
  else _executeCommand command o.

Definition runCommand (command : jsstring) (o : options) : M result :=
  safeRunCommand command o.

(** The names are strings here, so the [typeof] tests of the two guards
    below always pass. *)
Definition commandExists (cmd : jsstring) : M bool :=
  if negb (truthy cmd) || negb (test tool_name cmd) then mret false
  else
    let checkCmd := (if win32 env then js "where " else js "which ") ++ cmd in
    result ← safeRunCommand checkCmd no_options;
    mret (success result && (0 <? List.length (stdout result))%nat).

(** [versionFlag] is [None] when the caller leaves it out. *)
Definition getCommandVersion (cmd : jsstring) (versionFlag : option jsstring)
  : M (option jsstring) :=
  let versionFlag := default (js "--version") versionFlag in
  if negb (truthy cmd) || negb (test tool_name cmd) then mret None
  else if negb (truthy versionFlag) || negb (test flag_name versionFlag) then
    mret None
  else
    let cmdString :=
      if jseqb cmd (js "java") then cmd ++ js " -version 2>&1"
      else cmd ++ js " " ++ versionFlag in
    result ← safeRunCommand cmdString no_options;
    if success result || truthy (stdout result) then
      mret (Some (or_else (stdout result) (stderr result)))
    else mret None.

(** The call the guarded runner makes for a command when the caller gives
    no options. *)
Definition piped (command : jsstring) : spawn :=
  {| sp_command := command;
     sp_stdio := Pipe;
     sp_timeout := Some 10000%Z;
     sp_cwd := Some (process_cwd env) |}.

(** The command exits with status 0, whatever ran before, and its output
    satisfies [P]. *)
Definition answers (command : jsstring) (P : jsstring -> Prop) : Prop :=
  forall history : list spawn,
    exists out : jsstring,
      os_exec env (piped command) history = Returned (Some out) /\ P out.

End Runner.

End Runner.
Export Runner.

(** ** utils/runner.js, the copy without the safety gate

    The repository holds a second [utils/runner.js] that does not require
    [./safety]: its [runCommand] hands the command to [execSync] as it
    is, and its tool check and version query build on that. *)

Module Unguarded.
Section Unguarded.

Variable env : environment.

Definition runCommand (command : jsstring) (o : options) : M result :=
  let cwd := default (process_cwd env) (cwd o) in
  let timeout := default 30000%Z (timeout o) in
  let silent := default true (silent o) in
  out ← execSync env {| sp_command := command;
                        sp_stdio := if silent then Pipe else Inherit;
                        sp_timeout := Some timeout;
                        sp_cwd := Some cwd |};
  mret match out with
       | Returned (Some stdout) =>
           {| success := true; stdout := trim stdout; stderr := [];
              code := 0; blocked := false |}
       | Returned None => failure_of trim_of_null
       | Thrown e => failure_of e
       end.

Definition commandExists (cmd : jsstring) : M bool :=
  let checkCmd := (if win32 env then js "where " else js "which ") ++ cmd in
  result ← runCommand checkCmd no_options;
  mret (success result && (0 <? List.length (stdout result))%nat).

Definition getCommandVersion (cmd : jsstring) (versionFlag : option jsstring)
  : M (option jsstring) :=
  let versionFlag := default (js "--version") versionFlag in
  result ← runCommand (cmd ++ js " " ++ versionFlag ++ js " 2>&1") no_options;
  if success result || truthy (stdout result) then
    mret (Some (or_else (stdout result) (stderr result)))
  else mret None.

End Unguarded.
End Unguarded.

(** ** utils/platform.js *)

Module Platform.
Section Platform.

Variable env : environment.

Definition isWindows : bool := win32 env.

Definition isElevated : M bool :=
  if isWindows then
    out ← execSync env {| sp_command := js "net session";
                          sp_stdio := Ignore;
                          sp_timeout := None;
                          sp_cwd := None |};
    mret match out with
         | Returned _ => true
         | Thrown _ => false
         end
  else
    mret match getuid env with
         | Some uid => (uid =? 0)%Z
         | None => false
         end.

End Platform.
End Platform.

(** ** The file system as the detectors read it *)

Module Fs.

Inductive entry :=
| File (content : jsstring)
| Directory.

(** A directory: its entries by name. *)
Abbreviation directory := (gmap jsstring entry).

(** [fs.statSync(path.join(dir, filename)).isFile()], [false] when the
    entry is missing. *)
Definition fileExists (filename : jsstring) (dir : directory) : bool :=
  match dir !! filename with
  | Some (File _) => true
  | _ => false
  end.

Definition directoryExists (dirname : jsstring) (dir : directory) : bool :=
  match dir !! dirname with
  | Some Directory => true
  | _ => false
  end.

Definition readFile (filename : jsstring) (dir : directory) : option jsstring :=
  match dir !! filename with
  | Some (File content) => Some content
  | _ => None
  end.

End Fs.
Export Fs.

(** ** checkers/index.js *)

Module Checkers.

Inductive Status := PASS | FAIL | WARN | SKIP | MANUAL.

(** What a check function returns: a boolean, a string, or anything else. *)
Inductive check_value :=
| CBool (b : bool)
| CStr (s : jsstring)
| COther.

(** The [fix] property: a text, or a function of the analysis and the
    directory that returns a text or [null]. *)
Inductive fix_spec (A : Type) :=
| FixText (s : jsstring)
| FixFn (f : A -> directory -> option jsstring).
Arguments FixText {A} s.
Arguments FixFn {A} f.

Record check_def (A : Type) := CheckDef {
  check_id : jsstring;
  check_name : jsstring;
  check : directory -> A -> M check_value;
  getVersion : option (directory -> A -> M (option jsstring));
  getScript : option (directory -> A -> M (option jsstring));
  fix_ : option (fix_spec A);
  warning : option jsstring }.
Arguments CheckDef {A}.
Arguments check_id {A}.
Arguments check_name {A}.
Arguments check {A}.
Arguments getVersion {A}.
Arguments getScript {A}.
Arguments fix_ {A}.
Arguments warning {A}.

Record check_result := CheckResult {
  res_id : jsstring;
  res_name : jsstring;
  res_status : Status;
  res_message : jsstring;
  res_version : option jsstring;
  res_fix : option jsstring;
  res_script : option jsstring;
  res_warning : option jsstring }.

Definition apply_fix {A} (c : check_def A) (analysis : A) (dir : directory)
  : option jsstring :=
  match fix_ c with
  | Some (FixFn f) => f analysis dir
  | Some (FixText s) => Some s
  | None => None
  end.

Definition run_optional {A} (f : option (directory -> A -> M (option jsstring)))
    (dir : directory) (analysis : A) : M (option jsstring) :=
  match f with
  | Some g => g dir analysis
  | None => mret None
  end.

Definition runSingleCheck {A} (c : check_def A) (dir : directory) (analysis : A)
  : M check_result :=
  checkResult ← check c dir analysis;
  match checkResult with
  | CStr s =>
      if jseqb s (js "skip") then
        mret (CheckResult (check_id c) (check_name c) SKIP (js "Not applicable")
                None None None None)
      else if jseqb s (js "manual") then
        mret (CheckResult (check_id c) (check_name c) MANUAL
                (js "Manual verification required")
                None (apply_fix c analysis dir) None None)
      else
        mret (CheckResult (check_id c) (check_name c) FAIL s
                None (apply_fix c analysis dir) None (warning c))
  | CBool true =>
      version ← run_optional (getVersion c) dir analysis;
      script ← run_optional (getScript c) dir analysis;
      mret (CheckResult (check_id c) (check_name c) PASS [] version None script None)
  | CBool false | COther =>
      mret (CheckResult (check_id c) (check_name c) FAIL []
              None (apply_fix c analysis dir) None (warning c))
  end.

End Checkers.
Export Checkers.

(** ** detectors/nodejs.js *)

Module NodeJS.

(** The properties of a parsed [package.json] that the detector reads.
    The detector asks for the keys of the two objects of dependencies, so
    these are kept as their own properties, each name once, in the order
    in which [Object.keys] lists them. *)
Record package_json := PackageJson {
  pj_name : option jsstring;
  pj_version : option jsstring;
  pj_scripts : option (gmap jsstring jsstring);
  pj_engines : option (gmap jsstring jsstring);
  pj_dependencies : option (list (jsstring * jsstring));
  pj_devDependencies : option (list (jsstring * jsstring)) }.

(** The object [analyze] returns; a property that is not set is [None]. *)
Record analysis := Analysis {
  detected : bool;
  name : option jsstring;
  type : option jsstring;
  projectName : option jsstring;
  version : option jsstring;
  framework : option jsstring;
  packageManager : option jsstring;
  hasDependencies : option bool;
  scripts : option (gmap jsstring jsstring);
  engines : option (gmap jsstring jsstring);
  dependencies : option (list jsstring);
  devDependencies : option (list jsstring);
  runtime : option jsstring }.

(** [{ detected: false }] *)
Definition not_detected : analysis :=
  Analysis false None None None None None None None None None None None None.

(** [o || d] for a property that may be missing. *)
Definition prop_or (o : option jsstring) (d : jsstring) : jsstring :=
  match o with
  | Some s => or_else s d
  | None => d
  end.

(** [Object.keys(o || {})] *)
Definition keys (o : option (list (jsstring * jsstring))) : list jsstring :=
  (default [] o).*1.

(** The object with the given own properties. *)
Definition object_of (o : option (list (jsstring * jsstring)))
  : gmap jsstring jsstring :=
  list_to_map (default [] o).

Section NodeJS.

(** [JSON.parse]; [None] when it throws or the value is falsy. *)
Variable JSON_parse : jsstring -> option package_json.

Definition readJsonFile (filename : jsstring) (dir : directory)
  : option package_json :=
  match readFile filename dir with
  | Some content => JSON_parse content
  | None => None
  end.

Definition detect (dir : directory) : bool :=
  fileExists (js "package.json") dir.

Definition detectFramework (dir : directory) (packageJson : option package_json)
  : option jsstring :=
  match (match packageJson with
         | Some pkg => Some pkg
         | None => readJsonFile (js "package.json") dir
         end) with
  | None => None
  | Some pkg =>
      let allDeps : gmap jsstring jsstring :=
        object_of (pj_devDependencies pkg) ∪ object_of (pj_dependencies pkg) in
      let has (k : string) : bool :=
        match allDeps !! js k with Some v => truthy v | None => false end in
      if has "next" then Some (js "Next.js")
      else if has "nuxt" then Some (js "Nuxt.js")
      else if has "@angular/core" then Some (js "Angular")
      else if has "vue" then Some (js "Vue.js")
      else if has "react" then
        if has "gatsby" then Some (js "Gatsby")
        else if has "react-native" then Some (js "React Native")
        else if has "vite" then Some (js "React + Vite")
        else if has "react-scripts" then Some (js "Create React App")
        else Some (js "React")
      else if has "svelte" then Some (js "Svelte")
      else if has "express" then Some (js "Express.js")
      else if has "fastify" then Some (js "Fastify")
      else if has "koa" then Some (js "Koa")
      else if has "hapi" || has "@hapi/hapi" then Some (js "Hapi")
      else if has "nest" || has "@nestjs/core" then Some (js "NestJS")
      else if has "electron" then Some (js "Electron")
      else if has "vite" then Some (js "Vite")
      else None
  end.

Definition detectPackageManager (dir : directory) : jsstring :=
  if fileExists (js "bun.lockb") dir then js "bun"
  else if fileExists (js "pnpm-lock.yaml") dir then js "pnpm"
  else if fileExists (js "yarn.lock") dir then js "yarn"
  else if fileExists (js "package-lock.json") dir then js "npm"
  else js "npm".

Definition detectRuntime (dir : directory) : jsstring :=
  if fileExists (js "bun.lockb") dir || fileExists (js "bunfig.toml") dir
  then js "bun"
  else if fileExists (js "deno.json") dir || fileExists (js "deno.jsonc") dir
  then js "deno"
  else js "node".

Definition analyze (dir : directory) : analysis :=
  match readJsonFile (js "package.json") dir with
  | None => not_detected
  | Some packageJson =>
      {| detected := true;
         name := Some (js "Node.js");
         type := Some (js "nodejs");
         projectName := Some (prop_or (pj_name packageJson) (js "unknown"));
         version := Some (prop_or (pj_version packageJson) (js "unknown"));
         framework := detectFramework dir (Some packageJson);
         packageManager := Some (detectPackageManager dir);
         hasDependencies := Some (directoryExists (js "node_modules") dir);
         scripts := Some (default ∅ (pj_scripts packageJson));
         engines := Some (default ∅ (pj_engines packageJson));
         dependencies := Some (keys (pj_dependencies packageJson));
         devDependencies := Some (keys (pj_devDependencies packageJson));
         runtime := Some (detectRuntime dir) |}
  end.

(** The entry of [getChecks] with id [dependencies-installed]. *)
Definition dependencies_installed : check_def analysis :=
  {| check_id := js "dependencies-installed";
     check_name := js "Dependencies installed";
     check := fun dir _ => mret (CBool (directoryExists (js "node_modules") dir));
     getVersion := None;
     getScript := None;
     fix_ := Some (FixFn (fun analysis _ =>
               Some (prop_or (packageManager analysis) (js "npm") ++ js " install")));
     warning := None |}.

End NodeJS.
End NodeJS.

(** ** detectors/docker.js *)

Module Docker.

Record analysis := Analysis {
  detected : bool;
  hasDockerfile : bool;
  hasCompose : bool;
  composeFile : option jsstring;
  baseImage : option jsstring;
  services : list jsstring }.

Definition detect (dir : directory) : bool :=
  fileExists (js "Dockerfile") dir ||
  fileExists (js "docker-compose.yml") dir ||
  fileExists (js "docker-compose.yaml") dir ||
  fileExists (js "compose.yml") dir ||
  fileExists (js "compose.yaml") dir.

Definition hasComposeFile (dir : directory) : bool :=
  fileExists (js "docker-compose.yml") dir ||
  fileExists (js "docker-compose.yaml") dir ||
  fileExists (js "compose.yml") dir ||
  fileExists (js "compose.yaml") dir.

Definition getComposeFile (dir : directory) : option jsstring :=
  if fileExists (js "docker-compose.yml") dir then Some (js "docker-compose.yml")
  else if fileExists (js "docker-compose.yaml") dir then Some (js "docker-compose.yaml")
  else if fileExists (js "compose.yml") dir then Some (js "compose.yml")
  else if fileExists (js "compose.yaml") dir then Some (js "compose.yaml")
  else None.

Section Docker.

Variable env : environment.

(** The entry of [getChecks] with id [docker-running]. *)
Definition docker_running : check_def (option analysis) :=
  {| check_id := js "docker-running";
     check_name := js "Docker daemon running";
     check := fun _ _ =>
       result ← runCommand env (js "docker info") no_options;
       mret (CBool (success result));
     getVersion := None;
     getScript := None;
     fix_ := Some (FixText (js "Start Docker Desktop or the Docker daemon"));
     warning := None |}.

(** The [check] function of the entry with id [docker-compose-installed];
    the analysis is [None] when the caller has none or it is empty. *)
Definition docker_compose_check (dir : directory) (analysis : option analysis)
  : M check_value :=
  if negb (from_option hasCompose false analysis) then mret (CStr (js "skip"))
  else
    result ← runCommand env (js "docker compose version") no_options;
    if success result then mret (CBool true)
    else
      found ← commandExists env (js "docker-compose");
      mret (CBool found).

Definition docker_compose_installed : check_def (option analysis) :=
  {| check_id := js "docker-compose-installed";
     check_name := js "Docker Compose available";
     check := docker_compose_check;
     getVersion := None;
     getScript := None;
     fix_ := Some (FixText (js "Docker Compose is included in Docker Desktop, or install separately"));
     warning := None |}.

End Docker.
End Docker.

(** ** commands/explain.js *)

Module Explain.

Record explanation := Explanation {
  title : jsstring;
  explanation_text : jsstring;     (* the property [explanation] *)
  reason_text : jsstring;          (* the property [reason] *)
  fixes : list jsstring;
  warning_text : option jsstring;  (* the property [warning] *)
  category : jsstring }.

Record explain_options := ExplainOptions { verbose : bool }.

(** What [fs.existsSync(cwd) ? fs.readdirSync(cwd) : []] evaluates to: the
    names in the working directory, none when it does not exist, or the
    error that [readdirSync] throws when the directory exists and cannot
    be listed. *)
Inductive listing :=
| Listed (files : list jsstring)
| Unlistable (error : jsstring).

(** How the promise of an [async] function settles: an exception that
    nothing catches rejects it. *)
Inductive promise (A : Type) :=
| Fulfilled (a : A)
| Rejected (error : jsstring).
Arguments Fulfilled {A} a.
Arguments Rejected {A} error.

Definition projectIndicators : list jsstring :=
  map js ["package.json"; "requirements.txt"; "pyproject.toml"; "pom.xml";
          "build.gradle"; "Cargo.toml"; "go.mod"; "composer.json"; "Gemfile";
          "Makefile"; "CMakeLists.txt"; "pubspec.yaml"; "Dockerfile"].

(** [files.includes(f)] *)
Definition has_name (files : list jsstring) (f : jsstring) : bool :=
  existsb (jseqb f) files.

Definition notGitRepository : explanation :=
  {| title := js "Not a Git Repository";
     explanation_text := js "This folder contains project files but is not being tracked by Git.";
     reason_text := js "The project was created without Git, or the .git folder was deleted.";
     fixes := [js "# To start tracking this project with Git:";
               js "git init";
               js "git add .";
               js "git commit -m " ++ dq "Initial commit"];
     warning_text := None;
     category := js "git" |}.

Definition detachedHead (commitHash : jsstring) : explanation :=
  {| title := js "Detached HEAD State";
     explanation_text :=
       js "You're not on any branch - you're viewing commit " ++ commitHash
       ++ js " directly. Any new commits won't belong to a branch.";
     reason_text := js "This happens when you checkout a specific commit, tag, or remote branch directly.";
     fixes := [js "# To get back to a branch:";
               js "git checkout main";
               [];
               js "# To create a new branch from here:";
               js "git checkout -b new-branch-name";
               [];
               js "# To see where you came from:";
               js "git reflog"];
     warning_text := Some (js "If you made commits in detached HEAD, create a branch first or they may be lost!");
     category := js "git" |}.

Definition mergeConflict : explanation :=
  {| title := js "Merge Conflict";
     explanation_text := js "Git tried to merge changes but found conflicting edits in the same place. You need to manually choose which changes to keep.";
     reason_text := js "Two branches modified the same lines of code differently.";
     fixes := [js "# 1. Open the conflicting files and look for:";
               js "#    <<<<<<< HEAD";
               js "#    your changes";
               js "#    =======";
               js "#    their changes";
               js "#    >>>>>>> branch-name";
               [];
               js "# 2. Edit the file to keep what you want";
               js "# 3. Remove the conflict markers";
               js "# 4. Stage and commit:";
               js "git add .";
               js "git commit -m " ++ dq "Resolved merge conflicts"];
     warning_text := None;
     category := js "git" |}.

Definition rebaseInProgress : explanation :=
  {| title := js "Rebase in Progress";
     explanation_text := js "A rebase operation was started but not finished. Git is waiting for you to resolve conflicts or continue.";
     reason_text := js "You ran `git rebase` and it encountered conflicts, or was interrupted.";
     fixes := [js "# To continue after resolving conflicts:";
               js "git rebase --continue";
               [];
               js "# To skip this commit and continue:";
               js "git rebase --skip";
               [];
               js "# To abort and go back to before the rebase:";
               js "git rebase --abort"];
     warning_text := Some (js "If unsure, `git rebase --abort` is the safest option.");
     category := js "git" |}.

Definition uncommittedChanges : explanation :=
  {| title := js "Uncommitted Changes";
     explanation_text := js "You have changes that haven't been committed yet.";
     reason_text := js "You've modified files but haven't saved them to Git history.";
     fixes := [js "# To save your changes:";
               js "git add .";
               js "git commit -m " ++ dq "Your message";
               [];
               js "# To temporarily store changes:";
               js "git stash";
               [];
               js "# To discard all changes (careful!):";
               js "git checkout ."];
     warning_text := None;
     category := js "git" |}.

Definition noUpstream (currentBranch : jsstring) : explanation :=
  {| title := js "No Upstream Branch";
     explanation_text := js "This local branch isn't connected to any remote branch yet. Git doesn't know where to push.";
     reason_text := js "You created a new branch locally but haven't pushed it to the remote yet.";
     fixes := [js "# Set upstream and push:";
               js "git push -u origin " ++ currentBranch];
     warning_text := None;
     category := js "git" |}.

Definition branchesDiverged : explanation :=
  {| title := js "Branches Have Diverged";
     explanation_text := js "Your local branch and the remote branch have different commits. They need to be reconciled.";
     reason_text := js "You made commits locally while someone else pushed to the same remote branch.";
     fixes := [js "# Safest option - merge remote changes:";
               js "git pull";
               [];
               js "# Alternative - rebase your changes on top:";
               js "git pull --rebase"];
     warning_text := Some (js "Don't use `git push --force` unless you understand the consequences!");
     category := js "git" |}.

Definition nodeModulesMissing : explanation :=
  {| title := js "Node Modules Missing";
     explanation_text := js "The project dependencies are not installed. The project cannot run without them.";
     reason_text := js "You cloned or downloaded the project but didn't install the packages.";
     fixes := [js "# Install dependencies:";
               js "npm install";
               [];
               js "# Or if using yarn:";
               js "yarn install"];
     warning_text := None;
     category := js "runtime" |}.

Definition multipleLockFiles : explanation :=
  {| title := js "Multiple Lock Files";
     explanation_text := js "This project has both npm and yarn lock files, which can cause inconsistent dependencies.";
     reason_text := js "Different developers used different package managers.";
     fixes := [js "# Choose one and delete the other:";
               js "# If using npm, delete yarn.lock";
               js "# If using yarn, delete package-lock.json";
               [];
               js "# Then reinstall:";
               js "npm install  # or yarn install"];
     warning_text := None;
     category := js "build" |}.

Definition noVirtualEnvironment : explanation :=
  {| title := js "No Virtual Environment";
     explanation_text := js "Python projects should use a virtual environment to isolate dependencies.";
     reason_text := js "A virtual environment prevents conflicts between different projects.";
     fixes := [js "# Create a virtual environment:";
               js "python -m venv venv";
               [];
               js "# Activate it:";
               js "# Windows:";
               js "venv\Scripts\activate";
               js "# Mac/Linux:";
               js "source venv/bin/activate";
               [];
               js "# Then install dependencies:";
               js "pip install -r requirements.txt"];
     warning_text := None;
     category := js "runtime" |}.

(** 8594 is the arrow of the source text. *)
Definition permissionDenied (cwd : jsstring) : explanation :=
  {| title := js "Permission Denied";
     explanation_text := js "You don't have read/write access to this folder.";
     reason_text := js "The folder permissions don't allow your user account to modify files.";
     fixes := [js "# On Mac/Linux:";
               js "sudo chown -R $USER " ++ cwd;
               [];
               js "# On Windows (run as Administrator):";
               js "# Right-click folder " ++ [8594%N] ++ js " Properties "
                 ++ [8594%N] ++ js " Security " ++ [8594%N] ++ js " Edit"];
     warning_text := None;
     category := js "system" |}.

Definition portCommand (isWin : bool) (port : jsstring) : jsstring :=
  if isWin then js "netstat -ano | findstr :" ++ port
  else js "lsof -i :" ++ port.

Definition portInUse (isWin : bool) (port : jsstring) : explanation :=
  {| title := js "Port " ++ port ++ js " Already in Use";
     explanation_text :=
       js "The port your app wants to use (" ++ port
       ++ js ") is already taken by another process.";
     reason_text := js "Another application or a previous instance of your app is using this port.";
     fixes := [js "# Find what's using port " ++ port ++ js ":";
               portCommand isWin port;
               [];
               js "# Kill the process (replace PID):";
               (if isWin then js "taskkill /PID <PID> /F" else js "kill -9 <PID>");
               [];
               js "# Or change the port in .env file"];
     warning_text := None;
     category := js "system" |}.

Section Explain.

Variable env : environment.

(** The listing of the working directory; [checkGitErrors] and
    [checkRuntimeErrors] both ask for it in their first statement, outside
    any [try]. *)
Variable cwd_listing : listing.

(** Whether [fs.accessSync] grants read and write access to it. *)
Variable cwd_accessible : bool.

(** The content of its [.env] file, when there is one that can be read. *)
Variable env_file : option jsstring.

(** The digits captured by [/PORT\s*=\s*(\d+)/] in a text, if it matches. *)
Variable match_port : jsstring -> option jsstring.

Definition checkGitErrors (o : explain_options)
  : M (promise (option explanation)) :=
  match cwd_listing with
  | Unlistable error => mret (Rejected error)
  | Listed files =>
  let hasProjectFiles := existsb (has_name projectIndicators) files in
  gitCheck ← runCommand env (js "git rev-parse --git-dir") no_options;
  if negb (success gitCheck) then
    mret (Fulfilled (if hasProjectFiles then Some notGitRepository else None))
  else
  headCheck ← runCommand env (js "git symbolic-ref HEAD") no_options;
  if negb (success headCheck) then
    hashResult ← runCommand env (js "git rev-parse --short HEAD") no_options;
    let commitHash := or_else (trim (stdout hashResult)) (js "unknown") in
    mret (Fulfilled (Some (detachedHead commitHash)))
  else
  statusResult ← runCommand env (js "git status") no_options;
  let status := or_else (stdout statusResult) [] in
  if success statusResult &&
     (includes status (js "Unmerged paths") || includes status (js "both modified"))
  then mret (Fulfilled (Some mergeConflict))
  else if success statusResult && includes status (js "rebase in progress")
  then mret (Fulfilled (Some rebaseInProgress))
  else if success statusResult &&
          (includes status (js "Changes not staged")
           || includes status (js "Changes to be committed")) && verbose o
  then mret (Fulfilled (Some uncommittedChanges))
  else
  upstream ← runCommand env
    (js "git rev-parse --abbrev-ref --symbolic-full-name @{u}") no_options;
  if negb (success upstream) &&
     (includes (stderr upstream) (js "no upstream")
      || includes (stdout upstream) (js "no upstream"))
  then
    branchResult ← runCommand env (js "git branch --show-current") no_options;
    let currentBranch :=
      or_else (trim (stdout branchResult)) (js "current-branch") in
    mret (Fulfilled (Some (noUpstream currentBranch)))
  else
  diverged ← runCommand env (js "git status -sb") no_options;
  if success diverged && includes (stdout diverged) (js "ahead")
     && includes (stdout diverged) (js "behind")
  then mret (Fulfilled (Some branchesDiverged))
  else mret (Fulfilled None)
  end.

Definition checkRuntimeErrors (o : explain_options)
  : M (promise (option explanation)) :=
  match cwd_listing with
  | Unlistable error => mret (Rejected error)
  | Listed files =>
  let has (f : string) := has_name files (js f) in
  if has "package.json" && negb (has "node_modules") then
    mret (Fulfilled (Some nodeModulesMissing))
  else if has "package.json" && has "package-lock.json" && has "yarn.lock" then
    mret (Fulfilled (Some multipleLockFiles))
  else if (has "requirements.txt" || has "pyproject.toml")
          && negb (has "venv") && negb (has ".venv") && negb (has "env") then
    mret (Fulfilled (Some noVirtualEnvironment))
  else mret (Fulfilled None)
  end.

Definition checkSystemErrors (o : explain_options) : M (option explanation) :=
  if negb cwd_accessible then mret (Some (permissionDenied (process_cwd env)))
  else
    match env_file with
    | None => mret None
    | Some envContent =>
        match match_port envContent with
        | None => mret None
        | Some port =>
            portCheck ← runCommand env (portCommand (win32 env) port) no_options;
            if success portCheck && truthy (trim (or_else (stdout portCheck) []))
            then mret (Some (portInUse (win32 env) port))
            else mret None
        end
    end.

(** [explain] hands at most one explanation to [displayError]; the result
    lists what it displayed.  It awaits the three checks outside any
    [try], so it is rejected, with nothing displayed, when one of them is;
    [checkSystemErrors] catches what it can throw. *)
Definition explain (o : explain_options) : M (promise (list explanation)) :=
  gitError ← checkGitErrors o;
  match gitError with
  | Rejected error => mret (Rejected error)
  | Fulfilled (Some e) => mret (Fulfilled [e])
  | Fulfilled None =>
      runtimeError ← checkRuntimeErrors o;
      match runtimeError with
      | Rejected error => mret (Rejected error)
      | Fulfilled (Some e) => mret (Fulfilled [e])
      | Fulfilled None =>
          systemError ← checkSystemErrors o;
          match systemError with
          | Some e => mret (Fulfilled [e])
          | None => mret (Fulfilled [])
          end
      end
  end.

End Explain.
End Explain.

(** ** Sample environments and inputs *)

Module Samples.

Definition sample_env : environment :=
  {| win32 := false;
     debug := true;
     process_cwd := js "/home/dev/project";
     getuid := Some 1000%Z;
     os_exec := fun _ _ => Returned (Some (js "ok")) |}.

(** Two commands that the allow pattern for [git log] accepts, with shell
    metacharacters in the format argument. *)
Definition log_semicolon : jsstring := js "git log -1 --format=" ++ dq ";1".

Definition log_redirects : jsstring :=
  js "git log -1 --format=" ++ dq "%H|1 2>x <&1".

(** A directory with a [package.json] and nothing else. *)
Definition fresh_checkout : directory :=
  {[ js "package.json" := File (js "{ }") ]}.

Definition parse_empty_object (content : jsstring) : option NodeJS.package_json :=
  Some (NodeJS.PackageJson None None None None None None).

(** A rebase stopped by a conflict: HEAD is detached and [git status]
    lists the unmerged files; 10 is the line feed. *)
Definition conflict_status : jsstring :=
  js "interactive rebase in progress; onto 4f2a9c1" ++ [10%N]
  ++ js "Unmerged paths:" ++ [10%N]
  ++ js "  both modified:   src/app.js".

Definition rebase_conflict_os (req : spawn) (history : list spawn) : exec_outcome :=
  if jseqb (sp_command req) (js "git rev-parse --git-dir") then
    Returned (Some (js ".git" ++ [10%N]))
  else if jseqb (sp_command req) (js "git symbolic-ref HEAD") then
    Thrown (ExecError (Some []) (Some (js "fatal: ref HEAD is not a symbolic ref"))
              (js "Command failed: git symbolic-ref HEAD") (Some 128%Z))
  else if jseqb (sp_command req) (js "git status") then
    Returned (Some conflict_status)
  else Returned (Some (js "4f2a9c1")).

Definition rebase_conflict_env : environment :=
  {| win32 := false;
     debug := false;
     process_cwd := js "/home/dev/project";
     getuid := Some 1000%Z;
     os_exec := rebase_conflict_os |}.

(** A merge stopped by a conflict, on a branch. *)
Definition merge_conflict_os (req : spawn) (history : list spawn) : exec_outcome :=
  if jseqb (sp_command req) (js "git rev-parse --git-dir") then
    Returned (Some (js ".git" ++ [10%N]))
  else if jseqb (sp_command req) (js "git symbolic-ref HEAD") then
    Returned (Some (js "refs/heads/main" ++ [10%N]))
  else if jseqb (sp_command req) (js "git status") then
    Returned (Some (js "On branch main" ++ [10%N] ++ js "Unmerged paths:"
                    ++ [10%N] ++ js "  both modified:   src/app.js"))
  else Returned (Some []).

Definition merge_conflict_env : environment :=
  {| win32 := false;
     debug := false;
     process_cwd := js "/home/dev/project";
     getuid := Some 1000%Z;
     os_exec := merge_conflict_os |}.

Definition no_port (content : jsstring) : option jsstring := None.

End Samples.
Export Samples.

(** ** utils/safety.js, the remaining functions *)

Module SafetyHelpers.

(** An exception with its message. *)
Inductive outcome (A : Type) :=
| Normal (a : A)
| Throws (message : jsstring).
Arguments Normal {A} a.
Arguments Throws {A} message.

(** [assertCommandSafe]; the log goes through [logBlockedCommand]. *)
Definition assertCommandSafe (env : environment) (command : jsstring)
  : M (outcome unit) :=
  let result := isCommandSafe command in
  if negb (safe result) then
    _ ← logBlockedCommand env command (reason result);
    mret (Throws (js "Security violation: " ++ reason result))
  else mret (Normal tt).

(** The character class of the pattern that [sanitizeInput] replaces; 34
    is the double quote, 39 the single quote and 92 the backslash. *)
Definition injection_characters : list cls_item :=
  [IChar (chr ";"); IChar (chr "&"); IChar (chr "|"); IChar (chr "$");
   IChar (chr "`"); IChar 34; IChar 39; IChar (chr "<"); IChar (chr ">");
   IChar (chr "("); IChar (chr ")"); IChar (chr "{"); IChar (chr "}");
   IChar (chr "["); IChar (chr "]"); IChar 92].

Definition is_injection_character (c : N) : bool :=
  class_mem false false injection_characters c.

(** [input.replace(..., '')] with the global flag drops every code unit of
    the class. *)
Definition sanitizeInput (input : jsstring) : jsstring :=
  if negb (truthy input) then []
  else List.filter (fun c => negb (is_injection_character c)) input.

(** The five deny patterns for shell metacharacters. *)
Definition shell_metacharacter_patterns : list pattern :=
  [ RegExp (cat [RClass false [IChar (chr ";"); IChar (chr "&"); IChar (chr "|")];
                 RNotAhead (lit "1")]) false;
    RegExp (lit "$(") false;
    RegExp (lit "`") false;
    RegExp (cat [RNotBehind (chr "2"); lit ">"; RNotAhead (lit "&")]) false;
    RegExp (cat [lit "<"; RNotAhead (lit "&")]) false ].

(** A text without any of these characters. *)
Definition clean (s : jsstring) : bool :=
  forallb (fun c => negb (is_injection_character c)) s.

End SafetyHelpers.

(** ** White space at the ends of a string *)

Module Trim.

(** [trim] without the left side: the trailing white space removed. *)
Definition trim_end (s : jsstring) : jsstring := rev (drop_space (rev s)).

Definition blank (s : jsstring) : bool := forallb is_space s.

End Trim.
Export Trim.

(** ** What a computation spawns *)

Module Spawning.

(** Every process that [m] spawns runs a command that satisfies [P]. *)
Definition spawns_only {A : Type} (P : jsstring -> Prop) (m : M A) : Prop :=
  forall w : world,
    exists extra : list jsstring,
      commands (snd (m w)) = commands w ++ extra /\ Forall P extra.

Definition accepted (command : jsstring) : Prop :=
  safe (isCommandSafe command) = true.

End Spawning.
Export Spawning.

(** ** utils/runner.js: runCommandSimple *)

Module RunnerSimple.
Section RunnerSimple.

Variable env : environment.

(** The result is [None] for [null]. *)
Definition runCommandSimple (command : jsstring) : M (option jsstring) :=
  result ← safeRunCommand env command no_options;
  mret (if success result then Some (stdout result)
        else
          let text := or_else (stderr result) (stdout result) in
          if truthy text then Some text else None).

End RunnerSimple.
End RunnerSimple.

(** ** checkers/system.js: checkGitConfig *)

Module SystemChecks.

Record config_check := ConfigCheck {
  cc_name : jsstring;
  cc_status : jsstring;
  cc_value : option jsstring;    (* [None] for [null] or no property *)
  cc_fix : jsstring }.

(** [r.success && r.stdout ? a : b] *)
Definition status_of (r : result) (a b : string) : jsstring :=
  if success r && truthy (stdout r) then js a else js b.

(** [r.stdout || null] *)
Definition value_of (r : result) : option jsstring :=
  if truthy (stdout r) then Some (stdout r) else None.

Section SystemChecks.

Variable env : environment.

Definition checkGitConfig : M (list config_check) :=
  found ← commandExists env (js "git");
  if negb found then
    mret [ConfigCheck (js "Git") (js "missing") None
            (js "Install Git from https://git-scm.com")]
  else
    userName ← safeRunCommand env (js "git config --global user.name") no_options;
    userEmail ← safeRunCommand env (js "git config --global user.email") no_options;
    defaultBranch ←
      safeRunCommand env (js "git config --global init.defaultBranch") no_options;
    mret [ConfigCheck (js "Git user.name")
            (status_of userName "configured" "missing") (value_of userName)
            (js "git config --global user.name " ++ dq "Your Name");
          ConfigCheck (js "Git user.email")
            (status_of userEmail "configured" "missing") (value_of userEmail)
            (js "git config --global user.email " ++ dq "your.email@example.com");
          ConfigCheck (js "Git default branch")
            (status_of defaultBranch "configured" "not set")
            (Some (or_else (stdout defaultBranch) (js "master (default)")))
            (js "git config --global init.defaultBranch main")].

End SystemChecks.
End SystemChecks.

(** ** Literal patterns *)

Module Literal.

(** The pattern of a literal text, code unit by code unit, as [lit] builds
    it. *)
Definition lit_of (l : jsstring) : regex :=
  fold_right (fun c r => RSeq (RChar c) r) REmpty l.

(** The two allow patterns for the probe of a tool. *)
Definition where_pattern : pattern :=
  RegExp (cat [RBol; lit "where"; ws; word1; REol]) true.

Definition which_pattern : pattern :=
  RegExp (cat [RBol; lit "which"; ws; word1; REol]) true.

End Literal.
Export Literal.

(** ** Commands of the explain flow *)

Module ExplainCommands.

Definition explain_queries : list jsstring :=
  [js "git rev-parse --git-dir"; js "git symbolic-ref HEAD"; js "git status"].

Definition upstream_query : jsstring :=
  js "git rev-parse --abbrev-ref --symbolic-full-name @{u}".

(** The explanations [checkGitErrors] can still return. *)
Definition git_findings : list (option Explain.explanation) :=
  [None; Some Explain.notGitRepository;
   Some (Explain.detachedHead (js "unknown")); Some Explain.mergeConflict;
   Some Explain.rebaseInProgress; Some Explain.uncommittedChanges].

Definition git_config_queries : list jsstring :=
  [js "which git"; js "where git"; js "git config --global user.name";
   js "git config --global user.email";
   js "git config --global init.defaultBranch"].

End ExplainCommands.
Export ExplainCommands.

(** ** Commands that differ in white space or in case *)

Module Variants.

(** The same code unit, or two white-space code units. *)
Definition same_space (a b : N) : Prop :=
  a = b \/ (is_space a = true /\ is_space b = true).

(** The same code unit up to the case of an ASCII letter. *)
Definition same_case (a b : N) : Prop :=
  canonicalize true a = canonicalize true b.

Definition related_state (R : N -> N -> Prop) (x y : state) : Prop :=
  option_Forall2 R (fst x) (fst y) /\ Forall2 R (snd x) (snd y).

(** The atoms of a pattern cannot tell related code units apart. *)
Fixpoint respects (ic : bool) (R : N -> N -> Prop) (r : regex) : Prop :=
  match r with
  | RChar c | RNotBehind c =>
      forall a b, R a b ->
        (canonicalize ic c =? canonicalize ic a)%N
        = (canonicalize ic c =? canonicalize ic b)%N
  | RClass negated items =>
      forall a b, R a b ->
        class_mem ic negated items a = class_mem ic negated items b
  | RSeq x y | RAlt x y => respects ic R x /\ respects ic R y
  | RStar x | RPlus x | ROpt x | RNotAhead x => respects ic R x
  | REmpty | RBol | REol | RWordB => True
  end.

Definition is_letter (c : N) : bool := is_upper c || is_lower c.

(** No atom of the pattern names a code unit that satisfies [bad]. *)
Fixpoint avoids (bad : N -> bool) (r : regex) : bool :=
  match r with
  | RChar c | RNotBehind c => negb (bad c)
  | RClass _ items =>
      forallb (fun i => match i with IChar a => negb (bad a) | _ => true end)
        items
  | RSeq x y | RAlt x y => avoids bad x && avoids bad y
  | RStar x | RPlus x | ROpt x | RNotAhead x => avoids bad x
  | REmpty | RBol | REol | RWordB => true
  end.

(** The example of a separator: every space becomes a line feed. *)
Definition space_to_line_feed (c : N) : N := if (c =? 32)%N then 10%N else c.

End Variants.
Export Variants.

(** ** checkers/index.js: runChecks and summarizeResults *)

Module CheckerRuns.

(** The loop of [runChecks].  The check functions of this development
    return in [M] and do not throw, so the [catch] of the loop, which
    records a failed check, is never entered. *)
Fixpoint runChecks {A : Type} (checks : list (check_def A)) (dir : directory)
    (analysis : A) : M (list check_result) :=
  match checks with
  | [] => mret []
  | c :: rest =>
      result ← runSingleCheck c dir analysis;
      results ← runChecks rest dir analysis;
      mret (result :: results)
  end.

Record summary := Summary {
  total : nat;
  passed : nat;
  failed : nat;
  warnings : nat;
  skipped : nat;
  manual : nat;
  ready : bool }.

(** One turn of the loop of [summarizeResults]. *)
Definition tally (s : summary) (result : check_result) : summary :=
  match res_status result with
  | PASS => Summary (total s) (S (passed s)) (failed s) (warnings s)
              (skipped s) (manual s) (ready s)
  | FAIL => Summary (total s) (passed s) (S (failed s)) (warnings s)
              (skipped s) (manual s) false
  | WARN => Summary (total s) (passed s) (failed s) (S (warnings s))
              (skipped s) (manual s) (ready s)
  | SKIP => Summary (total s) (passed s) (failed s) (warnings s)
              (S (skipped s)) (manual s) (ready s)
  | MANUAL => Summary (total s) (passed s) (failed s) (warnings s)
              (skipped s) (S (manual s)) (ready s)
  end.

Definition summarizeResults (results : list check_result) : summary :=
  fold_left tally results (Summary (List.length results) 0 0 0 0 0 true).

Definition same_status (a b : Status) : bool :=
  match a, b with
  | PASS, PASS | FAIL, FAIL | WARN, WARN | SKIP, SKIP | MANUAL, MANUAL => true
  | _, _ => false
  end.

(** How many results have the status. *)
Definition with_status (st : Status) (results : list check_result) : nat :=
  List.length (List.filter (fun r => same_status (res_status r) st) results).

End CheckerRuns.

(** ** detectors/nodejs.js: the checks of the start script and of the
    environment file *)

Module NodeChecks.
Section NodeChecks.

Variable JSON_parse : jsstring -> option NodeJS.package_json.

(** [s.start || s.dev] on the scripts of the package. *)
Definition start_or_dev (scripts : gmap jsstring jsstring) : check_value :=
  let dev := match scripts !! js "dev" with
             | Some d => CStr d
             | None => COther
             end in
  match scripts !! js "start" with
  | Some s => if truthy s then CStr s else dev
  | None => dev
  end.

(** [pkg && pkg.scripts && (pkg.scripts.start || pkg.scripts.dev)]: the
    value of the last operand that was evaluated, not a boolean. *)
Definition start_script_value (dir : directory) : check_value :=
  match NodeJS.readJsonFile JSON_parse (js "package.json") dir with
  | None => COther
  | Some pkg =>
      match NodeJS.pj_scripts pkg with
      | None => COther
      | Some scripts => start_or_dev scripts
      end
  end.

Definition has_script (pkg : option NodeJS.package_json) (k : string) : bool :=
  match pkg with
  | Some p =>
      match NodeJS.pj_scripts p with
      | Some scripts =>
          match scripts !! js k with Some v => truthy v | None => false end
      | None => false
      end
  | None => false
  end.

Definition start_script_fix : jsstring :=
  js "Add a " ++ dq "start" ++ js " or " ++ dq "dev" ++ js " script to package.json".

(** The entry of [getChecks] with id [start-script]. *)
Definition start_script : check_def NodeJS.analysis :=
  {| check_id := js "start-script";
     check_name := js "Start script defined";
     check := fun dir _ => mret (start_script_value dir);
     getVersion := None;
     getScript := Some (fun dir _ =>
       let pkg := NodeJS.readJsonFile JSON_parse (js "package.json") dir in
       mret (if has_script pkg "start" then Some (js "npm start")
             else if has_script pkg "dev" then Some (js "npm run dev")
             else None));
     fix_ := Some (FixText start_script_fix);
     warning := None |}.

(** The entry of [getChecks] with id [env-file]. *)
Definition env_file : check_def NodeJS.analysis :=
  {| check_id := js "env-file";
     check_name := js "Environment configuration";
     check := fun dir _ =>
       mret (CBool (if fileExists (js ".env") dir then true
                    else negb (fileExists (js ".env.example") dir)
                         && negb (fileExists (js ".env.sample") dir)));
     getVersion := None;
     getScript := None;
     fix_ := Some (FixFn (fun _ dir =>
       if fileExists (js ".env.example") dir
       then Some (js "Copy .env.example to .env")
       else if fileExists (js ".env.sample") dir
       then Some (js "Copy .env.sample to .env")
       else None));
     warning := None |}.

End NodeChecks.

(** A package with a start script, for the examples. *)
Definition served_package : NodeJS.package_json :=
  NodeJS.PackageJson (Some (js "app")) None
    (Some {[ js "start" := js "node server.js" ]}) None None None.

Definition served_checkout : directory :=
  {[ js "package.json" := File (js "{}") ]}.

End NodeChecks.

(** ** detectors/docker.js: the check for Docker Compose *)

Module DockerProbe.
Section DockerProbe.

Variable env : environment.

(** The [check] function of the entry with id [docker-compose-installed]
    in detectors/docker.js. *)
Definition docker_compose_check (dir : directory)
    (analysis : option Docker.analysis) : M check_value :=
  if negb (from_option Docker.hasCompose false analysis)
  then mret (CStr (js "skip"))
  else
    docker ← commandExists env (js "docker");
    if (docker : bool) then mret (CBool true)
    else
      compose ← commandExists env (js "docker-compose");
      mret (CBool compose).

End DockerProbe.
End DockerProbe.

(** ** detectors/index.js *)

Module Registry.
Section Registry.

(** What a detector returns from [analyze] and from [getChecks]; of an
    analysis the registry reads the [type] only. *)
Variables (analysis checks : Type).
Variable type_of : analysis -> option jsstring.

Record detector := Detector {
  d_detect : directory -> bool;
  d_analyze : directory -> analysis;
  d_getChecks : checks }.

Record detection := Detection {
  det_detector : detector;
  det_analysis : analysis;
  det_checks : checks }.

(** The detectors of this development do not throw, so the [catch] of the
    loop is never entered. *)
Fixpoint detectAll (detectors : list detector) (dir : directory)
  : list detection :=
  match detectors with
  | [] => []
  | d :: rest =>
      if d_detect d dir
      then Detection d (d_analyze d dir) (d_getChecks d) :: detectAll rest dir
      else detectAll rest dir
  end.

Definition is_docker (r : detection) : bool :=
  bool_decide (type_of (det_analysis r) = Some (js "docker")).

Definition detectPrimary (detectors : list detector) (dir : directory)
  : option detection :=
  let results := detectAll detectors dir in
  if (1 <? List.length results)%nat then
    match List.filter (fun r => negb (is_docker r)) results with
    | first :: _ => Some first
    | [] => head results
    end
  else head results.

End Registry.

Arguments detectAll {analysis checks} detectors dir.
Arguments is_docker {analysis checks} type_of r.
Arguments detectPrimary {analysis checks} type_of detectors dir.

End Registry.

(** ** utils/detector.js, the legacy detector *)

Module LegacyDetector.

(** [fs.existsSync(path.join(dir, name))]: a file or a directory. *)
Definition existsSync (name : string) (dir : directory) : bool :=
  bool_decide (is_Some (dir !! js name)).

(** [f.endsWith(suffix)] *)
Definition endsWith (f suffix : jsstring) : bool :=
  starts_with (rev suffix) (rev f).

(** Whether the directory can be listed, and the error that
    [fs.readdirSync] throws when it cannot.  [fs.existsSync] needs no
    listing: it finds an entry by its name. *)
Inductive access :=
| Readable
| Unreadable (error : jsstring).

(** [fs.readdirSync(dir)]: the names of the entries, or the error. *)
Definition readdirSync (a : access) (dir : directory)
  : SafetyHelpers.outcome (list jsstring) :=
  match a with
  | Readable => SafetyHelpers.Normal (map_to_list dir).*1
  | Unreadable error => SafetyHelpers.Throws error
  end.

(** [files.some(f => f.endsWith('.csproj') || ...)] *)
Definition has_dotnet_file (files : list jsstring) : bool :=
  existsb (fun f => endsWith f (js ".csproj") || endsWith f (js ".fsproj")
                    || endsWith f (js ".sln"))
    files.

(** [detectProjectType]; the directory is [process.cwd()].  The listing
    for the .NET files is outside any [try], so its error leaves the
    function. *)
Definition detectProjectType (a : access) (cwd : directory)
  : SafetyHelpers.outcome (option jsstring) :=
  if existsSync "package.json" cwd then SafetyHelpers.Normal (Some (js "nodejs"))
  else if existsSync "requirements.txt" cwd || existsSync "pyproject.toml" cwd
          || existsSync "setup.py" cwd || existsSync "Pipfile" cwd
  then SafetyHelpers.Normal (Some (js "python"))
  else if existsSync "pom.xml" cwd
  then SafetyHelpers.Normal (Some (js "java-maven"))
  else if existsSync "build.gradle" cwd || existsSync "build.gradle.kts" cwd
  then SafetyHelpers.Normal (Some (js "java-gradle"))
  else if existsSync "go.mod" cwd then SafetyHelpers.Normal (Some (js "go"))
  else if existsSync "Cargo.toml" cwd then SafetyHelpers.Normal (Some (js "rust"))
  else
    match readdirSync a cwd with
    | SafetyHelpers.Throws error => SafetyHelpers.Throws error
    | SafetyHelpers.Normal files =>
        if has_dotnet_file files then SafetyHelpers.Normal (Some (js "dotnet"))
        else if existsSync "composer.json" cwd
        then SafetyHelpers.Normal (Some (js "php"))
        else if existsSync "CMakeLists.txt" cwd
        then SafetyHelpers.Normal (Some (js "cpp-cmake"))
        else if existsSync "Makefile" cwd || existsSync "makefile" cwd
        then SafetyHelpers.Normal (Some (js "cpp-make"))
        else if existsSync "pubspec.yaml" cwd
        then SafetyHelpers.Normal (Some (js "flutter"))
        else if existsSync "Dockerfile" cwd
                || existsSync "docker-compose.yml" cwd
                || existsSync "docker-compose.yaml" cwd
        then SafetyHelpers.Normal (Some (js "docker"))
        else SafetyHelpers.Normal None
    end.

(** [if (c) types.push(t)] *)
Definition push_if (c : bool) (t : string) : list jsstring :=
  if c then [js t] else [].

(** [detectAllProjectTypes]; here the listing is inside a [try] whose
    [catch] is empty. *)
Definition detectAllProjectTypes (a : access) (dir : directory)
  : list jsstring :=
  push_if (existsSync "package.json" dir) "nodejs"
  ++ push_if (existsSync "requirements.txt" dir || existsSync "pyproject.toml" dir
              || existsSync "Pipfile" dir) "python"
  ++ push_if (existsSync "pom.xml" dir) "java-maven"
  ++ push_if (existsSync "build.gradle" dir || existsSync "build.gradle.kts" dir)
       "java-gradle"
  ++ push_if (existsSync "go.mod" dir) "go"
  ++ push_if (existsSync "Cargo.toml" dir) "rust"
  ++ push_if (existsSync "composer.json" dir) "php"
  ++ push_if (existsSync "CMakeLists.txt" dir) "cpp-cmake"
  ++ push_if (existsSync "Makefile" dir) "cpp-make"
  ++ push_if (existsSync "pubspec.yaml" dir) "flutter"
  ++ push_if (existsSync "Dockerfile" dir) "docker"
  ++ match readdirSync a dir with
     | SafetyHelpers.Normal files => push_if (has_dotnet_file files) "dotnet"
     | SafetyHelpers.Throws _ => []
     end.

(** A checkout with a Go module and nothing else. *)
Definition go_checkout : directory := {[ js "go.mod" := File (js "module m") ]}.

End LegacyDetector.

(** ** utils/platform.js: the commands for copying and removing *)

Module PlatformCommands.
Section PlatformCommands.

Variable env : environment.

Definition getCopyCommand (source dest : jsstring) : jsstring :=
  if Platform.isWindows env
  then js "copy " ++ source ++ js " " ++ dest
  else js "cp " ++ source ++ js " " ++ dest.

Definition getRemoveCommand (target : jsstring) (recursive : bool) : jsstring :=
  if Platform.isWindows env
  then if recursive then js "rmdir /s /q " ++ target else js "del " ++ target
  else if recursive then js "rm -rf " ++ target else js "rm " ++ target.

End PlatformCommands.
End PlatformCommands.

(** ** git/analyzer.js *)

Module GitAnalyzer.
Section GitAnalyzer.

Variable env : environment.

(** [{ cwd: dir }] *)
Definition in_dir (dir : jsstring) : options := Options (Some dir) None None.

(** The call of [execSync] that the guarded runner makes for a command of
    the analyzer: piped output and the default timeout. *)
Definition query (command : string) (dir : jsstring) : spawn :=
  Spawn (js command) Pipe (Some 10000%Z) (Some dir).

Definition isGitRepository (dir : jsstring) : M bool :=
  result ← safeRunCommand env (js "git rev-parse --is-inside-work-tree 2>&1")
             (in_dir dir);
  mret (success result && jseqb (stdout result) (js "true")).

Definition getCurrentBranch (dir : jsstring) : M (option jsstring) :=
  result ← safeRunCommand env (js "git branch --show-current 2>&1") (in_dir dir);
  mret (if success result then Some (stdout result) else None).

Definition checkDetachedHead (dir : jsstring) : M bool :=
  result ← safeRunCommand env (js "git symbolic-ref HEAD 2>&1") (in_dir dir);
  mret (negb (success result)
        || includes (stderr result) (js "not a symbolic ref")).

Definition hasUncommittedChanges (dir : jsstring) : M bool :=
  result ← safeRunCommand env (js "git status --porcelain 2>&1") (in_dir dir);
  mret (success result && (0 <? List.length (stdout result))%nat).

Definition hasStagedChanges (dir : jsstring) : M bool :=
  result ← safeRunCommand env (js "git diff --cached --quiet 2>&1") (in_dir dir);
  mret (negb (success result)).

Definition hasUntrackedFiles (dir : jsstring) : M bool :=
  result ← safeRunCommand env
             (js "git ls-files --others --exclude-standard 2>&1") (in_dir dir);
  mret (success result && (0 <? List.length (stdout result))%nat).

Definition hasConflicts (dir : jsstring) : M bool :=
  result ← safeRunCommand env (js "git ls-files -u 2>&1") (in_dir dir);
  mret (success result && (0 <? List.length (stdout result))%nat).

End GitAnalyzer.
End GitAnalyzer.

(** * Properties *)

Arguments js : simpl never.
Arguments isCommandSafe : simpl never.
Arguments trim : simpl never.
Arguments test : simpl never.

(** ** Regular expressions: the repetition never runs out of fuel *)

Section Matcher.

Variable ic : bool.

Lemma repeat_matcher_ext (m : (state -> bool) -> state -> bool) (fuel : nat) :
  extensional m -> extensional (repeat_matcher m fuel).
Proof.
  intros Hm. induction fuel as [|fuel IH]; intros k1 k2 Hk x; cbn.
  - apply Hk.
  - rewrite (Hk x). f_equal. apply Hm. intros y. f_equal. now apply IH.
Qed.

Lemma step_char_ext (ok : N -> bool) : extensional (step_char ok).
Proof.
  intros k1 k2 Hk x. unfold step_char. destruct (snd x); [reflexivity|].
  now rewrite Hk.
Qed.

Lemma matcher_ext (r : regex) : extensional (matcher ic r).
Proof.
  induction r as [| c | neg items | a IHa b IHb | a IHa b IHb | a IHa | a IHa
                 | a IHa | | | | a IHa | c];
    intros k1 k2 Hk x; cbn [matcher].
  - apply Hk.
  - now apply step_char_ext.
  - now apply step_char_ext.
  - apply IHa. intros y. now apply IHb.
  - now rewrite (IHa k1 k2 Hk), (IHb k1 k2 Hk).
  - now apply repeat_matcher_ext.
  - apply IHa. intros y. now apply repeat_matcher_ext.
  - now rewrite (IHa k1 k2 Hk), (Hk x).
  - destruct (fst x); [reflexivity | apply Hk].
  - destruct (snd x); [apply Hk | reflexivity].
  - now rewrite (Hk x).
  - now rewrite (Hk x).
  - destruct (fst x); now rewrite (Hk x).
Qed.

Lemma repeat_matcher_strict (m : (state -> bool) -> state -> bool) (fuel : nat) :
  extensional m -> strict m -> strict (repeat_matcher m fuel).
Proof.
  intros He Hm. induction fuel as [|fuel IH]; intros x; cbn; [reflexivity|].
  rewrite orb_false_r. transitivity (m (fun _ => false) x); [| apply Hm].
  apply He. intros y. rewrite IH. apply andb_false_r.
Qed.

Lemma matcher_strict (r : regex) : strict (matcher ic r).
Proof.
  induction r as [| c | neg items | a IHa b IHb | a IHa b IHb | a IHa | a IHa
                 | a IHa | | | | a IHa | c];
    intros x; cbn [matcher]; unfold step_char.
  - reflexivity.
  - destruct (snd x); [reflexivity | apply andb_false_r].
  - destruct (snd x); [reflexivity | apply andb_false_r].
  - transitivity (matcher ic a (fun _ => false) x); [| apply IHa].
    apply matcher_ext. intros y. apply IHb.
  - now rewrite IHa, IHb.
  - apply repeat_matcher_strict; [apply matcher_ext | exact IHa].
  - transitivity (matcher ic a (fun _ => false) x); [| apply IHa].
    apply matcher_ext. intros y.
    apply repeat_matcher_strict; [apply matcher_ext | exact IHa].
  - now rewrite IHa.
  - now destruct (fst x).
  - now destruct (snd x).
  - apply andb_false_r.
  - apply andb_false_r.
  - destruct (fst x); [apply andb_false_r | reflexivity].
Qed.

(** Any fuel that covers the remaining input gives the same answer. *)
Lemma repeat_matcher_fuel (m : (state -> bool) -> state -> bool)
    (k : state -> bool) :
  extensional m -> strict m ->
  forall (f1 f2 : nat) (x : state),
    (remaining x <= f1)%nat -> (remaining x <= f2)%nat ->
    repeat_matcher m f1 k x = repeat_matcher m f2 k x.
Proof.
  intros He Hs.
  assert (no_progress : forall x k',
    remaining x = 0%nat ->
    m (fun y => (remaining y <? remaining x)%nat && k' y) x = false).
  { intros x k' Hx. transitivity (m (fun _ => false) x); [| apply Hs].
    apply He. intros y. rewrite Hx. reflexivity. }
  induction f1 as [|f1 IH]; intros f2 x H1 H2.
  - destruct f2 as [|f2]; [reflexivity |]. cbn [repeat_matcher].
    rewrite (no_progress x (repeat_matcher m f2 k)) by lia. reflexivity.
  - destruct f2 as [|f2]; cbn [repeat_matcher].
    + rewrite (no_progress x (repeat_matcher m f1 k)) by lia. reflexivity.
    + f_equal. apply He. intros y.
      destruct (remaining y <? remaining x)%nat eqn:Hlt; [| reflexivity].
      apply Nat.ltb_lt in Hlt. cbn [andb]. apply IH; lia.
Qed.

(** The equation of [RepeatMatcher] for the star: one more iteration that
    consumes input, or the continuation. *)
Lemma matcher_star_unfold (a : regex) (k : state -> bool) (x : state) :
  matcher ic (RStar a) k x =
  matcher ic a
    (fun y => (remaining y <? remaining x)%nat && matcher ic (RStar a) k y) x
  || k x.
Proof.
  cbn [matcher]. remember (remaining x) as n eqn:Hrem.
  destruct n as [|n]; cbn [repeat_matcher].
  - replace (matcher ic a _ x) with false; [reflexivity |]. symmetry.
    transitivity (matcher ic a (fun _ => false) x); [| apply matcher_strict].
    apply matcher_ext. intros y. reflexivity.
  - f_equal. apply matcher_ext. intros y. rewrite <- Hrem.
    destruct (remaining y <? S n)%nat eqn:Hlt; [| reflexivity].
    apply Nat.ltb_lt in Hlt. cbn [andb].
    apply repeat_matcher_fuel;
      [apply matcher_ext | apply matcher_strict | lia | lia].
Qed.

Lemma matcher_plus_unfold (a : regex) (k : state -> bool) (x : state) :
  matcher ic (RPlus a) k x = matcher ic (RSeq a (RStar a)) k x.
Proof. reflexivity. Qed.

End Matcher.

(** ** The classifier *)

Section Classifier.

Lemma isCommandSafe_cases (command : jsstring) :
  safe (isCommandSafe command) =
  truthy command
  && negb (matches_any DANGEROUS_COMMAND_PATTERNS (trim command))
  && matches_any SAFE_COMMAND_PATTERNS (trim command).
Proof.
  unfold isCommandSafe.
  destruct (truthy command); cbn [negb andb]; [| reflexivity].
  destruct (matches_any DANGEROUS_COMMAND_PATTERNS (trim command));
    cbn [negb andb]; [reflexivity |].
  destruct (matches_any SAFE_COMMAND_PATTERNS (trim command)); reflexivity.
Qed.

Lemma isCommandSafe_true (command : jsstring) :
  safe (isCommandSafe command) = true <->
  command <> [] /\
  matches_any DANGEROUS_COMMAND_PATTERNS (trim command) = false /\
  matches_any SAFE_COMMAND_PATTERNS (trim command) = true.
Proof.
  rewrite isCommandSafe_cases, !andb_true_iff, negb_true_iff.
  destruct command; cbn [truthy]; intuition congruence.
Qed.

(** The commands the specification lists as allowed and as denied, and
    two that show how a pattern backtracks and folds case. *)
Example classifier_examples :
  map (fun c => safe (isCommandSafe (js c)))
    ["git --version"; "node --version"; "which git";
     "git config --global user.name"; "GIT  Status"; "java -version 2>&1";
     "npm install"; "node app.js"; "docker run x"; "rm -rf /";
     "git status; rm -rf ."; "node  --version"; ""; "   "]
  = [true; true; true; true; true; true;
     false; false; false; false; false; false; false; false].
Proof. vm_compute. reflexivity. Qed.

(** C2, as the claim states it, fails: the deny pattern for [rm] matches
    the command with its trailing space, yet the command is classified
    safe, because the patterns are tested on the trimmed command. *)
Lemma C2_counterexample :
  matches_any DANGEROUS_COMMAND_PATTERNS (js "which rm ") = true /\
  safe (isCommandSafe (js "which rm ")) = true.
Proof. split; vm_compute; reflexivity. Qed.

(** C2, amended: every command whose trimmed form matches a pattern of the
    deny list is classified unsafe, whatever the allow list says of it. *)
Theorem C2_deny_precedence (command : jsstring) :
  matches_any DANGEROUS_COMMAND_PATTERNS (trim command) = true ->
  safe (isCommandSafe command) = false.
Proof.
  intros Hdeny. rewrite isCommandSafe_cases, Hdeny.
  cbn [negb]. now rewrite andb_false_r.
Qed.

(** A command that is on both lists. *)
Lemma C2_deny_precedence_witness :
  matches_any SAFE_COMMAND_PATTERNS (trim (js "which npx")) = true /\
  matches_any DANGEROUS_COMMAND_PATTERNS (trim (js "which npx")) = true /\
  safe (isCommandSafe (js "which npx")) = false.
Proof.
  split; [vm_compute; reflexivity |].
  split; [vm_compute; reflexivity |].
  apply (C2_deny_precedence (js "which npx")). vm_compute. reflexivity.
Defined.

(** C3, as the claim states it, fails: no allow pattern matches the
    command with its leading space, yet it is classified safe. *)
Lemma C3_counterexample :
  matches_any SAFE_COMMAND_PATTERNS (js " git status") = false /\
  safe (isCommandSafe (js " git status")) = true.
Proof. split; vm_compute; reflexivity. Qed.

(** C3, amended: every command whose trimmed form matches no pattern of
    the allow list is classified unsafe. *)
Theorem C3_default_deny (command : jsstring) :
  matches_any SAFE_COMMAND_PATTERNS (trim command) = false ->
  safe (isCommandSafe command) = false.
Proof.
  intros Hallow. rewrite isCommandSafe_cases, Hallow. apply andb_false_r.
Qed.

Lemma C3_default_deny_witness :
  matches_any SAFE_COMMAND_PATTERNS (trim (js "ls -la")) = false /\
  safe (isCommandSafe (js "ls -la")) = false.
Proof.
  split; [vm_compute; reflexivity |].
  apply (C3_default_deny (js "ls -la")). vm_compute. reflexivity.
Defined.

End Classifier.

(** ** The guarded runner *)

Section GuardedRunner.

Variable env : environment.

Lemma logBlockedCommand_spawned (command reason : jsstring) (w : world) :
  spawned (snd (logBlockedCommand env command reason w)) = spawned w.
Proof.
  unfold logBlockedCommand. destruct (debug env); reflexivity.
Qed.

Lemma executeCommand_spawned (command : jsstring) (o : options) (w : world) :
  commands (snd (_executeCommand env command o w)) = commands w ++ [command].
Proof.
  unfold _executeCommand, commands, execSync, mbind, M_bind, mret, M_ret.
  cbn [snd spawned]. now rewrite map_app.
Qed.

Lemma executeCommand_not_blocked (command : jsstring) (o : options) (w : world) :
  blocked (fst (_executeCommand env command o w)) = false.
Proof.
  unfold _executeCommand, execSync, mbind, M_bind, mret, M_ret. cbn [fst].
  match goal with
  | |- context [os_exec ?e ?r ?h] => destruct (os_exec e r h) as [[out|]|err]
  end; reflexivity.
Qed.

Lemma safeRunCommand_unsafe (command : jsstring) (o : options) (w : world) :
  safe (isCommandSafe command) = false ->
  safeRunCommand env command o w =
  ({| success := false; stdout := [];
      stderr := js "[SAFETY] Command blocked: " ++ reason (isCommandSafe command);
      code := -1; blocked := true |},
   snd (logBlockedCommand env command (reason (isCommandSafe command)) w)).
Proof.
  intros Hs. unfold safeRunCommand. rewrite Hs. cbn [negb].
  unfold mbind, M_bind, mret, M_ret.
  now destruct (logBlockedCommand env command _ w).
Qed.

Lemma safeRunCommand_safe (command : jsstring) (o : options) :
  safe (isCommandSafe command) = true ->
  safeRunCommand env command o = _executeCommand env command o.
Proof.
  intros Hs. unfold safeRunCommand. now rewrite Hs.
Qed.

(** The guarded runner spawns a command only when the classifier accepts
    it, and only then is the result not marked as blocked. *)
Lemma safeRunCommand_guard (command : jsstring) (o : options) (w : world) :
  blocked (fst (safeRunCommand env command o w))
    = negb (safe (isCommandSafe command)) /\
  commands (snd (safeRunCommand env command o w))
    = commands w ++ (if safe (isCommandSafe command) then [command] else []).
Proof.
  destruct (safe (isCommandSafe command)) eqn:Hs.
  - rewrite safeRunCommand_safe by assumption.
    now rewrite executeCommand_not_blocked, executeCommand_spawned.
  - rewrite safeRunCommand_unsafe by assumption. cbn [fst snd blocked negb].
    unfold commands. now rewrite logBlockedCommand_spawned, app_nil_r.
Qed.

(** C4: for a command the classifier rejects, [safeRunCommand] returns a
    failed result marked as blocked with exit code -1, and no process is
    spawned. *)
Theorem C4_blocked_result (command : jsstring) (o : options) (w : world) :
  safe (isCommandSafe command) = false ->
  let (r, w') := safeRunCommand env command o w in
  success r = false /\ blocked r = true /\ code r = (-1)%Z /\
  stdout r = [] /\ spawned w' = spawned w.
Proof.
  intros Hs. rewrite safeRunCommand_unsafe by assumption.
  cbn [success blocked code stdout].
  now rewrite logBlockedCommand_spawned.
Qed.

End GuardedRunner.

Lemma C4_blocked_result_witness :
  safe (isCommandSafe (js "npm install")) = false /\
  let (r, w') := safeRunCommand sample_env (js "npm install") no_options
                   (World [] []) in
  success r = false /\ blocked r = true /\ code r = (-1)%Z /\
  stdout r = [] /\ spawned w' = [].
Proof.
  split; [vm_compute; reflexivity |].
  apply (C4_blocked_result sample_env (js "npm install") no_options (World [] [])).
  vm_compute. reflexivity.
Defined.

(** ** Regular expressions: the tool-name pattern *)

Section ToolName.

(** Repeating a one-character matcher up to the end of the input accepts
    exactly the inputs whose characters all pass. *)
Lemma repeat_matcher_chars (m : (state -> bool) -> state -> bool)
    (ok : N -> bool) (k : state -> bool) :
  (forall k' x, m k' x = step_char ok k' x) ->
  (forall x, k x = at_end x) ->
  forall (fuel : nat) (prev : option N) (s : jsstring),
    (List.length s <= fuel)%nat ->
    repeat_matcher m fuel k (prev, s) = forallb ok s.
Proof.
  intros Hm Hk. induction fuel as [|fuel IH]; intros prev s Hlen.
  - destruct s; [| cbn in Hlen; lia]. cbn. now rewrite Hk.
  - cbn [repeat_matcher]. rewrite Hm, Hk. unfold step_char, at_end, remaining.
    destruct s as [|c t]; cbn [snd forallb List.length]; [reflexivity |].
    cbn in Hlen. rewrite IH by lia.
    replace (List.length t <? S (List.length t))%nat with true
      by (symmetry; apply Nat.ltb_lt; lia).
    cbn [andb]. now rewrite orb_false_r.
Qed.

Lemma search_from_start (r : regex) (ic : bool) (k : state -> bool)
    (prev : N) (s : jsstring) :
  search (matcher ic (RSeq RBol r) k) (Some prev) s = false.
Proof.
  revert prev. induction s as [|c t IH]; intros prev; cbn; [reflexivity|].
  apply IH.
Qed.

Lemma class_name_char (c : N) :
  class_mem false false [IWord; IChar (chr "-")] c = name_char c.
Proof.
  unfold class_mem, name_char. change (chr "-") with 45%N.
  cbn. now rewrite orb_false_r, N.eqb_sym.
Qed.

(** [/^[\w-]+$/] accepts the non-empty strings of word characters and
    hyphens, and nothing else. *)
Lemma tool_name_spec (s : jsstring) :
  test tool_name s = negb (at_end (None, s)) && forallb name_char s.
Proof.
  unfold test, tool_name. cbn [source ignoreCase cat fold_right].
  destruct s as [|c t]; [reflexivity |].
  cbn [search]. rewrite search_from_start, orb_false_r.
  cbn [matcher fst]. unfold step_char at 1.
  cbn [snd at_end negb andb forallb]. rewrite class_name_char. f_equal.
  apply repeat_matcher_chars; [| | unfold remaining; cbn; lia].
    + intros k' x. cbn [matcher]. unfold step_char.
      destruct (snd x) as [|d u]; [reflexivity |].
      now rewrite class_name_char.
    + intros x. cbn [matcher]. unfold at_end. now destruct (snd x).
Qed.

(** A name with a character that is neither a word character nor a hyphen
    does not pass. *)
Lemma tool_name_rejects (s : jsstring) (c : N) :
  In c s -> name_char c = false -> test tool_name s = false.
Proof.
  intros Hin Hc. rewrite tool_name_spec.
  assert (forallb name_char s = false) as ->; [| apply andb_false_r].
  apply not_true_is_false. intros Hall.
  rewrite forallb_forall in Hall. specialize (Hall c Hin). congruence.
Qed.

End ToolName.

(** ** The allow list is anchored *)

Section AllowList.

Lemma test_anchored (p : pattern) (s : jsstring) :
  is_anchored p = true -> test p s = match_at_start p s.
Proof.
  unfold is_anchored, test, match_at_start.
  destruct (source p) as [| | |a b| | | | | | | | |]; try discriminate.
  destruct a; try discriminate. intros _.
  destruct s as [|c t]; cbn [search].
  - apply orb_false_r.
  - now rewrite search_from_start, orb_false_r.
Qed.

Lemma matches_any_anchored (l : list pattern) (s : jsstring) :
  forallb is_anchored l = true ->
  matches_any l s = existsb (fun p => match_at_start p s) l.
Proof.
  unfold matches_any. induction l as [|p l IH]; cbn [forallb existsb];
    [reflexivity |].
  intros [Hp Hl]%andb_true_iff. now rewrite test_anchored, IH.
Qed.


End AllowList.

(** ** Entry points to process spawning *)

Section EntryPoints.

Variable env : environment.

(** The validated tool check and version query: a name that the pattern
    rejects is answered at once, and nothing is classified, logged or
    spawned. *)
Lemma commandExists_invalid_name (cmd : jsstring) (w : world) :
  test tool_name cmd = false -> commandExists env cmd w = (false, w).
Proof.
  intros Hname. unfold commandExists. rewrite Hname. cbn [negb].
  now rewrite orb_true_r.
Qed.

Lemma getCommandVersion_invalid_name (cmd : jsstring)
    (versionFlag : option jsstring) (w : world) :
  test tool_name cmd = false ->
  getCommandVersion env cmd versionFlag w = (None, w).
Proof.
  intros Hname. unfold getCommandVersion. rewrite Hname. cbn [negb].
  now rewrite orb_true_r.
Qed.

Lemma unguarded_runCommand_spawns (command : jsstring) (o : options) (w : world) :
  blocked (fst (Unguarded.runCommand env command o w)) = false /\
  commands (snd (Unguarded.runCommand env command o w)) = commands w ++ [command].
Proof.
  unfold Unguarded.runCommand, commands, execSync, mbind, M_bind, mret, M_ret.
  cbn [fst snd spawned]. split; [| now rewrite map_app].
  match goal with
  | |- context [os_exec ?e ?r ?h] => destruct (os_exec e r h) as [[out|]|err]
  end; reflexivity.
Qed.

(** C1: the code does not keep the invariant.  [isElevated] hands
    [net session] to [execSync] itself on Windows, and [runCommand] of the
    copy of the runner without the gate hands over any command, here
    [npm install], and returns a result that is not marked as blocked; the
    classifier rejects both commands. *)
Theorem C1_spawn_without_guard (o : options) (w : world) :
  safe (isCommandSafe (js "net session")) = false /\
  commands (snd (Platform.isElevated env w))
    = commands w ++ (if win32 env then [js "net session"] else []) /\
  safe (isCommandSafe (js "npm install")) = false /\
  blocked (fst (Unguarded.runCommand env (js "npm install") o w)) = false /\
  commands (snd (Unguarded.runCommand env (js "npm install") o w))
    = commands w ++ [js "npm install"].
Proof.
  split; [vm_compute; reflexivity |].
  split.
  - unfold Platform.isElevated, Platform.isWindows, commands, execSync,
      mbind, M_bind, mret, M_ret.
    destruct (win32 env); cbn [snd spawned].
    + now rewrite map_app.
    + now rewrite app_nil_r.
  - split; [vm_compute; reflexivity |]. apply unguarded_runCommand_spawns.
Qed.

(** C5: the tool check and the version query of the copy of the runner
    without the gate do not validate the name: the name [git; rm -rf /],
    which the identifier pattern rejects, is put into a command string
    that is handed to [execSync]. *)
Theorem C5_name_not_validated (w : world) :
  test tool_name (js "git; rm -rf /") = false /\
  commands (snd (Unguarded.commandExists env (js "git; rm -rf /") w))
    = commands w
      ++ [(if win32 env then js "where " else js "which ") ++ js "git; rm -rf /"] /\
  commands (snd (Unguarded.getCommandVersion env (js "git; rm -rf /") None w))
    = commands w ++ [js "git; rm -rf / --version 2>&1"].
Proof.
  split; [vm_compute; reflexivity |].
  split.
  - unfold Unguarded.commandExists, mbind, M_bind, mret, M_ret.
    destruct (Unguarded.runCommand env _ no_options w) as [r w'] eqn:Hrun.
    cbn [snd]. replace w' with (snd (Unguarded.runCommand env
      ((if win32 env then js "where " else js "which ") ++ js "git; rm -rf /")
      no_options w)) by now rewrite Hrun.
    apply unguarded_runCommand_spawns.
  - unfold Unguarded.getCommandVersion, mbind, M_bind, mret, M_ret.
    destruct (Unguarded.runCommand env _ no_options w) as [r w'] eqn:Hrun.
    assert (Hw : commands w' = commands w ++ [js "git; rm -rf / --version 2>&1"]).
    { replace w' with (snd (Unguarded.runCommand env
        (js "git; rm -rf /" ++ js " " ++ default (js "--version") None
         ++ js " 2>&1") no_options w)) by now rewrite Hrun.
      rewrite (proj2 (unguarded_runCommand_spawns _ _ _)). reflexivity. }
    now destruct (success r || truthy (stdout r)).
Qed.

End EntryPoints.

(** ** Shell metacharacters *)

Section Metacharacters.

Lemma before_cons (prev : option N) (c : N) (pre : jsstring) :
  before prev (c :: pre) = before (Some c) pre.
Proof.
  unfold before. cbn [rev]. destruct (rev pre) as [|d u] eqn:Hrev; reflexivity.
Qed.

(** A match at any position is found by the search. *)
Lemma search_at (m : state -> bool) (pre rest : jsstring) (prev : option N) :
  m (before prev pre, rest) = true -> search m prev (pre ++ rest) = true.
Proof.
  revert prev. induction pre as [|c pre IH]; intros prev Hm.
  - cbn in Hm. destruct rest; cbn; now rewrite Hm.
  - cbn [app search]. rewrite before_cons in Hm.
    rewrite (IH (Some c) Hm). apply orb_true_r.
Qed.

Lemma denied_by (p : pattern) (command : jsstring) :
  In p DANGEROUS_COMMAND_PATTERNS ->
  test p (trim command) = true ->
  safe (isCommandSafe command) = false.
Proof.
  intros Hin Htest. rewrite isCommandSafe_cases.
  assert (matches_any DANGEROUS_COMMAND_PATTERNS (trim command) = true) as ->.
  { apply existsb_exists. now exists p. }
  cbn [negb]. now rewrite andb_false_r.
Qed.

Lemma next_is_step (c : N) (s : jsstring) (prev : option N) (k : state -> bool) :
  (forall y, k y = true) ->
  step_char (fun d => (canonicalize false c =? canonicalize false d)%N) k (prev, s)
  = next_is c s.
Proof.
  intros Hk. unfold step_char. destruct s; cbn; [reflexivity |].
  now rewrite Hk, andb_true_r.
Qed.

(** A backtick anywhere in the trimmed command. *)
Lemma backtick_denied (command pre post : jsstring) :
  trim command = pre ++ chr "`" :: post ->
  safe (isCommandSafe command) = false.
Proof.
  intros Heq. apply (denied_by (RegExp (lit "`") false)); [cbn; tauto |].
  rewrite Heq. apply search_at. reflexivity.
Qed.

(** [$(] anywhere in the trimmed command. *)
Lemma substitution_denied (command pre post : jsstring) :
  trim command = pre ++ chr "$" :: chr "(" :: post ->
  safe (isCommandSafe command) = false.
Proof.
  intros Heq. apply (denied_by (RegExp (lit "$(") false)); [cbn; tauto |].
  rewrite Heq. apply search_at. reflexivity.
Qed.

(** A semicolon, ampersand or bar that is not followed by [1]. *)
Lemma chaining_denied (command pre post : jsstring) (c : N) :
  trim command = pre ++ c :: post ->
  c = chr ";" \/ c = chr "&" \/ c = chr "|" ->
  next_is (chr "1") post = false ->
  safe (isCommandSafe command) = false.
Proof.
  intros Heq Hc Hnext.
  apply (denied_by
    (RegExp (cat [RClass false [IChar (chr ";"); IChar (chr "&"); IChar (chr "|")];
                  RNotAhead (lit "1")]) false)); [cbn; tauto |].
  rewrite Heq. apply search_at.
  cbn [ignoreCase source cat fold_right matcher]. unfold step_char. cbn [snd].
  assert (class_mem false false
            [IChar (chr ";"); IChar (chr "&"); IChar (chr "|")] c = true) as ->.
  { destruct Hc as [-> | [-> | ->]]; reflexivity. }
  cbn [andb]. change (lit "1") with (RSeq (RChar (chr "1")) REmpty).
  cbn [matcher]. rewrite next_is_step, Hnext by reflexivity. reflexivity.
Qed.

(** A [>] that is neither preceded by [2] nor followed by an ampersand. *)
Lemma output_redirection_denied (command pre post : jsstring) :
  trim command = pre ++ chr ">" :: post ->
  before None pre <> Some (chr "2") ->
  next_is (chr "&") post = false ->
  safe (isCommandSafe command) = false.
Proof.
  intros Heq Hprev Hnext.
  apply (denied_by
    (RegExp (cat [RNotBehind (chr "2"); lit ">"; RNotAhead (lit "&")]) false));
    [cbn; tauto |].
  rewrite Heq. apply search_at.
  cbn [ignoreCase source cat fold_right matcher fst].
  assert (Hstep : matcher false (RSeq (lit ">") (RSeq (RNotAhead (lit "&")) REmpty))
            (fun _ => true) (before None pre, chr ">" :: post) = true).
  { change (lit ">") with (RSeq (RChar (chr ">")) REmpty).
    change (lit "&") with (RSeq (RChar (chr "&")) REmpty).
    cbn [matcher]. unfold step_char at 1. cbn [snd].
    change (canonicalize false (chr ">") =? canonicalize false (chr ">"))%N
      with true.
    cbn [andb]. rewrite next_is_step, Hnext by reflexivity. reflexivity. }
  destruct (before None pre) as [d|] eqn:Hd; [| exact Hstep].
  unfold canonicalize at 1 2. cbn [andb].
  destruct (chr "2" =? d)%N eqn:Hcmp.
  - apply N.eqb_eq in Hcmp. subst d. now contradiction Hprev.
  - cbn [negb andb]. exact Hstep.
Qed.

(** A [<] that is not followed by an ampersand. *)
Lemma input_redirection_denied (command pre post : jsstring) :
  trim command = pre ++ chr "<" :: post ->
  next_is (chr "&") post = false ->
  safe (isCommandSafe command) = false.
Proof.
  intros Heq Hnext.
  apply (denied_by (RegExp (cat [lit "<"; RNotAhead (lit "&")]) false));
    [cbn; tauto |].
  rewrite Heq. apply search_at.
  cbn [ignoreCase source cat fold_right].
  change (lit "<") with (RSeq (RChar (chr "<")) REmpty).
  change (lit "&") with (RSeq (RChar (chr "&")) REmpty).
  cbn [matcher]. unfold step_char at 1. cbn [snd].
  change (canonicalize false (chr "<") =? canonicalize false (chr "<"))%N
    with true.
  cbn [andb]. rewrite next_is_step, Hnext by reflexivity. reflexivity.
Qed.

(** C6: the code does not reject every command with a shell
    metacharacter.  The look-arounds meant to spare [2>&1] also spare a
    semicolon, ampersand or bar before [1], a [>] after [2] and a [<]
    before an ampersand, and the allow pattern for [git log] takes any
    text between the quotes: both sample commands are classified safe.
    The two commands the claim names are classified as it says. *)
Theorem C6_metacharacters_accepted :
  (In (chr ";") log_semicolon /\
   includes log_semicolon (js "2>&1") = false /\
   safe (isCommandSafe log_semicolon) = true) /\
  (In (chr "|") log_redirects /\ In (chr ">") log_redirects /\
   In (chr "<") log_redirects /\ In (chr "&") log_redirects /\
   includes log_redirects (js "2>&1") = false /\
   safe (isCommandSafe log_redirects) = true) /\
  safe (isCommandSafe (js "java -version 2>&1")) = true /\
  safe (isCommandSafe (js "git status; rm -rf .")) = false.
Proof.
  repeat split; try (vm_compute; reflexivity);
    vm_compute; tauto.
Qed.

End Metacharacters.

(** ** The Node.js detector *)

Section NodeDetector.

Variable JSON_parse : jsstring -> option NodeJS.package_json.

Lemma detectPackageManager_default (dir : directory) :
  fileExists (js "bun.lockb") dir = false ->
  fileExists (js "pnpm-lock.yaml") dir = false ->
  fileExists (js "yarn.lock") dir = false ->
  NodeJS.detectPackageManager dir = js "npm".
Proof.
  intros Hbun Hpnpm Hyarn. unfold NodeJS.detectPackageManager.
  rewrite Hbun, Hpnpm, Hyarn.
  destruct (fileExists (js "package-lock.json") dir); reflexivity.
Qed.

(** C8: in a directory with a [package.json], without [node_modules] and
    without a lock file, the detector detects the project, the check
    "Dependencies installed" fails, and the fix it suggests is
    [npm install]; running the check spawns nothing, and the classifier
    rejects the suggested command. *)
Theorem C8_npm_install_suggested (dir : directory) (w : world) :
  fileExists (js "package.json") dir = true ->
  directoryExists (js "node_modules") dir = false ->
  fileExists (js "bun.lockb") dir = false ->
  fileExists (js "pnpm-lock.yaml") dir = false ->
  fileExists (js "yarn.lock") dir = false ->
  fileExists (js "package-lock.json") dir = false ->
  NodeJS.detect dir = true /\
  check NodeJS.dependencies_installed dir (NodeJS.analyze JSON_parse dir) w
    = (CBool false, w) /\
  apply_fix NodeJS.dependencies_installed (NodeJS.analyze JSON_parse dir) dir
    = Some (js "npm install") /\
  runSingleCheck NodeJS.dependencies_installed dir
    (NodeJS.analyze JSON_parse dir) w
  = (CheckResult (js "dependencies-installed") (js "Dependencies installed")
       FAIL [] None (Some (js "npm install")) None None, w) /\
  safe (isCommandSafe (js "npm install")) = false.
Proof.
  intros Hpkg Hmod Hbun Hpnpm Hyarn Hlock.
  split; [exact Hpkg |].
  assert (Hcheck : check NodeJS.dependencies_installed dir
            (NodeJS.analyze JSON_parse dir) w = (CBool false, w)).
  { cbn [check NodeJS.dependencies_installed]. now rewrite Hmod. }
  split; [exact Hcheck |].
  assert (Hfix : apply_fix NodeJS.dependencies_installed
                   (NodeJS.analyze JSON_parse dir) dir = Some (js "npm install")).
  { unfold apply_fix. cbn [fix_ NodeJS.dependencies_installed]. f_equal.
    unfold NodeJS.analyze.
    destruct (NodeJS.readJsonFile JSON_parse (js "package.json") dir).
    - cbn [NodeJS.packageManager].
      now rewrite detectPackageManager_default.
    - reflexivity. }
  split; [exact Hfix |].
  split; [| vm_compute; reflexivity].
  unfold runSingleCheck, mbind, M_bind. rewrite Hcheck.
  unfold mret, M_ret. rewrite Hfix. reflexivity.
Qed.

End NodeDetector.

Lemma C8_npm_install_suggested_witness :
  NodeJS.detect fresh_checkout = true /\
  check NodeJS.dependencies_installed fresh_checkout
    (NodeJS.analyze parse_empty_object fresh_checkout) (World [] [])
    = (CBool false, World [] []) /\
  apply_fix NodeJS.dependencies_installed
    (NodeJS.analyze parse_empty_object fresh_checkout) fresh_checkout
    = Some (js "npm install") /\
  runSingleCheck NodeJS.dependencies_installed fresh_checkout
    (NodeJS.analyze parse_empty_object fresh_checkout) (World [] [])
  = (CheckResult (js "dependencies-installed") (js "Dependencies installed")
       FAIL [] None (Some (js "npm install")) None None, World [] []) /\
  safe (isCommandSafe (js "npm install")) = false.
Proof.
  apply (C8_npm_install_suggested parse_empty_object fresh_checkout (World [] []));
    vm_compute; reflexivity.
Defined.

(** ** The Docker Compose check *)

Section DockerCompose.

Variable env : environment.

(** The fallback of the check cannot succeed either: with either probe
    the command contains [docker-compose], which the deny list has. *)
Lemma docker_compose_probe_blocked (w : world) :
  fst (commandExists env (js "docker-compose") w) = false /\
  spawned (snd (commandExists env (js "docker-compose") w)) = spawned w.
Proof.
  unfold commandExists.
  replace (negb (truthy (js "docker-compose"))
           || negb (test tool_name (js "docker-compose"))) with false
    by (vm_compute; reflexivity).
  unfold mbind, M_bind, mret, M_ret.
  destruct (win32 env).
  - rewrite safeRunCommand_unsafe by (vm_compute; reflexivity).
    cbn [fst snd success andb]. now rewrite logBlockedCommand_spawned.
  - rewrite safeRunCommand_unsafe by (vm_compute; reflexivity).
    cbn [fst snd success andb]. now rewrite logBlockedCommand_spawned.
Qed.

(** C9: [docker compose version] matches the deny pattern for docker
    subcommands, so the classifier rejects it and the guarded runner
    answers with a blocked result and spawns nothing; the check then
    returns what the probe for [docker-compose] returns. *)
Theorem C9_docker_compose_version_blocked
    (dir : directory) (analysis : option Docker.analysis) (o : options)
    (w : world) :
  let docker_subcommands :=
    bounded_i [lit "docker"; ws;
               alt ["run"; "start"; "compose"; "build"; "exec"]] in
  In docker_subcommands DANGEROUS_COMMAND_PATTERNS /\
  test docker_subcommands (js "docker compose version") = true /\
  safe (isCommandSafe (js "docker compose version")) = false /\
  (let (r, w') := runCommand env (js "docker compose version") o w in
   success r = false /\ blocked r = true /\ code r = (-1)%Z /\
   spawned w' = spawned w) /\
  Docker.docker_compose_check env dir analysis w =
    if from_option Docker.hasCompose false analysis then
      let (r, w') := runCommand env (js "docker compose version") no_options w in
      let (found, w'') := commandExists env (js "docker-compose") w' in
      (CBool found, w'')
    else (CStr (js "skip"), w).
Proof.
  assert (Hs : safe (isCommandSafe (js "docker compose version")) = false)
    by (vm_compute; reflexivity).
  cbv zeta. split; [cbn; tauto |].
  split; [vm_compute; reflexivity |].
  split; [exact Hs |].
  split.
  - unfold runCommand. rewrite safeRunCommand_unsafe by exact Hs.
    cbn [success blocked code]. now rewrite logBlockedCommand_spawned.
  - unfold Docker.docker_compose_check, runCommand.
    destruct (from_option Docker.hasCompose false analysis);
      cbn [negb]; [| reflexivity].
    unfold mbind, M_bind, mret, M_ret.
    rewrite safeRunCommand_unsafe by exact Hs. cbn [success].
    now destruct (commandExists env (js "docker-compose") _).
Qed.

End DockerCompose.

(** ** The explain flow *)

Section ExplainFlow.

Variable env : environment.
Variable cwd_accessible : bool.
Variable env_file : option jsstring.
Variable match_port : jsstring -> option jsstring.

Lemma runCommand_answers (command : jsstring) (P : jsstring -> Prop) (w : world) :
  safe (isCommandSafe command) = true ->
  answers env command P ->
  exists out : jsstring,
    P out /\
    runCommand env command no_options w =
    ({| success := true; stdout := trim out; stderr := []; code := 0;
        blocked := false |},
     World (spawned w ++ [piped env command]) (console_error w)).
Proof.
  intros Hsafe Hans. destruct (Hans (spawned w)) as (out & Hout & HP).
  exists out. split; [exact HP |].
  unfold runCommand. rewrite safeRunCommand_safe by exact Hsafe.
  unfold _executeCommand, execSync, mbind, M_bind, mret, M_ret.
  cbn [default no_options cwd timeout silent].
  fold (piped env command). now rewrite Hout.
Qed.

Lemma runCommand_short_head (w : world) :
  runCommand env (js "git rev-parse --short HEAD") no_options w =
  ({| success := false; stdout := [];
      stderr := js "[SAFETY] Command blocked: "
                ++ reason (isCommandSafe (js "git rev-parse --short HEAD"));
      code := -1; blocked := true |},
   snd (logBlockedCommand env (js "git rev-parse --short HEAD")
          (reason (isCommandSafe (js "git rev-parse --short HEAD"))) w)).
Proof.
  unfold runCommand. apply safeRunCommand_unsafe. vm_compute. reflexivity.
Qed.

(** C7, amended: when the working directory can be listed, [git rev-parse
    --git-dir] and [git symbolic-ref HEAD] succeed, so that the directory
    is a repository with HEAD on a branch, and [git status] succeeds with
    an output that contains "Unmerged paths" or "both modified", explain
    displays the Merge Conflict explanation and nothing else. *)
Theorem C7_merge_conflict_on_branch
    (cwd_listing : Explain.listing) (files : list jsstring)
    (o : Explain.explain_options) (w : world) :
  cwd_listing = Explain.Listed files ->
  answers env (js "git rev-parse --git-dir") (fun _ => True) ->
  answers env (js "git symbolic-ref HEAD") (fun _ => True) ->
  answers env (js "git status")
    (fun out => includes (trim out) (js "Unmerged paths")
                || includes (trim out) (js "both modified") = true) ->
  fst (Explain.explain env cwd_listing cwd_accessible env_file match_port o w)
  = Explain.Fulfilled [Explain.mergeConflict].
Proof.
  intros -> Hrepo Hhead Hstatus.
  unfold Explain.explain, Explain.checkGitErrors, mbind, M_bind, mret, M_ret.
  assert (Hs1 : safe (isCommandSafe (js "git rev-parse --git-dir")) = true)
    by (vm_compute; reflexivity).
  assert (Hs2 : safe (isCommandSafe (js "git symbolic-ref HEAD")) = true)
    by (vm_compute; reflexivity).
  assert (Hs3 : safe (isCommandSafe (js "git status")) = true)
    by (vm_compute; reflexivity).
  destruct (runCommand_answers _ _ w Hs1 Hrepo) as (out1 & _ & ->).
  cbn [success negb].
  match goal with
  | |- context [runCommand env (js "git symbolic-ref HEAD") no_options ?w1] =>
      destruct (runCommand_answers _ _ w1 Hs2 Hhead) as (out2 & _ & ->)
  end.
  cbn [success negb].
  match goal with
  | |- context [runCommand env (js "git status") no_options ?w2] =>
      destruct (runCommand_answers _ _ w2 Hs3 Hstatus) as (out3 & Hmark & ->)
  end.
  cbn [success stdout andb]. unfold or_else at 1 2.
  destruct (truthy (trim out3)) eqn:Hne.
  - rewrite Hmark. reflexivity.
  - destruct (trim out3); [| discriminate Hne].
    vm_compute in Hmark. discriminate Hmark.
Qed.


End ExplainFlow.

(** C7, as the claim states it, fails: during a rebase stopped by a
    conflict the directory is a repository and the output of [git status]
    has both markers, but HEAD is detached, and explain displays the
    Detached HEAD explanation, which it checks first. *)
Lemma C7_counterexample :
  os_exec rebase_conflict_env
    (piped rebase_conflict_env (js "git rev-parse --git-dir")) []
    = Returned (Some (js ".git" ++ [10%N])) /\
  os_exec rebase_conflict_env (piped rebase_conflict_env (js "git status")) []
    = Returned (Some conflict_status) /\
  includes (trim conflict_status) (js "Unmerged paths") = true /\
  includes (trim conflict_status) (js "both modified") = true /\
  fst (Explain.explain rebase_conflict_env
         (Explain.Listed [js "src"; js ".git"]) true None
         no_port (Explain.ExplainOptions false) (World [] []))
  = Explain.Fulfilled [Explain.detachedHead (js "unknown")] /\
  Explain.title (Explain.detachedHead (js "unknown"))
  <> Explain.title Explain.mergeConflict.
Proof.
  repeat split; try (vm_compute; reflexivity).
  vm_compute. discriminate.
Qed.

Lemma C7_merge_conflict_on_branch_witness :
  fst (Explain.explain merge_conflict_env
         (Explain.Listed [js "src"; js ".git"]) true None
         no_port (Explain.ExplainOptions false) (World [] []))
  = Explain.Fulfilled [Explain.mergeConflict].
Proof.
  apply (C7_merge_conflict_on_branch merge_conflict_env true None no_port
           (Explain.Listed [js "src"; js ".git"]) [js "src"; js ".git"]
           (Explain.ExplainOptions false) (World [] []));
    [reflexivity | | |];
    intros history; eexists; (split; [vm_compute; reflexivity |]);
    first [exact I | vm_compute; reflexivity].
Defined.


(** * Further properties *)

(** ** Trimming *)

Section TrimmingFacts.

Lemma drop_space_app (pre rest : jsstring) (c : N) :
  is_space c = false ->
  drop_space (pre ++ c :: rest) = drop_space pre ++ c :: rest.
Proof.
  intros Hc. induction pre as [|d pre IH]; cbn [app drop_space].
  - now rewrite Hc.
  - destruct (is_space d); [exact IH | reflexivity].
Qed.

Lemma drop_space_blank (s : jsstring) : blank s = true -> drop_space s = [].
Proof.
  unfold blank. induction s as [|c s IH]; cbn [forallb drop_space];
    [reflexivity |].
  intros [Hc Hs]%andb_true_iff. rewrite Hc. now apply IH.
Qed.

Lemma drop_space_idem (s : jsstring) : drop_space (drop_space s) = drop_space s.
Proof.
  induction s as [|c s IH]; cbn [drop_space]; [reflexivity |].
  destruct (is_space c) eqn:Hc; [exact IH |].
  cbn [drop_space]. now rewrite Hc.
Qed.

Lemma trim_end_app (front post : jsstring) (c : N) :
  is_space c = false ->
  trim_end (front ++ c :: post) = front ++ c :: trim_end post.
Proof.
  intros Hc. unfold trim_end.
  rewrite rev_app_distr. cbn [rev]. rewrite <- app_assoc. cbn [app].
  rewrite drop_space_app by exact Hc.
  rewrite rev_app_distr. cbn [rev]. rewrite rev_involutive, <- app_assoc.
  reflexivity.
Qed.

Lemma trim_end_cons (c : N) (s : jsstring) :
  is_space c = false -> trim_end (c :: s) = c :: trim_end s.
Proof. intros Hc. exact (trim_end_app [] s c Hc). Qed.

Lemma trim_as_ends (s : jsstring) : trim s = trim_end (drop_space s).
Proof. reflexivity. Qed.

(** Around a character that is not white space, [trim] works on the two
    sides separately. *)
Lemma trim_around (pre post : jsstring) (c : N) :
  is_space c = false ->
  trim (pre ++ c :: post) = drop_space pre ++ c :: trim_end post.
Proof.
  intros Hc. rewrite trim_as_ends, drop_space_app by exact Hc.
  now apply trim_end_app.
Qed.

Lemma drop_space_trim_end (s : jsstring) :
  drop_space (trim_end (drop_space s)) = trim_end (drop_space s).
Proof.
  destruct (drop_space s) as [|c t] eqn:Hd; [reflexivity |].
  assert (Hc : is_space c = false).
  { clear -Hd. induction s as [|d s IH]; [discriminate |].
    cbn [drop_space] in Hd. destruct (is_space d) eqn:Hsp; [auto |].
    now injection Hd as -> _. }
  rewrite trim_end_cons by exact Hc. cbn [drop_space]. now rewrite Hc.
Qed.

Lemma trim_end_idem (s : jsstring) : trim_end (trim_end s) = trim_end s.
Proof.
  unfold trim_end. now rewrite rev_involutive, drop_space_idem.
Qed.

(** X3 (first half): trimming twice is trimming once. *)
Lemma trim_idempotent (s : jsstring) : trim (trim s) = trim s.
Proof.
  rewrite !trim_as_ends, drop_space_trim_end. apply trim_end_idem.
Qed.

Lemma trim_blank (s : jsstring) : blank s = true -> trim s = [].
Proof.
  intros Hb. rewrite trim_as_ends, drop_space_blank by exact Hb. reflexivity.
Qed.

(** X1.  The surrounding white space of a command never changes the verdict:
    a command is classified safe exactly when its trimmed form is. *)
Theorem verdict_of_trimmed (command : jsstring) :
  safe (isCommandSafe (trim command)) = safe (isCommandSafe command).
Proof.
  rewrite !isCommandSafe_cases, trim_idempotent.
  destruct (trim command) as [|c t] eqn:Ht.
  - cbn [truthy andb]. symmetry.
    replace (matches_any SAFE_COMMAND_PATTERNS []) with false
      by (vm_compute; reflexivity).
    apply andb_false_r.
  - destruct command as [|d u]; [discriminate Ht | reflexivity].
Qed.

(** X2.  A command of white space only, the empty command included, is
    rejected. *)
Theorem blank_command_rejected (command : jsstring) :
  blank command = true -> safe (isCommandSafe command) = false.
Proof.
  intros Hb. rewrite isCommandSafe_cases, (trim_blank _ Hb).
  replace (matches_any SAFE_COMMAND_PATTERNS []) with false
    by (vm_compute; reflexivity).
  apply andb_false_r.
Qed.

Lemma blank_command_rejected_witness :
  safe (isCommandSafe [32%N; 9%N; 10%N; 160%N]) = false.
Proof.
  apply (blank_command_rejected [32%N; 9%N; 10%N; 160%N]).
  vm_compute. reflexivity.
Defined.

Lemma includes_split (s p : jsstring) :
  includes s p = true -> exists pre post, s = pre ++ p ++ post.
Proof.
  assert (Hstart : forall p s, starts_with p s = true ->
                               exists post, s = p ++ post).
  { clear. induction p as [|a p IH]; intros s Hs.
    - now exists s.
    - destruct s as [|b s]; [discriminate |]. cbn [starts_with] in Hs.
      apply andb_true_iff in Hs as [Hab Hs]. apply N.eqb_eq in Hab. subst b.
      destruct (IH s Hs) as [post ->]. now exists post. }
  induction s as [|c s IH]; cbn [includes]; intros Hinc.
  - rewrite orb_false_r in Hinc. destruct (Hstart _ _ Hinc) as [post Hpost].
    exists [], post. exact Hpost.
  - apply orb_true_iff in Hinc as [Hs | Hs].
    + destruct (Hstart _ _ Hs) as [post Hpost]. now exists [], post.
    + destruct (IH Hs) as (pre & post & ->). now exists (c :: pre), post.
Qed.

(** X3.  A backtick or the opening [$(] of a command substitution anywhere
    in a command makes the classifier reject it. *)
Theorem substitution_rejected (command : jsstring) :
  includes command (js "`") = true \/ includes command (js "$(") = true ->
  safe (isCommandSafe command) = false.
Proof.
  intros [Hinc | Hinc]; apply includes_split in Hinc as (pre & post & ->).
  - apply (backtick_denied _ (drop_space pre) (trim_end post)).
    now apply trim_around.
  - apply (substitution_denied _ (drop_space pre) (trim_end post)).
    change (js "$(" ++ post) with (chr "$" :: chr "(" :: post).
    rewrite trim_around by reflexivity.
    now rewrite trim_end_cons by reflexivity.
Qed.

Lemma substitution_rejected_witness :
  safe (isCommandSafe (js "git log -1 --format=" ++ dq "$(id)")) = false.
Proof.
  apply (substitution_rejected (js "git log -1 --format=" ++ dq "$(id)")).
  right. vm_compute. reflexivity.
Defined.

End TrimmingFacts.

(** ** utils/safety.js: sanitizeInput and assertCommandSafe *)

Section SafetyHelpersFacts.

Import SafetyHelpers.

Lemma sanitizeInput_filter (input : jsstring) :
  sanitizeInput input
  = List.filter (fun c => negb (is_injection_character c)) input.
Proof. now destruct input. Qed.

Lemma filter_clean (s : jsstring) :
  clean s = true ->
  List.filter (fun c => negb (is_injection_character c)) s = s.
Proof.
  unfold clean. induction s as [|c s IH]; cbn [forallb List.filter];
    [reflexivity |].
  intros [Hc Hs]%andb_true_iff. rewrite Hc. now rewrite IH.
Qed.

Lemma sanitizeInput_is_clean (input : jsstring) :
  clean (sanitizeInput input) = true.
Proof.
  rewrite sanitizeInput_filter. unfold clean. apply forallb_forall.
  intros c Hin. now apply filter_In in Hin.
Qed.

(** X4.  [sanitizeInput] leaves none of the sixteen characters of its class
    in the result, changes nothing in a text that has none of them, and so
    gives the same text when applied twice. *)
Theorem sanitizeInput_removes_all (input : jsstring) :
  clean (sanitizeInput input) = true /\
  sanitizeInput (sanitizeInput input) = sanitizeInput input /\
  (clean input = true -> sanitizeInput input = input).
Proof.
  split; [apply sanitizeInput_is_clean |].
  split.
  - rewrite (sanitizeInput_filter (sanitizeInput input)).
    apply filter_clean, sanitizeInput_is_clean.
  - intros Hc. rewrite sanitizeInput_filter. now apply filter_clean.
Qed.

Lemma sanitizeInput_removes_all_witness :
  clean (js "docker-compose.yml") = true /\
  sanitizeInput (js "docker-compose.yml") = js "docker-compose.yml".
Proof.
  split; [vm_compute; reflexivity |].
  apply (proj2 (proj2 (sanitizeInput_removes_all (js "docker-compose.yml")))).
  vm_compute. reflexivity.
Defined.

(** A search finds nothing when every match has to start with a character
    that the input does not have. *)
Lemma search_needs_start (m : state -> bool) (P : N -> bool) :
  (forall prev s, m (prev, s) = true ->
     exists c t, s = c :: t /\ P c = true) ->
  forall (s : jsstring) (prev : option N),
    forallb (fun c => negb (P c)) s = true -> search m prev s = false.
Proof.
  intros Hm. induction s as [|c s IH]; intros prev Hs; cbn [search].
  - rewrite orb_false_r. apply not_true_is_false. intros Hx.
    now destruct (Hm _ _ Hx) as (? & ? & ? & _).
  - cbn [forallb] in Hs. apply andb_true_iff in Hs as [Hc Hs].
    rewrite (IH _ Hs), orb_false_r. apply not_true_is_false. intros Hx.
    destruct (Hm _ _ Hx) as (d & t & Heq & Hd). injection Heq as <- <-.
    now rewrite Hd in Hc.
Qed.

Lemma metacharacter_match_start (p : pattern) (prev : option N) (s : jsstring) :
  In p shell_metacharacter_patterns ->
  matcher (ignoreCase p) (source p) (fun _ => true) (prev, s) = true ->
  exists c t, s = c :: t /\ is_injection_character c = true.
Proof.
  intros Hin Hm. destruct s as [|c t].
  - exfalso. cbn in Hin.
    destruct Hin as [<- | [<- | [<- | [<- | [<- | []]]]]];
      cbn in Hm; try discriminate Hm; destruct prev as [d|];
      try destruct (negb _); discriminate Hm.
  - exists c, t. split; [reflexivity |]. cbn in Hin.
    destruct Hin as [<- | [<- | [<- | [<- | [<- | []]]]]].
    + cbn [ignoreCase source cat fold_right matcher] in Hm.
      unfold step_char in Hm. cbn [snd] in Hm.
      apply andb_true_iff in Hm as [Hm _].
      unfold class_mem in Hm. cbn [xorb existsb item_mem canonicalize andb] in Hm.
      unfold is_injection_character, class_mem, injection_characters.
      cbn [xorb existsb item_mem canonicalize andb].
      rewrite orb_false_r in Hm.
      apply orb_true_iff in Hm as [Hm | Hm];
        [| apply orb_true_iff in Hm as [Hm | Hm]];
        rewrite Hm, ?orb_true_r; reflexivity.
    + change (lit "$(") with (RSeq (RChar (chr "$")) (lit "(")) in Hm.
      cbn [ignoreCase source matcher] in Hm. unfold step_char at 1 in Hm.
      cbn [snd] in Hm. apply andb_true_iff in Hm as [Hm _].
      unfold is_injection_character, class_mem, injection_characters.
      cbn [xorb existsb item_mem canonicalize andb] in *.
      rewrite Hm, ?orb_true_r; reflexivity.
    + change (lit "`") with (RSeq (RChar (chr "`")) REmpty) in Hm.
      cbn [ignoreCase source matcher] in Hm. unfold step_char at 1 in Hm.
      cbn [snd] in Hm. apply andb_true_iff in Hm as [Hm _].
      unfold is_injection_character, class_mem, injection_characters.
      cbn [xorb existsb item_mem canonicalize andb] in *.
      rewrite Hm, ?orb_true_r; reflexivity.
    + change (lit ">") with (RSeq (RChar (chr ">")) REmpty) in Hm.
      cbn [ignoreCase source cat fold_right matcher fst] in Hm.
      assert (Hstep : step_char
                (fun d => (canonicalize false (chr ">") =? canonicalize false d)%N)
                (matcher false REmpty
                   (matcher false (RSeq (RNotAhead (lit "&")) REmpty) (fun _ => true)))
                (prev, c :: t) = true).
      { destruct prev as [d|]; [| exact Hm].
        now apply andb_true_iff in Hm as [_ Hm]. }
      unfold step_char in Hstep. cbn [snd] in Hstep.
      apply andb_true_iff in Hstep as [Hc _].
      unfold is_injection_character, class_mem, injection_characters.
      cbn [xorb existsb item_mem canonicalize andb] in *.
      rewrite Hc, ?orb_true_r; reflexivity.
    + change (lit "<") with (RSeq (RChar (chr "<")) REmpty) in Hm.
      cbn [ignoreCase source cat fold_right matcher] in Hm.
      unfold step_char at 1 in Hm. cbn [snd] in Hm.
      apply andb_true_iff in Hm as [Hm _].
      unfold is_injection_character, class_mem, injection_characters.
      cbn [xorb existsb item_mem canonicalize andb] in *.
      rewrite Hm, ?orb_true_r; reflexivity.
Qed.

(** X5.  The five deny patterns for shell metacharacters are part of the
    deny list, and none of them matches a sanitized text. *)
Theorem sanitized_has_no_metacharacter (input : jsstring) (p : pattern) :
  In p shell_metacharacter_patterns ->
  In p DANGEROUS_COMMAND_PATTERNS /\ test p (sanitizeInput input) = false.
Proof.
  intros Hin. split.
  - cbn in Hin. destruct Hin as [<- | [<- | [<- | [<- | [<- | []]]]]];
      cbn; tauto.
  - unfold test.
    apply (search_needs_start _ is_injection_character).
    + intros prev s. now apply metacharacter_match_start.
    + apply sanitizeInput_is_clean.
Qed.

Lemma sanitized_has_no_metacharacter_witness :
  test (RegExp (lit "$(") false)
    (sanitizeInput (js "git status; rm -rf $(pwd) > /dev/null")) = false.
Proof.
  apply (sanitized_has_no_metacharacter
           (js "git status; rm -rf $(pwd) > /dev/null") (RegExp (lit "$(") false)).
  cbn. tauto.
Defined.

End SafetyHelpersFacts.

(** ** What the guarded code spawns *)

Lemma not_allowed_unsafe (command : jsstring) :
  matches_any SAFE_COMMAND_PATTERNS (trim command) = false ->
  safe (isCommandSafe command) = false.
Proof.
  intros Hallow. rewrite isCommandSafe_cases, Hallow. apply andb_false_r.
Qed.

Section SpawnsOnlyFacts.

Variable env : environment.

Lemma spawns_only_ret {A : Type} (P : jsstring -> Prop) (a : A) :
  spawns_only P (mret a).
Proof. intros w. exists []. cbn. now rewrite app_nil_r. Qed.

Lemma spawns_only_bind {A B : Type} (P : jsstring -> Prop)
    (m : M A) (f : A -> M B) :
  spawns_only P m -> (forall a, spawns_only P (f a)) ->
  spawns_only P (mbind f m).
Proof.
  intros Hm Hf w. unfold mbind, M_bind.
  destruct (Hm w) as (e1 & He1 & HP1). destruct (m w) as [a w1].
  destruct (Hf a w1) as (e2 & He2 & HP2). cbn [snd] in He1.
  exists (e1 ++ e2). split.
  - now rewrite He2, He1, app_assoc.
  - now apply Forall_app.
Qed.

Lemma spawns_only_bind_with {A B : Type} (P : jsstring -> Prop)
    (Q : A -> Prop) (m : M A) (f : A -> M B) :
  (forall w, Q (fst (m w))) ->
  spawns_only P m -> (forall a, Q a -> spawns_only P (f a)) ->
  spawns_only P (mbind f m).
Proof.
  intros HQ Hm Hf w. unfold mbind, M_bind.
  destruct (Hm w) as (e1 & He1 & HP1). specialize (HQ w).
  destruct (m w) as [a w1]. cbn [fst snd] in *.
  destruct (Hf a HQ w1) as (e2 & He2 & HP2).
  exists (e1 ++ e2). split.
  - now rewrite He2, He1, app_assoc.
  - now apply Forall_app.
Qed.

Lemma spawns_only_weaken {A : Type} (P Q : jsstring -> Prop) (m : M A) :
  (forall c, P c -> Q c) -> spawns_only P m -> spawns_only Q m.
Proof.
  intros HPQ Hm w. destruct (Hm w) as (e & He & HP).
  exists e. split; [exact He |]. eapply Forall_impl; eauto.
Qed.

Lemma safeRunCommand_spawns (command : jsstring) (o : options) :
  spawns_only (fun c => c = command /\ accepted c) (safeRunCommand env command o).
Proof.
  intros w. destruct (safeRunCommand_guard env command o w) as [_ Hc].
  rewrite Hc. unfold accepted.
  destruct (safe (isCommandSafe command)) eqn:Hs.
  - exists [command]. split; [reflexivity |]. now repeat constructor.
  - exists []. split; [reflexivity | constructor].
Qed.

Lemma safeRunCommand_spawns_within (P : jsstring -> Prop)
    (command : jsstring) (o : options) :
  (accepted command -> P command) ->
  spawns_only P (safeRunCommand env command o).
Proof.
  intros HP. eapply spawns_only_weaken; [| apply safeRunCommand_spawns].
  intros c [-> Hc]. now apply HP.
Qed.

Lemma blocked_spawns_nothing (P : jsstring -> Prop)
    (command : jsstring) (o : options) :
  safe (isCommandSafe command) = false ->
  spawns_only P (safeRunCommand env command o).
Proof.
  intros Hs. apply safeRunCommand_spawns_within. unfold accepted. congruence.
Qed.

(** X6.  Whatever their arguments, [safeRunCommand], [runCommand],
    [runCommandSimple], [commandExists] and [getCommandVersion] of the
    guarded runner spawn only commands that the classifier accepts. *)
Theorem guarded_runner_spawns_accepted
    (command cmd : jsstring) (versionFlag : option jsstring) (o : options) :
  spawns_only accepted (safeRunCommand env command o) /\
  spawns_only accepted (runCommand env command o) /\
  spawns_only accepted (RunnerSimple.runCommandSimple env command) /\
  spawns_only accepted (commandExists env cmd) /\
  spawns_only accepted (getCommandVersion env cmd versionFlag).
Proof.
  assert (Hrun : forall c o', spawns_only accepted (safeRunCommand env c o'))
    by (intros c o'; now apply safeRunCommand_spawns_within).
  split; [apply Hrun |]. split; [apply Hrun |]. split; [| split].
  - unfold RunnerSimple.runCommandSimple.
    apply spawns_only_bind; [apply Hrun | intros r; apply spawns_only_ret].
  - unfold commandExists.
    destruct (negb (truthy cmd) || negb (test tool_name cmd));
      [apply spawns_only_ret |].
    apply spawns_only_bind; [apply Hrun | intros r; apply spawns_only_ret].
  - unfold getCommandVersion.
    destruct (negb (truthy cmd) || negb (test tool_name cmd));
      [apply spawns_only_ret |].
    destruct (negb (truthy _) || negb (test flag_name _));
      [apply spawns_only_ret |].
    apply spawns_only_bind; [apply Hrun | intros r].
    destruct (success r || truthy (stdout r)); apply spawns_only_ret.
Qed.

(** X7.  For a command that the classifier rejects, [runCommandSimple] does
    not return [null]: the caller receives the text of the refusal, which
    starts with the tag of the safety module, as if it were output. *)
Theorem runCommandSimple_blocked_text (command : jsstring) (w : world) :
  safe (isCommandSafe command) = false ->
  fst (RunnerSimple.runCommandSimple env command w)
  = Some (js "[SAFETY] Command blocked: " ++ reason (isCommandSafe command)) /\
  spawned (snd (RunnerSimple.runCommandSimple env command w)) = spawned w.
Proof.
  intros Hs. unfold RunnerSimple.runCommandSimple, mbind, M_bind, mret, M_ret.
  rewrite safeRunCommand_unsafe by exact Hs.
  cbn [fst snd success stderr stdout]. split.
  - reflexivity.
  - apply logBlockedCommand_spawned.
Qed.

End SpawnsOnlyFacts.

Lemma runCommandSimple_blocked_text_witness :
  fst (RunnerSimple.runCommandSimple sample_env (js "npm test") (World [] []))
  = Some (js "[SAFETY] Command blocked: "
          ++ reason (isCommandSafe (js "npm test"))) /\
  spawned (snd (RunnerSimple.runCommandSimple sample_env (js "npm test")
                  (World [] []))) = [].
Proof.
  apply (runCommandSimple_blocked_text sample_env (js "npm test") (World [] [])).
  vm_compute. reflexivity.
Defined.

(** ** The probe for a tool *)

Section ToolProbeFacts.

Lemma matcher_lit_of (ic : bool) (l : jsstring) (k : state -> bool)
    (prev : option N) (rest : jsstring) :
  matcher ic (lit_of l) k (prev, l ++ rest) = k (before prev l, rest).
Proof.
  revert prev. induction l as [|c l IH]; intros prev; [reflexivity |].
  cbn [lit_of fold_right app matcher]. unfold step_char. cbn [snd].
  rewrite N.eqb_refl. cbn [andb]. fold (lit_of l). rewrite IH.
  now rewrite before_cons.
Qed.

Lemma trim_end_solid (s : jsstring) :
  forallb (fun c => negb (is_space c)) s = true -> trim_end s = s.
Proof.
  induction s as [|c s IH]; cbn [forallb]; [reflexivity |].
  intros [Hc Hs]%andb_true_iff. apply negb_true_iff in Hc.
  rewrite trim_end_cons by exact Hc. now rewrite IH.
Qed.

Lemma name_char_not_space (c : N) : name_char c = true -> is_space c = false.
Proof.
  unfold name_char, is_word, is_upper, is_lower, is_digit, is_space.
  intros H. repeat rewrite ?orb_true_iff, ?andb_true_iff in H.
  repeat rewrite ?orb_false_iff, ?andb_false_iff.
  rewrite ?N.leb_le, ?N.eqb_eq in H. rewrite ?N.leb_gt, ?N.eqb_neq. lia.
Qed.

Lemma word_not_space (c : N) : is_word c = true -> is_space c = false.
Proof.
  intros H. apply name_char_not_space. unfold name_char. now rewrite H.
Qed.

Lemma names_solid (cmd : jsstring) :
  forallb name_char cmd = true ->
  forallb (fun c => negb (is_space c)) cmd = true.
Proof.
  rewrite !forallb_forall. intros H c Hin.
  now rewrite (name_char_not_space c (H c Hin)).
Qed.

(** A probe command is its own trimmed form. *)
Lemma trim_probe (verb : string) (c : N) (t : jsstring) :
  forallb (fun a => negb (is_space a)) (js verb) = true ->
  js verb <> [] ->
  forallb name_char (c :: t) = true ->
  trim (js verb ++ 32%N :: c :: t) = js verb ++ 32%N :: c :: t.
Proof.
  intros Hverb Hne Hname. apply names_solid in Hname.
  cbn [forallb] in Hname. apply andb_true_iff in Hname as [Hc Ht].
  apply negb_true_iff in Hc.
  replace (js verb ++ 32%N :: c :: t) with ((js verb ++ [32%N]) ++ c :: t)
    by now rewrite <- app_assoc.
  rewrite trim_around by exact Hc.
  rewrite (trim_end_solid t Ht). f_equal.
  destruct (js verb) as [|v u]; [contradiction |].
  cbn [forallb] in Hverb. apply andb_true_iff in Hverb as [Hv _].
  apply negb_true_iff in Hv. cbn [app drop_space]. now rewrite Hv.
Qed.

(** After the verb and one space, the probe patterns accept exactly the
    names of word characters. *)
Lemma probe_pattern_words (verb : string) (c : N) (t : jsstring) :
  is_space c = false ->
  match_at_start (RegExp (cat [RBol; lit verb; ws; word1; REol]) true)
    (js verb ++ 32%N :: c :: t)
  = forallb is_word (c :: t).
Proof.
  intros Hc. unfold match_at_start.
  cbn [ignoreCase source cat fold_right]. cbn [matcher fst].
  change (lit verb) with (lit_of (js verb)). rewrite matcher_lit_of.
  unfold ws, word1. cbn [matcher]. unfold step_char at 1. cbn [snd].
  change (class_mem true false [ISpace] 32%N) with true. cbn [andb].
  unfold remaining at 1. cbn [snd List.length repeat_matcher].
  cbn [matcher]. unfold step_char at 1. cbn [snd].
  replace (class_mem true false [ISpace] c) with false
    by (unfold class_mem; cbn; now rewrite Hc).
  cbn [andb orb]. unfold step_char at 1. cbn [snd forallb]. f_equal.
  - unfold class_mem. cbn. now rewrite orb_false_r.
  - apply repeat_matcher_chars; [| | unfold remaining; cbn; lia].
    + intros k' x. cbn [matcher]. unfold step_char.
      destruct (snd x); [reflexivity |]. f_equal.
      unfold class_mem. cbn. now rewrite orb_false_r.
    + intros x. cbn [matcher]. unfold at_end. now destruct (snd x).
Qed.

Lemma which_only (rest : jsstring) :
  matches_any SAFE_COMMAND_PATTERNS (js "which " ++ rest)
  = match_at_start which_pattern (js "which " ++ rest).
Proof.
  rewrite matches_any_anchored by (vm_compute; reflexivity).
  rewrite <- (firstn_skipn 43 SAFE_COMMAND_PATTERNS), existsb_app.
  change (skipn 43 SAFE_COMMAND_PATTERNS) with
    ([which_pattern] ++ skipn 44 SAFE_COMMAND_PATTERNS).
  rewrite existsb_app.
  assert (existsb (fun p => match_at_start p (js "which " ++ rest))
            (firstn 43 SAFE_COMMAND_PATTERNS) = false) as ->
    by (vm_compute; reflexivity).
  assert (existsb (fun p => match_at_start p (js "which " ++ rest))
            (skipn 44 SAFE_COMMAND_PATTERNS) = false) as ->
    by (vm_compute; reflexivity).
  cbn [existsb orb]. now rewrite !orb_false_r.
Qed.

Lemma where_only (rest : jsstring) :
  matches_any SAFE_COMMAND_PATTERNS (js "where " ++ rest)
  = match_at_start where_pattern (js "where " ++ rest).
Proof.
  rewrite matches_any_anchored by (vm_compute; reflexivity).
  rewrite <- (firstn_skipn 42 SAFE_COMMAND_PATTERNS), existsb_app.
  change (skipn 42 SAFE_COMMAND_PATTERNS) with
    ([where_pattern] ++ skipn 43 SAFE_COMMAND_PATTERNS).
  rewrite existsb_app.
  assert (existsb (fun p => match_at_start p (js "where " ++ rest))
            (firstn 42 SAFE_COMMAND_PATTERNS) = false) as ->
    by (vm_compute; reflexivity).
  assert (existsb (fun p => match_at_start p (js "where " ++ rest))
            (skipn 43 SAFE_COMMAND_PATTERNS) = false) as ->
    by (vm_compute; reflexivity).
  cbn [existsb orb]. now rewrite !orb_false_r.
Qed.

(** The probe for a name that passes the name check is on the allow list
    exactly when the name has word characters only. *)
Lemma probe_allowed (isWin : bool) (cmd : jsstring) :
  test tool_name cmd = true ->
  matches_any SAFE_COMMAND_PATTERNS
    (trim ((if isWin then js "where " else js "which ") ++ cmd))
  = forallb is_word cmd.
Proof.
  rewrite tool_name_spec. intros [Hne Hname]%andb_true_iff.
  destruct cmd as [|c t]; [discriminate Hne |].
  assert (Hc : is_space c = false).
  { cbn [forallb] in Hname. apply andb_true_iff in Hname as [Hc _].
    now apply name_char_not_space. }
  destruct isWin.
  - change (js "where " ++ c :: t) with (js "where" ++ 32%N :: c :: t).
    rewrite trim_probe by (try exact Hname; vm_compute; congruence).
    change (js "where" ++ 32%N :: c :: t) with (js "where " ++ c :: t).
    rewrite where_only.
    change (js "where " ++ c :: t) with (js "where" ++ 32%N :: c :: t).
    now apply probe_pattern_words.
  - change (js "which " ++ c :: t) with (js "which" ++ 32%N :: c :: t).
    rewrite trim_probe by (try exact Hname; vm_compute; congruence).
    change (js "which" ++ 32%N :: c :: t) with (js "which " ++ c :: t).
    rewrite which_only.
    change (js "which " ++ c :: t) with (js "which" ++ 32%N :: c :: t).
    now apply probe_pattern_words.
Qed.

Variable env : environment.

(** X8.  [commandExists] answers [false] without spawning a process for
    every name that has a character outside the word characters: the name
    check admits the hyphen, but the allow patterns for [which] and [where]
    do not, so the probe for a name like [docker-compose] is never run. *)
Theorem commandExists_needs_word_name (cmd : jsstring) (w : world) :
  forallb is_word cmd = false ->
  fst (commandExists env cmd w) = false /\
  spawned (snd (commandExists env cmd w)) = spawned w.
Proof.
  intros Hword. destruct (test tool_name cmd) eqn:Hname.
  - unfold commandExists. rewrite Hname.
    replace (negb (truthy cmd)) with false
      by (destruct cmd; [discriminate Hword | reflexivity]).
    cbn [negb orb]. unfold mbind, M_bind, mret, M_ret.
    rewrite safeRunCommand_unsafe.
    + cbn [fst snd success andb]. split; [reflexivity |].
      apply logBlockedCommand_spawned.
    + apply not_allowed_unsafe. now rewrite probe_allowed, Hword.
  - now rewrite commandExists_invalid_name.
Qed.

End ToolProbeFacts.

Lemma commandExists_needs_word_name_witness :
  fst (commandExists sample_env (js "clang-format") (World [] [])) = false /\
  spawned (snd (commandExists sample_env (js "clang-format") (World [] []))) = [].
Proof.
  apply (commandExists_needs_word_name sample_env (js "clang-format") (World [] [])).
  vm_compute. reflexivity.
Defined.

(** ** The flows that run commands *)

Ltac spawn_leaf :=
  unfold runCommand; apply safeRunCommand_spawns_within;
  let Hacc := fresh "Hacc" in
  intros Hacc;
  first [ (lazy in Hacc; discriminate Hacc)
        | reflexivity
        | solve [cbn [In]; auto 10] ].

Ltac spawn_flow :=
  repeat match goal with
  | |- spawns_only _ (mret _) => apply spawns_only_ret
  | |- spawns_only _ (mbind _ _) => apply spawns_only_bind; [| intros ?]
  | |- spawns_only _ (runCommand _ _ _) => spawn_leaf
  | |- spawns_only _ (safeRunCommand _ _ _) => spawn_leaf
  | |- spawns_only _ (if ?b then _ else _) => destruct b
  | |- spawns_only _ (match ?x with _ => _ end) => destruct x
  end.

Section FlowsFacts.

Variable env : environment.

Lemma runCommand_blocked (command : jsstring) (w : world) :
  safe (isCommandSafe command) = false ->
  runCommand env command no_options w =
  ({| success := false; stdout := [];
      stderr := js "[SAFETY] Command blocked: " ++ reason (isCommandSafe command);
      code := -1; blocked := true |},
   snd (logBlockedCommand env command (reason (isCommandSafe command)) w)).
Proof. intros Hs. unfold runCommand. now apply safeRunCommand_unsafe. Qed.

(** The command that looks for a process on a port is rejected, whatever
    the port and the platform. *)
Lemma portCommand_rejected (isWin : bool) (port : jsstring) :
  safe (isCommandSafe (Explain.portCommand isWin port)) = false.
Proof.
  unfold Explain.portCommand. destruct isWin.
  - change (js "netstat -ano | findstr :" ++ port)
      with (js "netstat -ano " ++ chr "|" :: (js " " ++ chr "f" :: js "indstr :" ++ port)).
    apply (chaining_denied _ (drop_space (js "netstat -ano "))
             (js " " ++ chr "f" :: trim_end (js "indstr :" ++ port)) (chr "|")).
    + rewrite trim_around by reflexivity.
      now rewrite trim_end_app by reflexivity.
    + tauto.
    + reflexivity.
  - apply not_allowed_unsafe.
    change (js "lsof -i :" ++ port) with (js "lsof -i " ++ chr ":" :: port).
    rewrite trim_around by reflexivity.
    change (drop_space (js "lsof -i ") ++ chr ":" :: trim_end port)
      with (js "lsof -i :" ++ trim_end port).
    rewrite matches_any_anchored by (vm_compute; reflexivity).
    vm_compute. reflexivity.
Qed.

Lemma checkSystemErrors_quiet
    (cwd_accessible : bool) (env_file : option jsstring)
    (match_port : jsstring -> option jsstring)
    (o : Explain.explain_options) (w : world) :
  spawned (snd (Explain.checkSystemErrors env cwd_accessible env_file
                  match_port o w)) = spawned w.
Proof.
  unfold Explain.checkSystemErrors.
  destruct cwd_accessible; cbn [negb]; [| reflexivity].
  destruct env_file as [envContent|]; [| reflexivity].
  destruct (match_port envContent) as [port|]; [| reflexivity].
  unfold mbind, M_bind, mret, M_ret.
  rewrite runCommand_blocked by apply portCommand_rejected.
  cbn [success andb fst snd]. apply logBlockedCommand_spawned.
Qed.

(** X9.  [checkSystemErrors] never reports a port in use: the command that
    would find the process is rejected, so the result is the Permission
    Denied explanation or nothing, and no process is spawned. *)
Theorem checkSystemErrors_never_finds_port
    (cwd_accessible : bool) (env_file : option jsstring)
    (match_port : jsstring -> option jsstring)
    (o : Explain.explain_options) (w : world) :
  (fst (Explain.checkSystemErrors env cwd_accessible env_file match_port o w)
   = None \/
   fst (Explain.checkSystemErrors env cwd_accessible env_file match_port o w)
   = Some (Explain.permissionDenied (process_cwd env))) /\
  spawned (snd (Explain.checkSystemErrors env cwd_accessible env_file
                  match_port o w)) = spawned w.
Proof.
  split; [| apply checkSystemErrors_quiet].
  unfold Explain.checkSystemErrors.
  destruct cwd_accessible; cbn [negb]; [| now right].
  destruct env_file as [envContent|]; [| now left].
  destruct (match_port envContent) as [port|]; [| now left].
  unfold mbind, M_bind, mret, M_ret.
  rewrite runCommand_blocked by apply portCommand_rejected.
  cbn [success andb fst snd]. now left.
Qed.

Lemma upstream_query_blocked (w : world) :
  let r := fst (runCommand env upstream_query no_options w) in
  success r = false /\
  includes (stderr r) (js "no upstream") = false /\
  includes (stdout r) (js "no upstream") = false.
Proof.
  rewrite runCommand_blocked by reflexivity.
  cbn [fst success stderr stdout].
  repeat split; reflexivity.
Qed.

Lemma status_sb_blocked (w : world) :
  success (fst (runCommand env (js "git status -sb") no_options w)) = false.
Proof. now rewrite runCommand_blocked by reflexivity. Qed.

(** X10.  [checkGitErrors] never returns the No Upstream Branch or the
    Branches Have Diverged explanation: the two commands that would detect
    them are rejected, and the text of the refusal does not contain the
    words the code looks for. What it returns is one of six results, and
    it is rejected only when the working directory cannot be listed. *)
Theorem checkGitErrors_findings
    (cwd_listing : Explain.listing) (o : Explain.explain_options) (w : world) :
  safe (isCommandSafe upstream_query) = false /\
  safe (isCommandSafe (js "git status -sb")) = false /\
  match fst (Explain.checkGitErrors env cwd_listing o w) with
  | Explain.Fulfilled finding => In finding git_findings
  | Explain.Rejected error => cwd_listing = Explain.Unlistable error
  end.
Proof.
  split; [reflexivity |]. split; [reflexivity |].
  unfold Explain.checkGitErrors, mbind, M_bind, mret, M_ret.
  destruct cwd_listing as [files | error]; [| reflexivity].
  fold upstream_query.
  repeat match goal with
  | |- context [runCommand env (js "git rev-parse --short HEAD") no_options ?w0] =>
      rewrite (runCommand_short_head env w0)
  | |- context [runCommand env upstream_query no_options ?w0] =>
      let H := fresh "Hup" in
      pose proof (upstream_query_blocked w0) as H;
      destruct (runCommand env upstream_query no_options w0) as [? ?];
      cbn [fst] in H; destruct H as (-> & -> & ->); cbn [negb andb orb]
  | |- context [runCommand env (js "git status -sb") no_options ?w0] =>
      let H := fresh "Hsb" in
      pose proof (status_sb_blocked w0) as H;
      destruct (runCommand env (js "git status -sb") no_options w0) as [? ?];
      cbn [fst] in H; rewrite H; cbn [andb]
  | |- context [runCommand env ?c no_options ?w0] =>
      destruct (runCommand env c no_options w0) as [? ?]
  | |- context [if ?b then _ else _] => destruct b
  end;
  cbn [fst]; unfold git_findings; cbn [In]; auto 10.
Qed.

Lemma checkSystemErrors_spawns
    (cwd_accessible : bool) (env_file : option jsstring)
    (match_port : jsstring -> option jsstring) (o : Explain.explain_options) :
  spawns_only (fun c => In c explain_queries)
    (Explain.checkSystemErrors env cwd_accessible env_file match_port o).
Proof.
  intros w. exists [].
  rewrite app_nil_r. split; [| constructor]. unfold commands.
  now rewrite checkSystemErrors_quiet.
Qed.

(** X11.  Whatever the directory holds, whether or not it can be listed,
    and whatever the commands answer, explain spawns nothing but [git
    rev-parse --git-dir], [git symbolic-ref HEAD] and [git status]. *)
Theorem explain_spawns_three_queries
    (cwd_listing : Explain.listing) (cwd_accessible : bool)
    (env_file : option jsstring) (match_port : jsstring -> option jsstring)
    (o : Explain.explain_options) :
  spawns_only (fun c => In c explain_queries)
    (Explain.explain env cwd_listing cwd_accessible env_file match_port o).
Proof.
  unfold Explain.explain.
  apply spawns_only_bind.
  - unfold Explain.checkGitErrors.
    destruct cwd_listing as [files | error]; [| apply spawns_only_ret].
    fold upstream_query. unfold explain_queries.
    repeat match goal with
    | |- spawns_only _ (mbind _ (runCommand _ upstream_query _)) =>
        apply (spawns_only_bind_with _
                 (fun r => success r = false /\
                           includes (stderr r) (js "no upstream") = false /\
                           includes (stdout r) (js "no upstream") = false));
        [ intros w0; apply upstream_query_blocked
        | spawn_leaf
        | intros r (-> & -> & ->); cbn [negb andb orb] ]
    | |- spawns_only _ (mret _) => apply spawns_only_ret
    | |- spawns_only _ (mbind _ _) => apply spawns_only_bind; [| intros ?]
    | |- spawns_only _ (runCommand _ _ _) => spawn_leaf
    | |- spawns_only _ (if ?b then _ else _) => destruct b
    end.
  - intros [[e|] | error]; [apply spawns_only_ret | | apply spawns_only_ret].
    apply spawns_only_bind.
    + unfold Explain.checkRuntimeErrors.
      destruct cwd_listing as [files | error]; [| apply spawns_only_ret].
      spawn_flow.
    + intros [[e|] | error]; [apply spawns_only_ret | | apply spawns_only_ret].
      apply spawns_only_bind; [apply checkSystemErrors_spawns |].
      intros [e|]; apply spawns_only_ret.
Qed.

(** X12.  The Docker Compose check never passes: it is skipped or it fails,
    and it spawns no process, because both of its commands are rejected. The
    check of the daemon makes exactly one call, for [docker info], with
    the options of the guarded runner. *)
Theorem docker_compose_check_never_passes
    (dir : directory) (analysis : option Docker.analysis) (w : world) :
  (fst (Docker.docker_compose_check env dir analysis w) = CStr (js "skip") \/
   fst (Docker.docker_compose_check env dir analysis w) = CBool false) /\
  spawned (snd (Docker.docker_compose_check env dir analysis w)) = spawned w /\
  spawned (snd (check (Docker.docker_running env) dir analysis w))
  = spawned w ++ [piped env (js "docker info")].
Proof.
  split; [| split].
  - unfold Docker.docker_compose_check.
    destruct (from_option Docker.hasCompose false analysis); cbn [negb];
      [| now left].
    right. unfold mbind, M_bind, mret, M_ret.
    rewrite runCommand_blocked by reflexivity. cbn [success].
    pose proof (docker_compose_probe_blocked env
      (snd (logBlockedCommand env (js "docker compose version")
              (reason (isCommandSafe (js "docker compose version"))) w)))
      as [Hf _].
    destruct (commandExists env (js "docker-compose") _) as [found w'].
    cbn [fst] in *. now rewrite Hf.
  - unfold Docker.docker_compose_check.
    destruct (from_option Docker.hasCompose false analysis); cbn [negb];
      [| reflexivity].
    unfold mbind, M_bind, mret, M_ret.
    rewrite runCommand_blocked by reflexivity. cbn [success].
    pose proof (docker_compose_probe_blocked env
      (snd (logBlockedCommand env (js "docker compose version")
              (reason (isCommandSafe (js "docker compose version"))) w)))
      as [_ Hs].
    destruct (commandExists env (js "docker-compose") _) as [found w'].
    cbn [snd] in *. now rewrite Hs, logBlockedCommand_spawned.
  - cbn [check Docker.docker_running].
    unfold runCommand, mbind, M_bind, mret, M_ret.
    rewrite safeRunCommand_safe by reflexivity. reflexivity.
Qed.

(** X13.  [checkGitConfig] runs nothing but the probe for git and the three
    reads of the global configuration. *)
Theorem checkGitConfig_spawns :
  spawns_only (fun c => In c git_config_queries) (SystemChecks.checkGitConfig env).
Proof.
  unfold SystemChecks.checkGitConfig, git_config_queries.
  apply spawns_only_bind.
  - unfold commandExists.
    replace (negb (truthy (js "git")) || negb (test tool_name (js "git")))
      with false by reflexivity.
    destruct (win32 env); spawn_flow.
  - intros found. spawn_flow.
Qed.

End FlowsFacts.

(** ** Commands that differ in white space or in case *)

Ltac bool_arith :=
  unfold name_char, is_letter, is_word, is_upper, is_lower, is_digit, is_space in *;
  repeat match goal with
  | H : _ = true |- _ =>
      rewrite ?orb_true_iff, ?andb_true_iff, ?N.leb_le, ?N.eqb_eq in H
  | H : _ = false |- _ =>
      rewrite ?orb_false_iff, ?andb_false_iff, ?N.leb_gt, ?N.eqb_neq in H
  end;
  rewrite ?orb_true_iff, ?andb_true_iff, ?orb_false_iff, ?andb_false_iff,
    ?N.leb_le, ?N.leb_gt, ?N.eqb_eq, ?N.eqb_neq;
  try lia.

Section RelatedFacts.

Variable R : N -> N -> Prop.
Hypothesis R_space : forall a b, R a b -> is_space a = is_space b.
Hypothesis R_word : forall a b, R a b -> is_word a = is_word b.

Lemma related_remaining (x y : state) :
  related_state R x y -> remaining x = remaining y.
Proof. intros [_ H]. unfold remaining. now apply Forall2_length in H. Qed.

Lemma step_char_related (ok : N -> bool) (k k' : state -> bool) (x y : state) :
  (forall a b, R a b -> ok a = ok b) ->
  (forall u v, related_state R u v -> k u = k' v) ->
  related_state R x y -> step_char ok k x = step_char ok k' y.
Proof.
  intros Hok Hk [_ Hrest]. unfold step_char.
  destruct Hrest as [|a b s t Hab Hst]; [reflexivity |].
  rewrite (Hok a b Hab). f_equal. apply Hk. split; [| exact Hst].
  now constructor.
Qed.

Lemma repeat_matcher_related (m m' : (state -> bool) -> state -> bool) :
  (forall k k' x y,
     (forall u v, related_state R u v -> k u = k' v) ->
     related_state R x y -> m k x = m' k' y) ->
  forall (fuel : nat) (k k' : state -> bool) (x y : state),
    (forall u v, related_state R u v -> k u = k' v) ->
    related_state R x y ->
    repeat_matcher m fuel k x = repeat_matcher m' fuel k' y.
Proof.
  intros Hm. induction fuel as [|fuel IH]; intros k k' x y Hk Hxy;
    cbn [repeat_matcher].
  - now apply Hk.
  - rewrite (Hk x y Hxy). f_equal. apply Hm; [| exact Hxy].
    intros u v Huv.
    rewrite (related_remaining u v Huv), (related_remaining x y Hxy).
    f_equal. now apply IH.
Qed.

Lemma matcher_related (ic : bool) (r : regex) :
  respects ic R r ->
  forall (k k' : state -> bool) (x y : state),
    (forall u v, related_state R u v -> k u = k' v) ->
    related_state R x y ->
    matcher ic r k x = matcher ic r k' y.
Proof using R R_word.
  induction r as [| c | neg items | a IHa b IHb | a IHa b IHb | a IHa | a IHa
                 | a IHa | | | | a IHa | c];
    intros Hr k k' x y Hk Hxy; cbn [matcher respects] in *.
  - now apply Hk.
  - now apply step_char_related.
  - now apply step_char_related.
  - destruct Hr as [Ha Hb]. apply IHa; [exact Ha | | exact Hxy].
    intros u v Huv. now apply IHb.
  - destruct Hr as [Ha Hb].
    now rewrite (IHa Ha k k' x y Hk Hxy), (IHb Hb k k' x y Hk Hxy).
  - rewrite (related_remaining x y Hxy).
    apply repeat_matcher_related; [| exact Hk | exact Hxy].
    intros k1 k2 u v Hk12 Huv. now apply IHa.
  - apply IHa; [exact Hr | | exact Hxy]. intros u v Huv.
    rewrite (related_remaining u v Huv).
    apply repeat_matcher_related; [| exact Hk | exact Huv].
    intros k1 k2 u' v' Hk12 Huv'. now apply IHa.
  - now rewrite (IHa Hr k k' x y Hk Hxy), (Hk x y Hxy).
  - pose proof (Hk x y Hxy) as Hkxy. destruct Hxy as [Hp Hs].
    destruct Hp; [reflexivity | exact Hkxy].
  - pose proof (Hk x y Hxy) as Hkxy. destruct Hxy as [Hp Hs].
    destruct Hs; [exact Hkxy | reflexivity].
  - rewrite (Hk x y Hxy). f_equal. unfold word_before, word_after.
    destruct Hxy as [Hp Hs]. f_equal.
    + destruct Hp; [now apply R_word | reflexivity].
    + destruct Hs; [reflexivity | now apply R_word].
  - rewrite (Hk x y Hxy). f_equal. f_equal. now apply IHa.
  - pose proof (Hk x y Hxy) as Hkxy. destruct Hxy as [Hp Hs].
    destruct Hp as [a b Hab|]; [| exact Hkxy].
    now rewrite (Hr a b Hab), Hkxy.
Qed.

Lemma search_related (m m' : state -> bool) :
  (forall x y, related_state R x y -> m x = m' y) ->
  forall (s t : jsstring) (p q : option N),
    option_Forall2 R p q -> Forall2 R s t -> search m p s = search m' q t.
Proof.
  intros Hm s t p q Hpq Hst. revert p q Hpq.
  induction Hst as [|a b s t Hab Hst IH]; intros p q Hpq; cbn [search].
  - f_equal. apply Hm. split; [exact Hpq | constructor].
  - f_equal.
    + apply Hm. split; [exact Hpq | now constructor].
    + apply IH. now constructor.
Qed.

Lemma test_related (p : pattern) (s t : jsstring) :
  respects (ignoreCase p) R (source p) -> Forall2 R s t ->
  test p s = test p t.
Proof using R R_word.
  intros Hr Hst. unfold test. apply search_related; [| constructor | exact Hst].
  intros x y Hxy. now apply matcher_related.
Qed.

Lemma drop_space_related (s t : jsstring) :
  Forall2 R s t -> Forall2 R (drop_space s) (drop_space t).
Proof using R R_space.
  induction 1 as [|a b s t Hab Hst IH]; cbn [drop_space]; [constructor |].
  rewrite <- (R_space a b Hab). destruct (is_space a); [exact IH |].
  now constructor.
Qed.

Lemma rev_related (s t : jsstring) : Forall2 R s t -> Forall2 R (rev s) (rev t).
Proof.
  induction 1 as [|a b s t Hab Hst IH]; cbn [rev]; [constructor |].
  apply Forall2_app; [exact IH | now repeat constructor].
Qed.

Lemma trim_related (s t : jsstring) :
  Forall2 R s t -> Forall2 R (trim s) (trim t).
Proof using R R_space.
  intros H. unfold trim.
  now apply rev_related, drop_space_related, rev_related, drop_space_related.
Qed.

Lemma matches_any_related (l : list pattern) (s t : jsstring) :
  Forall (fun p => respects (ignoreCase p) R (source p)) l ->
  Forall2 R s t -> matches_any l s = matches_any l t.
Proof using R R_word.
  intros Hl Hst. unfold matches_any.
  induction Hl as [|p l Hp Hl IH]; cbn [existsb]; [reflexivity |].
  now rewrite (test_related p s t Hp Hst), IH.
Qed.

Lemma isCommandSafe_related (s t : jsstring) :
  Forall (fun p => respects (ignoreCase p) R (source p))
    (DANGEROUS_COMMAND_PATTERNS ++ SAFE_COMMAND_PATTERNS) ->
  Forall2 R s t -> isCommandSafe s = isCommandSafe t.
Proof using R R_space R_word.
  intros [Hd Ha]%Forall_app Hst. unfold isCommandSafe.
  replace (truthy t) with (truthy s) by now destruct Hst.
  pose proof (trim_related s t Hst) as Htrim.
  now rewrite (matches_any_related _ _ _ Hd Htrim),
    (matches_any_related _ _ _ Ha Htrim).
Qed.

End RelatedFacts.

Section VariantsFacts.

Lemma same_space_space (a b : N) : same_space a b -> is_space a = is_space b.
Proof. intros [-> | [-> ->]]; reflexivity. Qed.

Lemma space_not_word (a : N) : is_space a = true -> is_word a = false.
Proof. intros H. bool_arith. Qed.

Lemma space_not_digit (a : N) : is_space a = true -> is_digit a = false.
Proof. intros H. bool_arith. Qed.

Lemma same_space_word (a b : N) : same_space a b -> is_word a = is_word b.
Proof.
  intros [-> | [Ha Hb]]; [reflexivity |].
  now rewrite (space_not_word a Ha), (space_not_word b Hb).
Qed.

Lemma same_space_digit (a b : N) : same_space a b -> is_digit a = is_digit b.
Proof.
  intros [-> | [Ha Hb]]; [reflexivity |].
  now rewrite (space_not_digit a Ha), (space_not_digit b Hb).
Qed.

Lemma canonicalize_not_space (ic : bool) (c a : N) :
  is_space c = false -> is_space a = true ->
  (canonicalize ic c =? canonicalize ic a)%N = false.
Proof.
  intros Hc Ha. unfold canonicalize.
  destruct ic; cbn [andb];
    [destruct (is_lower c) eqn:Hlc; destruct (is_lower a) eqn:Hla |];
    bool_arith.
Qed.

Lemma same_space_char (ic : bool) (c : N) :
  is_space c = false ->
  forall a b, same_space a b ->
    (canonicalize ic c =? canonicalize ic a)%N
    = (canonicalize ic c =? canonicalize ic b)%N.
Proof.
  intros Hc a b [-> | [Ha Hb]]; [reflexivity |].
  now rewrite !canonicalize_not_space.
Qed.

Lemma same_case_space (a b : N) : same_case a b -> is_space a = is_space b.
Proof.
  unfold same_case, canonicalize. cbn [andb]. intros H.
  destruct (is_space a) eqn:Ha, (is_space b) eqn:Hb; try reflexivity;
    destruct (is_lower a) eqn:Hla, (is_lower b) eqn:Hlb; exfalso; bool_arith.
Qed.

Lemma same_case_word (a b : N) : same_case a b -> is_word a = is_word b.
Proof.
  unfold same_case, canonicalize. cbn [andb]. intros H.
  destruct (is_word a) eqn:Ha, (is_word b) eqn:Hb; try reflexivity;
    destruct (is_lower a) eqn:Hla, (is_lower b) eqn:Hlb; exfalso; bool_arith.
Qed.

Lemma same_case_digit (a b : N) : same_case a b -> is_digit a = is_digit b.
Proof.
  unfold same_case, canonicalize. cbn [andb]. intros H.
  destruct (is_digit a) eqn:Ha, (is_digit b) eqn:Hb; try reflexivity;
    destruct (is_lower a) eqn:Hla, (is_lower b) eqn:Hlb; exfalso; bool_arith.
Qed.

Lemma same_case_folded (c : N) :
  forall a b, same_case a b ->
    (canonicalize true c =? canonicalize true a)%N
    = (canonicalize true c =? canonicalize true b)%N.
Proof. intros a b H. unfold same_case in H. now rewrite H. Qed.

Lemma same_case_exact (c : N) :
  is_letter c = false ->
  forall a b, same_case a b ->
    (canonicalize false c =? canonicalize false a)%N
    = (canonicalize false c =? canonicalize false b)%N.
Proof.
  intros Hc a b. unfold same_case, canonicalize. cbn [andb]. intros H.
  destruct (c =? a)%N eqn:Ha, (c =? b)%N eqn:Hb; try reflexivity;
    destruct (is_lower a) eqn:Hla, (is_lower b) eqn:Hlb; exfalso; bool_arith.
Qed.

Lemma avoids_respects (R : N -> N -> Prop) (bad : N -> bool) (ic : bool) :
  (forall a b, R a b -> is_space a = is_space b) ->
  (forall a b, R a b -> is_word a = is_word b) ->
  (forall a b, R a b -> is_digit a = is_digit b) ->
  (forall c, bad c = false -> forall a b, R a b ->
     (canonicalize ic c =? canonicalize ic a)%N
     = (canonicalize ic c =? canonicalize ic b)%N) ->
  forall r, avoids bad r = true -> respects ic R r.
Proof.
  intros Hs Hw Hd Hc.
  induction r as [| c | neg items | a IHa b IHb | a IHa b IHb | a IHa | a IHa
                 | a IHa | | | | a IHa | c];
    cbn [avoids respects]; intros H; auto.
  - apply Hc. now apply negb_true_iff.
  - intros a b Hab. unfold class_mem. f_equal.
    induction items as [|i items IH]; [reflexivity |].
    cbn [forallb existsb] in *. apply andb_true_iff in H as [Hi Hitems].
    rewrite (IH Hitems). f_equal.
    destruct i as [c | | |]; cbn [item_mem]; auto.
    apply Hc; [now apply negb_true_iff | exact Hab].
  - apply andb_true_iff in H as [Ha Hb]. auto.
  - apply andb_true_iff in H as [Ha Hb]. auto.
  - apply Hc. now apply negb_true_iff.
Qed.

Lemma patterns_name_no_space :
  forallb (fun p => avoids is_space (source p))
    (DANGEROUS_COMMAND_PATTERNS ++ SAFE_COMMAND_PATTERNS) = true.
Proof. vm_compute. reflexivity. Qed.

Lemma exact_patterns_name_no_letter :
  forallb (fun p => ignoreCase p || avoids is_letter (source p))
    (DANGEROUS_COMMAND_PATTERNS ++ SAFE_COMMAND_PATTERNS) = true.
Proof. vm_compute. reflexivity. Qed.

Lemma avoids_nothing (r : regex) : avoids (fun _ => false) r = true.
Proof.
  induction r as [| c | neg items | a IHa b IHb | a IHa b IHb | a IHa | a IHa
                 | a IHa | | | | a IHa | c]; cbn [avoids negb]; auto.
  - induction items as [|[c | | |] items IH]; cbn [forallb negb andb]; auto.
  - now rewrite IHa, IHb.
  - now rewrite IHa, IHb.
Qed.

(** X14.  The verdict of [isCommandSafe] does not depend on which
    white-space code unit separates the words: replacing white-space code
    units by white-space code units, a space by a line feed for one, keeps
    the verdict and its reason. *)
Theorem verdict_ignores_kind_of_white_space (s t : jsstring) :
  Forall2 same_space s t -> isCommandSafe s = isCommandSafe t.
Proof.
  apply isCommandSafe_related.
  - exact same_space_space.
  - exact same_space_word.
  - apply List.Forall_forall. intros p Hp.
    apply (avoids_respects same_space is_space).
    + exact same_space_space.
    + exact same_space_word.
    + exact same_space_digit.
    + intros c Hc. now apply same_space_char.
    + pose proof patterns_name_no_space as H.
      rewrite List.forallb_forall in H. now apply H.
Qed.

(** X15.  The verdict of [isCommandSafe] does not depend on the case of
    ASCII letters: two commands that are equal up to the case of their
    letters get the same verdict and reason. *)
Theorem verdict_ignores_case (s t : jsstring) :
  Forall2 same_case s t -> isCommandSafe s = isCommandSafe t.
Proof.
  apply isCommandSafe_related.
  - exact same_case_space.
  - exact same_case_word.
  - apply List.Forall_forall. intros p Hp.
    pose proof exact_patterns_name_no_letter as H.
    rewrite List.forallb_forall in H. specialize (H p Hp).
    destruct (ignoreCase p).
    + apply (avoids_respects same_case (fun _ => false)).
      * exact same_case_space.
      * exact same_case_word.
      * exact same_case_digit.
      * intros c _. apply same_case_folded.
      * apply avoids_nothing.
    + apply (avoids_respects same_case is_letter).
      * exact same_case_space.
      * exact same_case_word.
      * exact same_case_digit.
      * exact same_case_exact.
      * exact H.
Qed.

End VariantsFacts.

Lemma verdict_ignores_kind_of_white_space_witness :
  isCommandSafe (js "git status")
  = isCommandSafe (map space_to_line_feed (js "git status")).
Proof.
  apply verdict_ignores_kind_of_white_space. vm_compute.
  repeat (constructor;
          [first [left; reflexivity | right; split; reflexivity] |]).
  constructor.
Defined.

Lemma verdict_ignores_case_witness :
  isCommandSafe (js "git status") = isCommandSafe (js "GIT Status").
Proof.
  apply verdict_ignores_case. vm_compute.
  repeat (constructor; [reflexivity |]). constructor.
Defined.

(** ** The assertion of the safety module *)

Section AssertionFacts.

Variable env : environment.

(** X16.  [assertCommandSafe] spawns nothing, and it throws on exactly the
    commands for which [safeRunCommand] returns a blocked result: with the
    same reason after its own prefix and with the same lines logged. On an
    accepted command it returns and leaves the world as it was. *)
Theorem assertCommandSafe_agrees_with_runner
    (command : jsstring) (o : options) (w : world) :
  let a := SafetyHelpers.assertCommandSafe env command w in
  let r := safeRunCommand env command o w in
  spawned (snd a) = spawned w /\
  ((fst a = SafetyHelpers.Normal tt /\ snd a = w /\ blocked (fst r) = false) \/
   (exists why,
      fst a = SafetyHelpers.Throws (js "Security violation: " ++ why) /\
      stderr (fst r) = js "[SAFETY] Command blocked: " ++ why /\
      blocked (fst r) = true /\ snd a = snd r)).
Proof.
  cbv zeta. unfold SafetyHelpers.assertCommandSafe.
  destruct (safe (isCommandSafe command)) eqn:Hs; cbn [negb].
  - split; [reflexivity |]. left. repeat split.
    rewrite safeRunCommand_safe by exact Hs. apply executeCommand_not_blocked.
  - rewrite safeRunCommand_unsafe by exact Hs.
    unfold mbind, M_bind, mret, M_ret.
    pose proof (logBlockedCommand_spawned env command
                  (reason (isCommandSafe command)) w) as Hlog.
    destruct (logBlockedCommand env command _ w) as [[] w1].
    cbn [fst snd] in *. split; [exact Hlog |]. right.
    exists (reason (isCommandSafe command)). now repeat split.
Qed.

End AssertionFacts.

(** ** Running the checks and counting the results *)

Section CheckerRunsFacts.

Import CheckerRuns.

Lemma tally_fold (results : list check_result) (s : summary) :
  let s' := fold_left tally results s in
  total s' = total s /\
  passed s' = passed s + with_status PASS results /\
  failed s' = failed s + with_status FAIL results /\
  warnings s' = warnings s + with_status WARN results /\
  skipped s' = skipped s + with_status SKIP results /\
  manual s' = manual s + with_status MANUAL results /\
  ready s' = ready s && (with_status FAIL results =? 0)%nat.
Proof.
  revert s. induction results as [|r results IH]; intros s; cbn [fold_left].
  - cbv zeta. unfold with_status. cbn [List.filter List.length Nat.eqb].
    rewrite andb_true_r. repeat split; lia.
  - specialize (IH (tally s r)). cbv zeta in *.
    destruct IH as (Ht & Hp & Hf & Hw & Hs & Hm & Hr).
    rewrite Ht, Hp, Hf, Hw, Hs, Hm, Hr. clear Ht Hp Hf Hw Hs Hm Hr.
    unfold with_status, tally. cbn [List.filter].
    destruct (res_status r);
      cbn [same_status List.length total passed failed warnings skipped
           manual ready Nat.eqb];
      rewrite ?andb_false_r; repeat split; try lia; reflexivity.
Qed.

Lemma statuses_partition (results : list check_result) :
  with_status PASS results + with_status FAIL results
  + with_status WARN results + with_status SKIP results
  + with_status MANUAL results = List.length results.
Proof.
  unfold with_status. induction results as [|r results IH]; [reflexivity |].
  cbn [List.filter List.length].
  destruct (res_status r); cbn [same_status List.length]; lia.
Qed.

(** X17.  The summary counts every result once: each counter is the number
    of results with that status, the five counters add up to the total,
    which is the number of results, and the summary is ready exactly when no
    result has failed. *)
Theorem summarizeResults_counts (results : list check_result) :
  let s := summarizeResults results in
  total s = List.length results /\
  passed s = with_status PASS results /\
  failed s = with_status FAIL results /\
  warnings s = with_status WARN results /\
  skipped s = with_status SKIP results /\
  manual s = with_status MANUAL results /\
  passed s + failed s + warnings s + skipped s + manual s = total s /\
  ready s = (failed s =? 0)%nat.
Proof.
  cbv zeta. unfold summarizeResults.
  destruct (tally_fold results (Summary (List.length results) 0 0 0 0 0 true))
    as (Ht & Hp & Hf & Hw & Hs & Hm & Hr).
  cbv zeta in *. cbn [total passed failed warnings skipped manual ready] in *.
  rewrite Ht, Hp, Hf, Hw, Hs, Hm, Hr. cbn [andb Nat.add].
  repeat split. apply statuses_partition.
Qed.

Lemma runSingleCheck_shape {A : Type} (c : check_def A) (dir : directory)
    (analysis : A) (w : world) :
  let r := fst (runSingleCheck c dir analysis w) in
  res_id r = check_id c /\ res_name r = check_name c /\
  res_status r <> WARN /\
  (res_status r = PASS -> res_fix r = None /\ res_warning r = None) /\
  (res_status r <> PASS -> res_version r = None /\ res_script r = None).
Proof.
  cbv zeta. unfold runSingleCheck, mbind, M_bind, mret, M_ret.
  destruct (check c dir analysis w) as [[[|] | s |] w1].
  - destruct (run_optional (getVersion c) dir analysis w1) as [v w2].
    destruct (run_optional (getScript c) dir analysis w2) as [sc w3].
    cbn. repeat split; congruence.
  - cbn. repeat split; congruence.
  - destruct (jseqb s (js "skip")); [cbn; repeat split; congruence |].
    destruct (jseqb s (js "manual")); cbn; repeat split; congruence.
  - cbn. repeat split; congruence.
Qed.

(** X18.  [runChecks] returns one result for each check, in the order of the
    checks and with their ids and names, and none of them has the status
    [warn]: the summary of a run counts no warning, and its total is the
    number of checks. *)
Theorem runChecks_results {A : Type} (checks : list (check_def A))
    (dir : directory) (analysis : A) (w : world) :
  let results := fst (runChecks checks dir analysis w) in
  map res_id results = map check_id checks /\
  map res_name results = map check_name checks /\
  warnings (summarizeResults results) = 0 /\
  total (summarizeResults results) = List.length checks.
Proof.
  cbv zeta.
  assert (H : map res_id (fst (runChecks checks dir analysis w))
              = map check_id checks /\
              map res_name (fst (runChecks checks dir analysis w))
              = map check_name checks /\
              with_status WARN (fst (runChecks checks dir analysis w)) = 0).
  { revert w. induction checks as [|c checks IH]; intros w;
      [now repeat split |].
    cbn [runChecks]. unfold mbind, M_bind, mret, M_ret.
    pose proof (runSingleCheck_shape c dir analysis w) as Hshape.
    destruct (runSingleCheck c dir analysis w) as [r w1].
    specialize (IH w1).
    destruct (runChecks checks dir analysis w1) as [rs w2].
    cbv zeta in Hshape. cbn [fst map] in *.
    destruct Hshape as (Hid & Hname & Hwarn & _).
    destruct IH as (IHid & IHname & IHwarn).
    rewrite Hid, Hname, IHid, IHname. repeat split.
    unfold with_status in *. cbn [List.filter].
    destruct (res_status r); cbn [same_status]; congruence. }
  destruct H as (Hid & Hname & Hwarn). repeat split; try assumption.
  - unfold summarizeResults.
    destruct (tally_fold (fst (runChecks checks dir analysis w))
                (Summary (List.length (fst (runChecks checks dir analysis w)))
                   0 0 0 0 0 true)) as (_ & _ & _ & Hw & _).
    cbv zeta in Hw. now rewrite Hw, Hwarn.
  - unfold summarizeResults.
    destruct (tally_fold (fst (runChecks checks dir analysis w))
                (Summary (List.length (fst (runChecks checks dir analysis w)))
                   0 0 0 0 0 true)) as (Ht & _).
    cbv zeta in Ht. rewrite Ht. cbn [total].
    now rewrite <- (length_map res_id), Hid, length_map.
Qed.

End CheckerRunsFacts.

(** ** The checks of the Node.js detector *)

Section NodeChecksFacts.

Variable JSON_parse : jsstring -> option NodeJS.package_json.

Lemma start_script_value_not_bool (dir : directory) (b : bool) :
  NodeChecks.start_script_value JSON_parse dir <> CBool b.
Proof.
  unfold NodeChecks.start_script_value, NodeChecks.start_or_dev.
  destruct (NodeJS.readJsonFile JSON_parse (js "package.json") dir) as [pkg|];
    [| discriminate].
  destruct (NodeJS.pj_scripts pkg) as [scripts|]; [| discriminate].
  destruct (scripts !! js "start") as [s|], (scripts !! js "dev") as [d|];
    try destruct (truthy s); discriminate.
Qed.

(** X19.  The check [start-script] never passes. Its function returns the
    text of the script, or [undefined], and never the boolean [true] that
    [runSingleCheck] asks for: the result is never [pass], the command to
    start the project is never recorded, and the check changes nothing. *)
Theorem start_script_never_passes
    (dir : directory) (analysis : NodeJS.analysis) (w : world) :
  let run := runSingleCheck (NodeChecks.start_script JSON_parse) dir analysis w in
  res_status (fst run) <> PASS /\ res_script (fst run) = None /\ snd run = w.
Proof.
  cbv zeta.
  assert (H : exists st msg fx,
             runSingleCheck (NodeChecks.start_script JSON_parse) dir analysis w
             = (CheckResult (js "start-script") (js "Start script defined")
                  st msg None fx None None, w) /\ st <> PASS).
  { unfold runSingleCheck, mbind, M_bind.
    cbn [check NodeChecks.start_script]. unfold mret at 1, M_ret at 1.
    pose proof (start_script_value_not_bool dir) as Hv.
    destruct (NodeChecks.start_script_value JSON_parse dir) as [b | s |].
    - now contradiction (Hv b).
    - destruct (jseqb s (js "skip")); [now repeat eexists |].
      destruct (jseqb s (js "manual")); now repeat eexists.
    - now repeat eexists. }
  destruct H as (st & msg & fx & -> & Hst). now cbn.
Qed.

(** X20.  For a package with a start script, [runSingleCheck] reports the
    check [start-script] as failed, with the text of the script as the
    message and with the advice to add a start script. *)
Theorem start_script_reported_as_failure
    (dir : directory) (analysis : NodeJS.analysis) (w : world)
    (pkg : NodeJS.package_json) (scripts : gmap jsstring jsstring)
    (script : jsstring) :
  NodeJS.readJsonFile JSON_parse (js "package.json") dir = Some pkg ->
  NodeJS.pj_scripts pkg = Some scripts ->
  scripts !! js "start" = Some script ->
  truthy script = true ->
  jseqb script (js "skip") = false ->
  jseqb script (js "manual") = false ->
  fst (runSingleCheck (NodeChecks.start_script JSON_parse) dir analysis w)
  = CheckResult (js "start-script") (js "Start script defined") FAIL script
      None (Some NodeChecks.start_script_fix) None None.
Proof.
  intros Hpkg Hscripts Hstart Htruthy Hskip Hmanual.
  unfold runSingleCheck, mbind, M_bind.
  cbn [check NodeChecks.start_script]. unfold mret at 1, M_ret at 1.
  unfold NodeChecks.start_script_value, NodeChecks.start_or_dev.
  rewrite Hpkg, Hscripts, Hstart, Htruthy, Hskip, Hmanual. reflexivity.
Qed.

(** X21.  The check [env-file] passes when there is an [.env] or when
    there is neither an [.env.example] nor an [.env.sample].  Otherwise it
    fails, and the fix names a template that exists: [.env.example] when
    there is one, also when there are both, and [.env.sample] only when
    there is no [.env.example]. *)
Theorem env_file_fix_names_template
    (dir : directory) (analysis : NodeJS.analysis) (w : world) :
  let r := fst (runSingleCheck NodeChecks.env_file dir analysis w) in
  (res_status r = PASS /\ res_fix r = None /\
   (fileExists (js ".env") dir = true \/
    fileExists (js ".env.example") dir = false /\
    fileExists (js ".env.sample") dir = false)) \/
  (res_status r = FAIL /\ fileExists (js ".env") dir = false /\
   ((fileExists (js ".env.example") dir = true /\
     res_fix r = Some (js "Copy .env.example to .env")) \/
    (fileExists (js ".env.example") dir = false /\
     fileExists (js ".env.sample") dir = true /\
     res_fix r = Some (js "Copy .env.sample to .env")))).
Proof.
  cbv zeta. unfold runSingleCheck, mbind, M_bind, mret, M_ret, apply_fix.
  cbn [check fix_ NodeChecks.env_file fst].
  destruct (fileExists (js ".env") dir); [left; cbn; auto |].
  destruct (fileExists (js ".env.example") dir) eqn:He.
  - right. cbn. auto.
  - destruct (fileExists (js ".env.sample") dir) eqn:Hs;
      [right | left]; cbn; auto 10.
Qed.

End NodeChecksFacts.

Lemma start_script_reported_as_failure_witness :
  fst (runSingleCheck
         (NodeChecks.start_script (fun _ => Some NodeChecks.served_package))
         NodeChecks.served_checkout NodeJS.not_detected (World [] []))
  = CheckResult (js "start-script") (js "Start script defined") FAIL
      (js "node server.js") None (Some NodeChecks.start_script_fix) None None.
Proof.
  apply (start_script_reported_as_failure
           (fun _ => Some NodeChecks.served_package)
           NodeChecks.served_checkout NodeJS.not_detected (World [] [])
           NodeChecks.served_package
           {[ js "start" := js "node server.js" ]} (js "node server.js"));
    vm_compute; reflexivity.
Defined.

(** ** The Docker detector *)

Section DockerDetectorFacts.

(** X22.  The three readings of the compose files agree: [detect] holds
    exactly when there is a Dockerfile or a compose file, [hasComposeFile]
    holds exactly when [getComposeFile] names a file, and the file it names
    is one of the four compose files and exists. *)
Theorem compose_file_coherent (dir : directory) :
  Docker.detect dir
  = fileExists (js "Dockerfile") dir || Docker.hasComposeFile dir /\
  Docker.hasComposeFile dir
  = match Docker.getComposeFile dir with Some _ => true | None => false end /\
  match Docker.getComposeFile dir with
  | Some f =>
      fileExists f dir = true /\
      In f [js "docker-compose.yml"; js "docker-compose.yaml";
            js "compose.yml"; js "compose.yaml"]
  | None => True
  end.
Proof.
  unfold Docker.detect, Docker.hasComposeFile, Docker.getComposeFile.
  destruct (fileExists (js "docker-compose.yml") dir) eqn:H1;
    [rewrite ?orb_true_r; cbn [In]; auto 10 |].
  destruct (fileExists (js "docker-compose.yaml") dir) eqn:H2;
    [rewrite ?orb_true_r; cbn [In]; auto 10 |].
  destruct (fileExists (js "compose.yml") dir) eqn:H3;
    [rewrite ?orb_true_r; cbn [In]; auto 10 |].
  destruct (fileExists (js "compose.yaml") dir) eqn:H4;
    [rewrite ?orb_true_r; cbn [In]; auto 10 |].
  now rewrite !orb_false_r.
Qed.

Variable env : environment.

(** X23.  In detectors/docker.js the check for Docker Compose is the probe
    for [docker] and nothing more: unless it is skipped it answers what
    [commandExists] answers for [docker] and spawns what that probe spawns,
    because the second probe, for [docker-compose], is rejected. *)
Theorem compose_check_is_docker_probe
    (dir : directory) (analysis : option Docker.analysis) (w : world) :
  let run := DockerProbe.docker_compose_check env dir analysis w in
  let probe := commandExists env (js "docker") w in
  if from_option Docker.hasCompose false analysis
  then fst run = CBool (fst probe) /\ spawned (snd run) = spawned (snd probe)
  else run = (CStr (js "skip"), w).
Proof.
  cbv zeta. unfold DockerProbe.docker_compose_check.
  destruct (from_option Docker.hasCompose false analysis); cbn [negb];
    [| reflexivity].
  unfold mbind, M_bind, mret, M_ret.
  destruct (commandExists env (js "docker") w) as [[|] w1]; cbn [fst snd];
    [now split |].
  destruct (docker_compose_probe_blocked env w1) as [Hf Hs].
  destruct (commandExists env (js "docker-compose") w1) as [found w2].
  cbn [fst snd] in *. now rewrite Hf, Hs.
Qed.

End DockerDetectorFacts.

(** ** The registry of detectors *)

Section RegistryFacts.

Import Registry.

Variables (analysis checks : Type).
Variable type_of : analysis -> option jsstring.

Lemma filter_first_in {A : Type} (f : A -> bool) (l : list A) (x : A)
    (rest : list A) :
  List.filter f l = x :: rest -> In x l /\ f x = true.
Proof.
  intros H. apply List.filter_In. rewrite H. now left.
Qed.

Lemma filter_nil_all {A : Type} (f : A -> bool) (l : list A) :
  List.filter f l = [] -> forall x, In x l -> f x = false.
Proof.
  intros H x Hin. destruct (f x) eqn:Hf; [| reflexivity].
  assert (Hx : In x (List.filter f l)) by now apply List.filter_In.
  rewrite H in Hx. contradiction.
Qed.

(** X24.  [detectPrimary] returns nothing exactly when no detector matches.
    Otherwise it returns one of the detections of [detectAll], and that is a
    Docker detection exactly when every detection is one of Docker. *)
Theorem detectPrimary_prefers_other_types
    (detectors : list (detector analysis checks)) (dir : directory) :
  match detectPrimary type_of detectors dir with
  | None => detectAll detectors dir = []
  | Some primary =>
      In primary (detectAll detectors dir) /\
      is_docker type_of primary
      = forallb (is_docker type_of) (detectAll detectors dir)
  end.
Proof.
  unfold detectPrimary. cbv zeta.
  destruct (detectAll detectors dir) as [|r1 [|r2 rest]] eqn:Hall.
  - reflexivity.
  - cbn [List.length Nat.ltb Nat.leb head forallb].
    split; [now left | now rewrite andb_true_r].
  - replace (1 <? List.length (r1 :: r2 :: rest))%nat with true by reflexivity.
    destruct (List.filter (fun r => negb (is_docker type_of r))
                (r1 :: r2 :: rest)) as [|p others] eqn:Hf.
    + cbn [head]. split; [now left |].
      assert (Hall' : forallb (is_docker type_of) (r1 :: r2 :: rest) = true).
      { apply List.forallb_forall. intros r Hin.
        apply (filter_nil_all _ _ Hf) in Hin. now apply negb_false_iff. }
      rewrite Hall'. cbn [forallb] in Hall'.
      now apply andb_true_iff in Hall' as [-> _].
    + destruct (filter_first_in _ _ _ _ Hf) as [Hin Hp]. split; [exact Hin |].
      apply negb_true_iff in Hp. rewrite Hp. symmetry.
      apply not_true_is_false. intros Hall'.
      rewrite List.forallb_forall in Hall'. specialize (Hall' p Hin).
      congruence.
Qed.

End RegistryFacts.

(** ** The legacy detector *)

Section LegacyDetectorFacts.

Import LegacyDetector.

(** X25.  Whenever [detectAllProjectTypes] finds a type in the working
    directory, [detectProjectType] does not answer [null] there: it
    returns a type, or it throws the error of the listing, which happens
    only when the directory cannot be listed. *)
Theorem detectProjectType_finds_one (a : access) (dir : directory) :
  detectAllProjectTypes a dir <> [] ->
  (exists type, detectProjectType a dir = SafetyHelpers.Normal (Some type)) \/
  (exists error,
     a = Unreadable error /\
     detectProjectType a dir = SafetyHelpers.Throws error).
Proof.
  unfold detectAllProjectTypes, detectProjectType, push_if, readdirSync.
  destruct a as [| error].
  - generalize (has_dotnet_file (map_to_list dir).*1). intros [|];
      repeat match goal with
      | |- _ -> (exists type,
                   SafetyHelpers.Normal (Some ?t) = SafetyHelpers.Normal (Some type))
                \/ _ =>
          intros _; left; now exists t
      | |- _ -> (exists type, (if ?c then _ else _) = _) \/ _ =>
          match c with
          | context [existsSync ?n dir] =>
              generalize (existsSync n dir); intros [|];
              cbn [orb app]; rewrite ?orb_true_r
          end
      end.
    intros H. now contradiction H.
  - repeat match goal with
    | |- _ -> (exists type,
                 SafetyHelpers.Normal (Some ?t) = SafetyHelpers.Normal (Some type))
              \/ _ =>
        intros _; left; now exists t
    | |- _ -> (exists type, (if ?c then _ else _) = _) \/ _ =>
        match c with
        | context [existsSync ?n dir] =>
            generalize (existsSync n dir); intros [|];
            cbn [orb app]; rewrite ?orb_true_r
        end
    end.
    intros _. right. now exists error.
Qed.

End LegacyDetectorFacts.

Lemma detectProjectType_finds_one_witness :
  (exists type,
     LegacyDetector.detectProjectType LegacyDetector.Readable
       LegacyDetector.go_checkout = SafetyHelpers.Normal (Some type)) \/
  (exists error,
     LegacyDetector.Readable = LegacyDetector.Unreadable error /\
     LegacyDetector.detectProjectType LegacyDetector.Readable
       LegacyDetector.go_checkout = SafetyHelpers.Throws error).
Proof.
  apply (detectProjectType_finds_one LegacyDetector.Readable
           LegacyDetector.go_checkout).
  vm_compute. discriminate.
Defined.

(** ** The commands of the platform module *)

Section PlatformCommandsFacts.

Lemma solid_head_rejected (pre post : jsstring) (c : N) :
  is_space c = false ->
  (forall tail,
     existsb (fun p => match_at_start p (drop_space pre ++ c :: tail))
       SAFE_COMMAND_PATTERNS = false) ->
  safe (isCommandSafe (pre ++ c :: post)) = false.
Proof.
  intros Hc Hnone. apply not_allowed_unsafe.
  rewrite (trim_around pre post c Hc).
  rewrite matches_any_anchored by (vm_compute; reflexivity).
  apply Hnone.
Qed.

Variable env : environment.

(** X26.  The commands that the platform module builds for copying and for
    removing are rejected by the classifier on every platform and for all
    arguments: the guarded runner would spawn none of them. *)
Theorem platform_commands_rejected
    (source dest target : jsstring) (recursive : bool) :
  safe (isCommandSafe (PlatformCommands.getCopyCommand env source dest)) = false /\
  safe (isCommandSafe (PlatformCommands.getRemoveCommand env target recursive))
  = false.
Proof.
  unfold PlatformCommands.getCopyCommand, PlatformCommands.getRemoveCommand.
  destruct (Platform.isWindows env); (split; [| destruct recursive]).
  - change (js "copy " ++ source ++ js " " ++ dest)
      with (js "co" ++ chr "p" :: js "y " ++ source ++ js " " ++ dest).
    apply solid_head_rejected; [reflexivity |].
    intros tail. vm_compute. reflexivity.
  - change (js "rmdir /s /q " ++ target)
      with (js "r" ++ chr "m" :: js "dir /s /q " ++ target).
    apply solid_head_rejected; [reflexivity |].
    intros tail. vm_compute. reflexivity.
  - change (js "del " ++ target) with (js "d" ++ chr "e" :: js "l " ++ target).
    apply solid_head_rejected; [reflexivity |].
    intros tail. vm_compute. reflexivity.
  - change (js "cp " ++ source ++ js " " ++ dest)
      with (js "c" ++ chr "p" :: js " " ++ source ++ js " " ++ dest).
    apply solid_head_rejected; [reflexivity |].
    intros tail. vm_compute. reflexivity.
  - change (js "rm -rf " ++ target)
      with (js "r" ++ chr "m" :: js " -rf " ++ target).
    apply solid_head_rejected; [reflexivity |].
    intros tail. vm_compute. reflexivity.
  - change (js "rm " ++ target) with (js "r" ++ chr "m" :: js " " ++ target).
    apply solid_head_rejected; [reflexivity |].
    intros tail. vm_compute. reflexivity.
Qed.

End PlatformCommandsFacts.

(** ** The queries of the git analyzer *)

Section GitAnalyzerFacts.

Variable env : environment.

Import GitAnalyzer.

Lemma accepted_query_runs (command : string) (dir : jsstring) (w : world) :
  safe (isCommandSafe (js command)) = true ->
  safeRunCommand env (js command) (GitAnalyzer.in_dir dir) w
  = (match os_exec env (query command dir) (spawned w) with
     | Returned (Some out) =>
         {| success := true; stdout := trim out; stderr := [];
            code := 0; blocked := false |}
     | Returned None => failure_of trim_of_null
     | Thrown e => failure_of e
     end,
     World (spawned w ++ [query command dir]) (console_error w)).
Proof.
  intros Hs. rewrite safeRunCommand_safe by exact Hs. reflexivity.
Qed.

(** X27.  Each query of the git analyzer passes the guard: it spawns its own
    command once, in the directory it was given, with piped output and the
    default timeout of ten seconds, and nothing else. *)
Theorem analyzer_queries_run (dir : jsstring) (w : world) :
  spawned (snd (GitAnalyzer.isGitRepository env dir w))
  = spawned w ++ [query "git rev-parse --is-inside-work-tree 2>&1" dir] /\
  spawned (snd (GitAnalyzer.getCurrentBranch env dir w))
  = spawned w ++ [query "git branch --show-current 2>&1" dir] /\
  spawned (snd (GitAnalyzer.checkDetachedHead env dir w))
  = spawned w ++ [query "git symbolic-ref HEAD 2>&1" dir] /\
  spawned (snd (GitAnalyzer.hasUncommittedChanges env dir w))
  = spawned w ++ [query "git status --porcelain 2>&1" dir] /\
  spawned (snd (GitAnalyzer.hasStagedChanges env dir w))
  = spawned w ++ [query "git diff --cached --quiet 2>&1" dir] /\
  spawned (snd (GitAnalyzer.hasUntrackedFiles env dir w))
  = spawned w ++ [query "git ls-files --others --exclude-standard 2>&1" dir] /\
  spawned (snd (GitAnalyzer.hasConflicts env dir w))
  = spawned w ++ [query "git ls-files -u 2>&1" dir].
Proof.
  unfold GitAnalyzer.isGitRepository, GitAnalyzer.getCurrentBranch,
    GitAnalyzer.checkDetachedHead, GitAnalyzer.hasUncommittedChanges,
    GitAnalyzer.hasStagedChanges, GitAnalyzer.hasUntrackedFiles,
    GitAnalyzer.hasConflicts, mbind, M_bind, mret, M_ret.
  rewrite !accepted_query_runs by reflexivity.
  now repeat split.
Qed.

(** X28.  [checkDetachedHead] and [hasStagedChanges] answer [true] exactly
    when their command does not return its output: a command that fails for
    any reason, a missing git or a directory that is no repository included,
    reads as a detached HEAD and as staged changes. The search for a text in
    the error output never changes the answer of [checkDetachedHead]. *)
Theorem failure_reads_as_detached_and_staged (dir : jsstring) (w : world) :
  fst (GitAnalyzer.checkDetachedHead env dir w)
  = match os_exec env (query "git symbolic-ref HEAD 2>&1" dir) (spawned w) with
    | Returned (Some _) => false
    | _ => true
    end /\
  fst (GitAnalyzer.hasStagedChanges env dir w)
  = match os_exec env (query "git diff --cached --quiet 2>&1" dir) (spawned w) with
    | Returned (Some _) => false
    | _ => true
    end.
Proof.
  unfold GitAnalyzer.checkDetachedHead, GitAnalyzer.hasStagedChanges,
    mbind, M_bind, mret, M_ret.
  rewrite !accepted_query_runs by reflexivity. cbn [fst]. split.
  - destruct (os_exec env _ _) as [[out|] | e]; reflexivity.
  - destruct (os_exec env _ _) as [[out|] | e]; reflexivity.
Qed.

End GitAnalyzerFacts.
